(** * create-divi-extension: the bootstrapping orchestrator

    A shallow embedding of [packages/create-divi-extension/CreateDiviExtension.js]
    and the properties of its resolver, connectivity probe, manifest rewriter,
    prefix derivation and rollback handler.

    Conventions.
    - A JavaScript string is a Rocq [string]; each character stands for one
      code unit below 128.  Project names that reach the code have passed
      [checkAppName] (validate-npm-package-name), so they are URL-safe ASCII;
      case mapping is therefore the ASCII one and the only line terminators
      are line feed and carriage return.
    - [undefined] is [None] (or [JUndefined] for a property value), [null]
      returned by a library call is [None].
    - A call is a function of the world (target directory, working
      directory, console, processes started) that ends in one of four ways:
      it returns or its promise resolves, it throws, its promise rejects, or
      [process.exit] ends the process.  [then] and [catch] turn an exception
      of their callback into a rejection; [process.exit] passes through
      both.
    - Third-party packages (semver, validate-npm-package-name, dns, the
      package manager, the downstream init script) are fields of an
      environment record [Env]; nothing is assumed of them except where a
      statement names the assumption. *)

From Stdlib Require Import Ascii String ZArith Lia Bool.
From stdpp Require Import base list strings gmap.

Local Open Scope Z_scope.

(** ** JavaScript string primitives *)

Module Js.

(** [s.length] *)
Fixpoint len (s : string) : nat :=
  match s with
  | EmptyString => O
  | String _ r => S (len r)
  end.

Fixpoint take (n : nat) (s : string) : string :=
  match n, s with
  | S k, String c r => String c (take k r)
  | _, _ => EmptyString
  end.

Fixpoint drop (n : nat) (s : string) : string :=
  match n, s with
  | S k, String _ r => drop k r
  | _, _ => s
  end.

(** [s[i]]: a one-character value, or [undefined] past the end. *)
Fixpoint at_ (s : string) (i : nat) : option ascii :=
  match s, i with
  | EmptyString, _ => None
  | String c _, O => Some c
  | String _ r, S k => at_ r k
  end.

(** [s[i]] for an index computed by the program (negative: [undefined]). *)
Definition index (s : string) (i : Z) : option ascii :=
  if i <? 0 then None else at_ s (Z.to_nat i).

(** [s.charAt(i)]: the empty string past the end. *)
Definition charAt (s : string) (i : nat) : string :=
  match at_ s i with
  | Some c => String c EmptyString
  | None => EmptyString
  end.

(** Clamping of an index argument to [0 .. s.length]. *)
Definition clamp (s : string) (i : Z) : nat :=
  Z.to_nat (Z.min (Z.max i 0) (Z.of_nat (len s))).

(** [s.substring(a, b)]: both indices clamped, swapped when [a > b]. *)
Definition substring (s : string) (a b : Z) : string :=
  let a' := clamp s a in
  let b' := clamp s b in
  let lo := Nat.min a' b' in
  let hi := Nat.max a' b' in
  take (hi - lo) (drop lo s).

(** [s.slice(a)]: a negative index counts from the end. *)
Definition slice (s : string) (a : Z) : string :=
  let n := Z.of_nat (len s) in
  let from := if a <? 0 then Z.max (n + a) 0 else Z.min a n in
  drop (Z.to_nat from) s.

Definition is_upper (c : ascii) : bool :=
  let n := nat_of_ascii c in (65 <=? n)%nat && (n <=? 90)%nat.

Definition is_lower (c : ascii) : bool :=
  let n := nat_of_ascii c in (97 <=? n)%nat && (n <=? 122)%nat.

Definition is_digit (c : ascii) : bool :=
  let n := nat_of_ascii c in (48 <=? n)%nat && (n <=? 57)%nat.

Definition lower_char (c : ascii) : ascii :=
  if is_upper c then ascii_of_nat (nat_of_ascii c + 32) else c.

Definition upper_char (c : ascii) : ascii :=
  if is_lower c then ascii_of_nat (nat_of_ascii c - 32) else c.

Fixpoint map_chars (f : ascii -> ascii) (s : string) : string :=
  match s with
  | EmptyString => EmptyString
  | String c r => String (f c) (map_chars f r)
  end.

Definition toLowerCase : string -> string := map_chars lower_char.
Definition toUpperCase : string -> string := map_chars upper_char.

(** Line terminators: what [.] refuses and what [^] with the [m] flag
    starts a line after. *)
Definition is_line_terminator (c : ascii) : bool :=
  (nat_of_ascii c =? 10)%nat || (nat_of_ascii c =? 13)%nat.

Fixpoint no_line_terminator (s : string) : bool :=
  match s with
  | EmptyString => true
  | String c r => negb (is_line_terminator c) && no_line_terminator r
  end.

(** [s.indexOf(p) === 0] *)
Fixpoint starts_with (p s : string) : bool :=
  match p, s with
  | EmptyString, _ => true
  | String a p', String b s' => Ascii.eqb a b && starts_with p' s'
  | String _ _, EmptyString => false
  end.

(** [s.indexOf(p) > -1] *)
Fixpoint contains (p s : string) : bool :=
  starts_with p s ||
  match s with
  | EmptyString => false
  | String _ r => contains p r
  end.

(** [s.indexOf(p)] *)
Fixpoint indexOf (p s : string) : Z :=
  if starts_with p s then 0
  else match s with
       | EmptyString => -1
       | String _ r => let i := indexOf p r in if i <? 0 then -1 else i + 1
       end.

(** Truthiness of a string value. *)
Definition truthy (s : string) : bool :=
  match s with EmptyString => false | _ => true end.

End Js.

(** ** Template Token Substitution Engine: the prefix derivation *)

Module Template.

(** One character of [/divi/i]. *)
Definition ci_eq (pat c : ascii) : bool :=
  Ascii.eqb (Js.lower_char c) pat.

(** [s.replace(/^divi/igm, '')].  With the [m] flag [^] holds at the start
    of the input and after each line terminator, with [g] every match is
    removed; [bol] tells whether the current position starts a line. *)
Fixpoint replace_divi_from (bol : bool) (s : string) : string :=
  match s with
  | EmptyString => EmptyString
  | String c1 r1 =>
      let keep := String c1 (replace_divi_from (Js.is_line_terminator c1) r1) in
      if bol then
        match r1 with
        | String c2 (String c3 (String c4 r)) =>
            if ci_eq "d" c1 && ci_eq "i" c2 && ci_eq "v" c3 && ci_eq "i" c4
            then replace_divi_from false r
            else keep
        | _ => keep
        end
      else keep
  end.

Definition replace_divi (appName : string) : string :=
  replace_divi_from true appName.

(** [['-', '_'].includes(x)] for [x] a character or [undefined]. *)
Definition is_separator (x : option ascii) : bool :=
  match x with
  | Some c => Ascii.eqb c "-" || Ascii.eqb c "_"
  | None => false
  end.

Record TemplateContext := {
  prefix : string;
  PREFIX : string;
  Prefix : string
}.

(** [prefix] as first assigned and as logged: the stripped name cut by
    [substring( start, end )] and lower-cased. *)
Definition truncated (appName : string) : string :=
  let end_ := 4 in
  let prefix0 := replace_divi appName in
  let start := if is_separator (Js.index prefix0 0) then 1 else 0 in
  Js.toLowerCase (Js.substring prefix0 start end_).

(** The first lines of [finalize_extension_files], up to the three names
    used by the token replacement. *)
Definition derive (appName : string) : TemplateContext :=
  let prefix1 := truncated appName in
  let prefix2 :=
    if is_separator (Js.index prefix1 (Z.of_nat (Js.len prefix1) - 1))
    then Js.substring prefix1 0 (Z.of_nat (Js.len prefix1) - 1)
    else prefix1 in
  let PREFIX := Js.toUpperCase prefix2 in
  {| prefix := prefix2;
     PREFIX := PREFIX;
     Prefix := Js.charAt PREFIX 0 +:+ Js.slice prefix2 1 |}.

End Template.

(** ** The regular expressions of the resolver and of the rollback handler *)

Module Pattern.

(** [s.match( /.log/g )] is truthy: some character that is not a line
    terminator is followed by [log]. *)
Fixpoint dot_log (s : string) : bool :=
  match s with
  | EmptyString => false
  | String c r =>
      (negb (Js.is_line_terminator c) && Js.starts_with "log" r) || dot_log r
  end.

(** [/.+\.tgz$/] anchored at the current position. *)
Fixpoint dot_plus_tgz (m : string) : bool :=
  match m with
  | EmptyString => false
  | String c r =>
      negb (Js.is_line_terminator c) && (String.eqb r ".tgz" || dot_plus_tgz r)
  end.

(** [/(?:-\d+.+)?\.tgz$/] anchored at the current position.  One digit
    is enough for [\d+]: further digits are taken by [.+]. *)
Definition tgz_tail (r : string) : bool :=
  String.eqb r ".tgz" ||
  match r with
  | String c (String d m) => Ascii.eqb c "-" && Js.is_digit d && dot_plus_tgz m
  | _ => false
  end.

(** The lazy group [(.+?)] followed by [tgz_tail]: the shortest run. *)
Fixpoint tgz_group (s : string) : option string :=
  match s with
  | EmptyString => None
  | String c r =>
      if Js.is_line_terminator c then None
      else if tgz_tail r then Some (String c EmptyString)
      else match tgz_group r with
           | Some g => Some (String c g)
           | None => None
           end
  end.

(** The greedy [.+\/] once [.+] holds a character: a later slash is tried
    before the current one. *)
Fixpoint tgz_scan (s : string) : option string :=
  match s with
  | EmptyString => None
  | String c r =>
      if Js.is_line_terminator c then None
      else match tgz_scan r with
           | Some g => Some g
           | None => if Ascii.eqb c "/" then tgz_group r else None
           end
  end.

(** Group 1 of [s.match( /^.+\/(.+?)(?:-\d+.+)?\.tgz$/ )], [None] when the
    match is [null]. *)
Definition tgz_name (s : string) : option string :=
  match s with
  | EmptyString => None
  | String c r => if Js.is_line_terminator c then None else tgz_scan r
  end.

(** The end of the git pattern, anchored at the current position: [.git],
    then nothing or [#] and characters other than line terminators, then
    the end of the input. *)
Definition git_tail (r : string) : bool :=
  match r with
  | String c1 (String c2 (String c3 (String c4 rest))) =>
      Ascii.eqb c1 "." && Ascii.eqb c2 "g" && Ascii.eqb c3 "i" && Ascii.eqb c4 "t" &&
      match rest with
      | EmptyString => true
      | String h ref => Ascii.eqb h "#" && Js.no_line_terminator ref
      end
  | _ => false
  end.

(** The greedy group [([^\/]+)] followed by [git_tail], from a fixed
    start: the longest run. *)
Fixpoint git_group (s : string) : option string :=
  match s with
  | EmptyString => None
  | String c r =>
      if Ascii.eqb c "/" then None
      else match git_group r with
           | Some g => Some (String c g)
           | None => if git_tail r then Some (String c EmptyString) else None
           end
  end.

(** Group 1 of the match of the git pattern (a run without [/], then
    [git_tail]) on [s]: the leftmost start that matches, [None] when the
    match is [null]. *)
Fixpoint git_name (s : string) : option string :=
  match git_group s with
  | Some g => Some g
  | None => match s with
            | EmptyString => None
            | String _ r => git_name r
            end
  end.

(** [s.split('@')[0]] *)
Fixpoint before_at (s : string) : string :=
  match s with
  | EmptyString => EmptyString
  | String c r => if Ascii.eqb c "@" then EmptyString else String c (before_at r)
  end.

(** [/^http/.test(s)] *)
Definition is_http (s : string) : bool := Js.starts_with "http" s.

End Pattern.

(** ** The semver package, as far as the examples need it *)

(** A model of the strict-mode [semver.valid] of the semver package, which
    is not part of this repository: the statements about the orchestrator
    quantify over every [Env]; this model only instantiates them. *)
Module Semver.

Definition is_space (c : ascii) : bool :=
  let n := nat_of_ascii c in
  (n =? 32)%nat || ((9 <=? n)%nat && (n <=? 13)%nat).

Fixpoint trim_left (s : string) : string :=
  match s with
  | String c r => if is_space c then trim_left r else s
  | EmptyString => EmptyString
  end.

Fixpoint trim_right (s : string) : string :=
  match s with
  | EmptyString => EmptyString
  | String c r =>
      match trim_right r with
      | EmptyString => if is_space c then EmptyString else String c EmptyString
      | r' => String c r'
      end
  end.

Definition trim (s : string) : string := trim_right (trim_left s).

(** The longest leading run of characters that satisfy [p], and the rest. *)
Fixpoint span (p : ascii -> bool) (s : string) : string * string :=
  match s with
  | EmptyString => (EmptyString, EmptyString)
  | String c r =>
      if p c then let '(a, b) := span p r in (String c a, b)
      else (EmptyString, s)
  end.

Fixpoint all_chars (p : ascii -> bool) (s : string) : bool :=
  match s with
  | EmptyString => true
  | String c r => p c && all_chars p r
  end.

(** The fields between the dots. *)
Fixpoint fields (s : string) : list string :=
  match s with
  | EmptyString => [EmptyString]
  | String c r =>
      if Ascii.eqb c "." then EmptyString :: fields r
      else match fields r with
           | f :: fs => String c f :: fs
           | [] => [String c EmptyString]
           end
  end.

Fixpoint decimal_from (acc : N) (s : string) : N :=
  match s with
  | EmptyString => acc
  | String c r => decimal_from (acc * 10 + N.of_nat (nat_of_ascii c - 48)) r
  end.

Definition MAX_SAFE_INTEGER : N := 9007199254740991.
Definition MAX_LENGTH : nat := 256.

(** [0|[1-9]\d*] *)
Definition numeric_identifier (d : string) : bool :=
  match d with
  | EmptyString => false
  | String c EmptyString => Js.is_digit c
  | String c r => Js.is_digit c && negb (Ascii.eqb c "0") && all_chars Js.is_digit r
  end.

Definition is_id_char (c : ascii) : bool :=
  Js.is_digit c || Js.is_upper c || Js.is_lower c || Ascii.eqb c "-".

(** A prerelease identifier: numeric, or with a letter or hyphen in it. *)
Definition prerelease_identifier (d : string) : bool :=
  numeric_identifier d
  || (Js.truthy d && all_chars is_id_char d && negb (all_chars Js.is_digit d)).

(** A build identifier: [[0-9A-Za-z-]+] *)
Definition build_identifier (d : string) : bool :=
  Js.truthy d && all_chars is_id_char d.

(** One of major, minor, patch at the head of [s]. *)
Definition main_number (s : string) : option (string * string) :=
  let '(d, r) := span Js.is_digit s in
  if numeric_identifier d && (decimal_from 0 d <=? MAX_SAFE_INTEGER)%N
  then Some (d, r) else None.

Definition expect (c : ascii) (s : string) : option string :=
  match s with
  | String c' r => if Ascii.eqb c c' then Some r else None
  | EmptyString => None
  end.

(** The build metadata after [+], up to the end of the input. *)
Definition build_ok (s : string) : bool :=
  forallb build_identifier (fields s).

(** What follows the patch number: nothing, a prerelease, build metadata,
    or both.  The result is the prerelease when there is one. *)
Definition after_patch (s : string) : option (option string) :=
  match s with
  | EmptyString => Some None
  | String c r =>
      if Ascii.eqb c "+" then (if build_ok r then Some None else None)
      else if Ascii.eqb c "-" then
        let '(pre, rest) := span (fun x => is_id_char x || Ascii.eqb x ".") r in
        if forallb prerelease_identifier (fields pre) then
          match rest with
          | EmptyString => Some (Some pre)
          | String p b =>
              if Ascii.eqb p "+" && build_ok b then Some (Some pre) else None
          end
        else None
      else None
  end.

(** [semver.valid( v )]: [major.minor.patch] and the prerelease of a
    version that parses; the build metadata is not part of the result. *)
Definition valid (v : string) : option string :=
  let t := trim v in
  if (MAX_LENGTH <? Js.len v)%nat then None
  else
    let t := match t with
             | String c r => if Ascii.eqb c "v" then r else t
             | EmptyString => t
             end in
    match main_number t with
    | None => None
    | Some (major, r1) =>
    match expect "." r1 with
    | None => None
    | Some r1 =>
    match main_number r1 with
    | None => None
    | Some (minor, r2) =>
    match expect "." r2 with
    | None => None
    | Some r2 =>
    match main_number r2 with
    | None => None
    | Some (patch, r3) =>
    match after_patch r3 with
    | None => None
    | Some pre =>
        Some (major +:+ "." +:+ minor +:+ "." +:+ patch
              +:+ match pre with
                  | Some p => "-" +:+ p
                  | None => EmptyString
                  end)
    end end end end end end.

(** The ranges made of one comparator that is a version or a caret and a
    version; [semver.validRange] accepts more than these. *)
Definition validRange (r : string) : bool :=
  match trim r with
  | String c v =>
      if Ascii.eqb c "^" then bool_decide (is_Some (valid v))
      else bool_decide (is_Some (valid (String c v)))
  | EmptyString => false
  end.

(** [semver.gte( a, b )] on the main version numbers. *)
Definition triple (v : string) : option (N * N * N) :=
  match valid v with
  | None => None
  | Some n =>
      match fields (span (fun c => negb (Ascii.eqb c "-")) n).1 with
      | [a; b; c] => Some (decimal_from 0 a, decimal_from 0 b, decimal_from 0 c)
      | _ => None
      end
  end.

Definition gte (a b : string) : option bool :=
  match triple a, triple b with
  | Some (a1, a2, a3), Some (b1, b2, b3) =>
      Some ((b1 <? a1)%N
            || ((b1 =? a1)%N && ((b2 <? a2)%N || ((b2 =? a2)%N && (b3 <=? a3)%N))))
  | _, _ => None
  end.

End Semver.

(** ** Data model *)

(** A property value of the manifest's dependency objects. *)
Inductive jsval :=
| JUndefined
| JStr (s : string).

#[global] Instance jsval_eq_dec : EqDecision jsval.
Proof. solve_decision. Defined.

(** The entry an object has of its own under [name], [undefined] when it
    has none: what [JSON.stringify] writes for that name. *)
Definition prop (obj : gmap string jsval) (name : string) : jsval :=
  default JUndefined (obj !! name).

(** The names every object inherits from [Object.prototype]. *)
Definition inherited_names : list string :=
  ["constructor"; "hasOwnProperty"; "isPrototypeOf"; "propertyIsEnumerable";
   "toLocaleString"; "toString"; "valueOf"; "__proto__";
   "__defineGetter__"; "__defineSetter__"; "__lookupGetter__"; "__lookupSetter__"].

Definition inherited (name : string) : bool :=
  existsb (String.eqb name) inherited_names.

(** What a read [obj[name]] gives: a value of the manifest, or a function
    or object that comes from [Object.prototype]. *)
Inductive read :=
| Value (v : jsval)
| Builtin.

(** [obj[name]] on an object that was parsed from JSON or written as a
    literal: the entry of the object itself, else what [Object.prototype]
    holds under that name, else [undefined]. *)
Definition get (obj : gmap string jsval) (name : string) : read :=
  match obj !! name with
  | Some v => Value v
  | None => if inherited name then Builtin else Value JUndefined
  end.

(** [obj[name] = value] for a value that was read from an object.  Storing
    what [Object.prototype] holds under [name] anyway leaves the object, for
    every later read and for [JSON.stringify] (which leaves functions out),
    as if it had no entry of its own.  An entry named [__proto__] that an
    object has of its own is outside the model. *)
Definition assign (obj : gmap string jsval) (name : string) (value : read)
    : gmap string jsval :=
  match value with
  | Value v => <[name := v]> obj
  | Builtin => delete name obj
  end.

(** [String( {}[name] )] for a name every object inherits: the text of the
    built-in function, and of [Object.prototype] itself for [__proto__]. *)
Definition builtin_text (name : string) : string :=
  if String.eqb name "__proto__" then "[object Object]"
  else "function "
       +:+ (if String.eqb name "constructor" then "Object" else name)
       +:+ "() { [native code] }".

(** What [JSON.stringify] keeps of an object: properties whose value is
    [undefined] are left out. *)
Definition stringify_props (obj : gmap string jsval) : gmap string jsval :=
  filter (fun kv => kv.2 <> JUndefined) obj.

(** The package descriptor [package.json] of the target directory. *)
Record Manifest := {
  pkg_name : string;
  pkg_version : string;
  dependencies : option (gmap string jsval);
  devDependencies : option (gmap string jsval)
}.

(** The target directory: whether it exists, the names [readdirSync] lists
    in it, and its manifest when [package.json] is there and parses. *)
Record Fs := {
  root_exists : bool;
  entries : list string;
  manifest : option Manifest
}.

Inductive Cwd := AtOriginal | AtRoot | AtParent.

(** Calls that leave the process. *)
Inductive Event :=
| Spawn (command : string) (args : list string)
| DnsLookup (host : string)
| HttpGet (url : string)
| ReadStream (path : string).

(** A thrown value or rejection reason: the [{ command }] object of a failed
    install, or an error object with its message. *)
Inductive Reason :=
| InstallFailure (command : string)
| TypeError (message : string)
| Error (message : string).

Definition reason_command (r : Reason) : option string :=
  match r with
  | InstallFailure c => Some c
  | _ => None
  end.

Definition reason_message (r : Reason) : string :=
  match r with
  | InstallFailure _ => "undefined"
  | TypeError m => m
  | Error m => m
  end.

Record World := {
  fs : Fs;
  cwd : Cwd;
  console : list string;
  events : list Event
}.

(** How a call ends: it returns (a promise resolves), it throws
    synchronously, the promise it returned rejects, or [process.exit] ends
    the process. *)
Inductive Outcome (A : Type) :=
| Returned (a : A)
| Thrown (r : Reason)
| Rejected (r : Reason)
| Exited (code : Z).

Arguments Returned {A} a.
Arguments Thrown {A} r.
Arguments Rejected {A} r.
Arguments Exited {A} code.

Definition Proc (A : Type) : Type := World -> World * Outcome A.

(** What a call into the code of another package, run in this process,
    does: the target directory and the working directory it leaves, the
    lines it prints, what it starts, and how it ends. *)
Record Effect := {
  left_fs : Fs;
  left_cwd : Cwd;
  printed : list string;
  started : list Event;
  ended_with : Outcome unit
}.

Module Proc.

Definition ret {A} (a : A) : Proc A := fun w => (w, Returned a).
Definition throw {A} (r : Reason) : Proc A := fun w => (w, Thrown r).
Definition reject {A} (r : Reason) : Proc A := fun w => (w, Rejected r).
Definition exit {A} (code : Z) : Proc A := fun w => (w, Exited code).

(** Sequencing of statements: anything but a return ends the sequence. *)
Definition bind {A B} (m : Proc A) (k : A -> Proc B) : Proc B :=
  fun w =>
    match m w with
    | (w', Returned a) => k a w'
    | (w', Thrown r) => (w', Thrown r)
    | (w', Rejected r) => (w', Rejected r)
    | (w', Exited c) => (w', Exited c)
    end.

(** An exception thrown inside a promise callback rejects the promise the
    callback was registered on. *)
Definition in_callback {A} (m : Proc A) : Proc A :=
  fun w =>
    match m w with
    | (w', Thrown r) => (w', Rejected r)
    | other => other
    end.

(** [m.then( k )] *)
Definition then_ {A B} (m : Proc A) (k : A -> Proc B) : Proc B :=
  fun w =>
    match m w with
    | (w', Returned a) => in_callback (k a) w'
    | (w', Thrown r) => (w', Thrown r)
    | (w', Rejected r) => (w', Rejected r)
    | (w', Exited c) => (w', Exited c)
    end.

(** [m.catch( h )]: only a rejection reaches the handler. *)
Definition catch_ {A} (m : Proc A) (h : Reason -> Proc A) : Proc A :=
  fun w =>
    match m w with
    | (w', Rejected r) => in_callback (h r) w'
    | other => other
    end.

Definition log (line : string) : Proc unit :=
  fun w => ({| fs := fs w; cwd := cwd w; console := console w ++ [line];
               events := events w |}, Returned tt).

Definition emit (e : Event) : Proc unit :=
  fun w => ({| fs := fs w; cwd := cwd w; console := console w;
               events := events w ++ [e] |}, Returned tt).

Definition chdir (d : Cwd) : Proc unit :=
  fun w => ({| fs := fs w; cwd := d; console := console w;
               events := events w |}, Returned tt).

(** A call into the environment that ended with outcome [o]. *)
Definition ended {A} (o : Outcome A) : Proc A := fun w => (w, o).

(** A call into the code of another package, started on the target
    directory and in the working directory of the moment. *)
Definition call (code : Fs -> Cwd -> Effect) : Proc unit :=
  fun w =>
    let e := code (fs w) (cwd w) in
    ({| fs := left_fs e; cwd := left_cwd e; console := console w ++ printed e;
        events := events w ++ started e |}, ended_with e).

Definition get_fs : Proc Fs := fun w => (w, Returned (fs w)).

Definition put_fs (f : Fs) : Proc unit :=
  fun w => ({| fs := f; cwd := cwd w; console := console w;
               events := events w |}, Returned tt).

(** [list.forEach( f )] *)
Fixpoint forEach {A} (l : list A) (f : A -> Proc unit) : Proc unit :=
  match l with
  | [] => ret tt
  | x :: r => bind (f x) (fun _ => forEach r f)
  end.

End Proc.

#[global] Instance proc_ret : MRet Proc := @Proc.ret.
#[global] Instance proc_bind : MBind Proc := fun A B k m => Proc.bind m k.

(** ** The environment *)

(** The result object of validate-npm-package-name. *)
Record NameCheck := {
  validForNewPackages : bool;
  errors : option (list string);
  warnings : option (list string)
}.

(** What the run takes from outside the file: third-party packages, the
    operating system and the programs it starts. *)
Record Env := {
  (** [semver.valid( v )] on a string: the normalised version, or [null]. *)
  semver_valid : string -> option string;
  (** Truthiness of [semver.validRange( r )]. *)
  semver_validRange : string -> bool;
  (** [semver.gte( a, b )], [None] when it throws. *)
  semver_gte : string -> string -> option bool;
  (** [semver.satisfies( process.version, range )]. *)
  node_satisfies : string -> bool;
  validateProjectName : string -> NameCheck;
  path_resolve : string -> string;
  path_basename : string -> string;
  (** [execSync( 'yarnpkg --version' )] returns. *)
  yarnpkg_runs : bool;
  (** Trimmed output of [execSync( 'npm --version' )], [None] when it throws. *)
  npm_version_output : option string;
  (** Unpacking the archive into a temporary directory and reading [name]
      from its manifest: the name, or the reason with which that chain of
      promises rejects (the unpacker reports an error, or [require] of the
      unpacked [package.json] throws). *)
  archive_name : string -> Reason + string;
  (** The [err] that [dns.lookup] passes to its callback, [None] for [null]. *)
  dns_lookup_err : string -> option Reason;
  (** The package manager run as a child process in the target directory:
      what it leaves there and the [code] of its [close] event ([None] for
      [null], when a signal ended it). *)
  child_process : string -> list string -> Fs -> Fs * option Z;
  (** [require] of the installed package's manifest: [engines.node] when it
      is there, or the reason the manifest could not be loaded. *)
  installed_engines_node : string -> Reason + option string;
  (** The downstream [scripts/init.js] of the installed package, called
      in this process: it may write to the target directory, change the
      working directory, print and start processes of its own. *)
  init_script : string -> string -> string -> bool -> Fs -> Cwd -> Effect;
  (** The token replacement and the renames of [finalize_extension_files]
      on the three scaffold files. *)
  rewrite_scaffold : string -> string -> Template.TemplateContext -> Fs -> Fs * Outcome unit
}.

(** ** The orchestrator *)

Definition dquote : string := String (ascii_of_nat 34) EmptyString.

(** The allow-list of the rollback handler. *)
Definition knownGeneratedFiles : list string :=
  ["package.json"; "npm-debug.log"; "yarn-error.log"; "yarn-debug.log"; "node_modules"].

(** The names [isSafeToCreateProjectIn] tolerates in the target directory. *)
Definition validFiles : list string :=
  [".DS_Store"; "Thumbs.db"; ".git"; ".gitignore"; ".idea"; "README.md";
   "LICENSE"; "web.iml"; ".hg"; ".hgignore"; ".hgcheck"].

(** [list.indexOf( x ) >= 0] *)
Definition includes (x : string) (l : list string) : bool :=
  existsb (String.eqb x) l.

Module FsOp.

(** [fs.readdirSync( root )] *)
Definition readdirSync : Proc (list string) :=
  f ← Proc.get_fs;
  if root_exists f then mret (entries f)
  else Proc.throw (Error "ENOENT: no such file or directory, scandir").

(** [fs.ensureDirSync( name )] *)
Definition ensureDirSync : Proc unit :=
  f ← Proc.get_fs;
  if root_exists f then mret tt
  else Proc.put_fs {| root_exists := true; entries := []; manifest := None |}.

(** [fs.removeSync( path.join( root, file ) )]: a missing path is not an
    error. *)
Definition removeSync (file : string) : Proc unit :=
  f ← Proc.get_fs;
  Proc.put_fs
    {| root_exists := root_exists f;
       entries := filter (fun e => e <> file) (entries f);
       manifest := if String.eqb file "package.json" then None else manifest f |}.

(** [fs.removeSync( path.join( root ) )] *)
Definition removeRoot : Proc unit :=
  Proc.put_fs {| root_exists := false; entries := []; manifest := None |}.

(** [fs.writeFileSync( path.join( root, 'package.json' ), JSON.stringify( m, null, 2 ) )] *)
Definition writeManifest (m : Manifest) : Proc unit :=
  f ← Proc.get_fs;
  if root_exists f then
    Proc.put_fs
      {| root_exists := true;
         entries := if includes "package.json" (entries f) then entries f
                    else entries f ++ ["package.json"];
         manifest := Some m |}
  else Proc.throw (Error "ENOENT: no such file or directory, open").

(** [require( packagePath )] of the target directory's manifest. *)
Definition requireManifest : Proc Manifest :=
  f ← Proc.get_fs;
  match manifest f with
  | Some m => mret m
  | None => Proc.throw (Error "Cannot find module")
  end.

End FsOp.

Section Orchestrator.

Variable E : Env.

(** [semver.valid( version )] for a value that may be [undefined]: a
    value that is not a string is not a version. *)
Definition valid_version (version : option string) : option string :=
  match version with
  | Some v => semver_valid E v
  | None => None
  end.

Definition getInstallPackage (version : option string) : string :=
  let packageToInstall := "react-scripts" in
  match valid_version version with
  | Some (String _ _ as validSemver) => packageToInstall +:+ "@" +:+ validSemver
  | _ =>
      match version with
      | Some (String _ _ as v) => v
      | _ => packageToInstall
      end
  end.

(** The first two [then] steps of the archive branch of [getPackageName]:
    temporary directory, download or read stream, unpacking, [require]. *)
Definition readArchiveName (installPackage : string) : Proc string :=
  Proc.emit (if Pattern.is_http installPackage then HttpGet installPackage
             else ReadStream installPackage);;
  match archive_name E installPackage with
  | inr packageName => mret packageName
  | inl err => Proc.reject err
  end.

Definition getPackageName (installPackage : string) : Proc string :=
  if Js.contains ".tgz" installPackage then
    Proc.catch_ (readArchiveName installPackage)
      (fun err =>
         Proc.log ("Could not extract the package name from the archive: "
                   +:+ reason_message err);;
         match Pattern.tgz_name installPackage with
         | None => Proc.throw (TypeError "Cannot read property '1' of null")
         | Some assumedProjectName =>
             Proc.log ("Based on the filename, assuming it is " +:+ dquote
                       +:+ assumedProjectName +:+ dquote);;
             mret assumedProjectName
         end)
  else if Js.indexOf "git+" installPackage =? 0 then
    match Pattern.git_name installPackage with
    | None => Proc.throw (TypeError "Cannot read property '1' of null")
    | Some name => mret name
    end
  else if 0 <? Js.indexOf "@" installPackage then
    mret (Js.charAt installPackage 0 +:+ Pattern.before_at (Js.drop 1 installPackage))
  else mret installPackage.

Definition shouldUseYarn : Proc bool :=
  Proc.emit (Spawn "yarnpkg" ["--version"]);;
  mret (yarnpkg_runs E).

(** [checkNpmVersion]: the pair [(hasMinNpm, npmVersion)]. *)
Definition checkNpmVersion : Proc (bool * option string) :=
  Proc.emit (Spawn "npm" ["--version"]);;
  match npm_version_output E with
  | None => mret (false, None)
  | Some npmVersion =>
      match semver_gte E npmVersion "3.0.0" with
      | Some b => mret (b, Some npmVersion)
      | None => mret (false, Some npmVersion)
      end
  end.

Definition checkIfOnline (useYarn : bool) : Proc bool :=
  if negb useYarn then mret true
  else
    Proc.emit (DnsLookup "registry.yarnpkg.com");;
    mret (match dns_lookup_err E "registry.yarnpkg.com" with
          | None => true
          | Some _ => false
          end).

(** [spawn( command, args, { stdio: 'inherit' } )] up to its [close] event. *)
Definition spawn (command : string) (args : list string) : Proc (option Z) :=
  Proc.emit (Spawn command args);;
  f ← Proc.get_fs;
  let r := child_process E command args f in
  Proc.put_fs r.1;;
  mret r.2.

Definition install (useYarn : bool) (dependencies : list string)
    (verbose isOnline : bool) : Proc unit :=
  Proc.in_callback (
    ca ← (if useYarn then
            (if negb isOnline then
               Proc.log "You appear to be offline.";;
               Proc.log "Falling back to the local Yarn cache.";;
               Proc.log ""
             else mret tt);;
            mret ("yarnpkg",
                  ["add"; "--exact"] ++ (if negb isOnline then ["--offline"] else [])
                  ++ dependencies)
          else mret ("npm", ["install"; "--save"; "--save-exact"] ++ dependencies));
    let command := ca.1 in
    let args := if verbose then ca.2 ++ ["--verbose"] else ca.2 in
    code ← spawn command args;
    match code with
    | Some 0 => mret tt
    | _ => Proc.reject (InstallFailure (command +:+ " " +:+ String.concat " " args))
    end).

Definition checkNodeVersion (packageName : string) : Proc unit :=
  match installed_engines_node E packageName with
  | inl err => Proc.throw err
  | inr None => mret tt
  | inr (Some range) =>
      if negb (node_satisfies E range) then
        Proc.log ("You are running Node %s. Create Divi Extension requires Node %s or higher. "
                  +:+ "Please update your version of Node.");;
        Proc.exit 1
      else mret tt
  end.

Definition printValidationResults (results : option (list string)) : Proc unit :=
  match results with
  | Some l => Proc.forEach l (fun error => Proc.log ("  *  " +:+ error))
  | None => mret tt
  end.

Definition checkAppName (appName : string) : Proc unit :=
  let validationResult := validateProjectName E appName in
  (if negb (validForNewPackages validationResult) then
     Proc.log ("Could not create a project called " +:+ dquote +:+ appName +:+ dquote
               +:+ " because of npm naming restrictions:");;
     printValidationResults (errors validationResult);;
     printValidationResults (warnings validationResult);;
     Proc.exit 1
   else mret tt);;
  let allDependencies := ["react"; "react-dom"; "react-scripts"] in
  if includes appName allDependencies then
    Proc.log ("We cannot create a project called " +:+ appName
              +:+ " because a dependency with the same name exists.");;
    Proc.exit 1
  else mret tt.

(** The object is updated in place by the source; here the updated object
    is returned. *)
Definition makeCaretRange (dependencies : gmap string jsval) (name : string)
    : Proc (gmap string jsval) :=
  match get dependencies name with
  | Value JUndefined =>
      Proc.log ("Missing " +:+ name +:+ " dependency in package.json");;
      Proc.exit 1
  | Value (JStr version) =>
      let patchedVersion := "^" +:+ version in
      if negb (semver_validRange E patchedVersion) then
        Proc.log ("Unable to patch " +:+ name +:+ " dependency version because version "
                  +:+ version +:+ " will become invalid " +:+ patchedVersion);;
        mret (<[name := JStr version]> dependencies)
      else mret (<[name := JStr patchedVersion]> dependencies)
  | Builtin =>
      (* the template literal converts the function or object to a string *)
      let version := builtin_text name in
      let patchedVersion := "^" +:+ version in
      if negb (semver_validRange E patchedVersion) then
        Proc.log ("Unable to patch " +:+ name +:+ " dependency version because version "
                  +:+ version +:+ " will become invalid " +:+ patchedVersion);;
        (* storing back what the prototype holds anyway *)
        mret dependencies
      else if String.eqb name "__proto__" then
        (* the setter of [__proto__] ignores a string *)
        mret dependencies
      else mret (<[name := JStr patchedVersion]> dependencies)
  end.

Definition fixDependencies (packageName : string) : Proc unit :=
  packageJson ← FsOp.requireManifest;
  match dependencies packageJson with
  | None =>
      Proc.log "Missing dependencies in package.json";;
      Proc.exit 1
  | Some deps =>
      match get deps packageName with
      | Value JUndefined =>
          Proc.log ("Unable to find " +:+ packageName +:+ " in package.json");;
          Proc.exit 1
      | packageVersion =>
          let dev := default ∅ (devDependencies packageJson) in
          let dev := assign dev packageName packageVersion in
          let deps := delete packageName deps in
          let dev := assign dev "react" (get deps "react") in
          let dev := assign dev "react-dom" (get deps "react-dom") in
          let deps := delete "react" deps in
          let deps := delete "react-dom" deps in
          dev ← makeCaretRange dev "react";
          dev ← makeCaretRange dev "react-dom";
          FsOp.writeManifest
            {| pkg_name := pkg_name packageJson;
               pkg_version := pkg_version packageJson;
               dependencies := Some (stringify_props deps);
               devDependencies := Some (stringify_props dev) |}
      end
  end.

Definition isSafeToCreateProjectIn : Proc bool :=
  files ← FsOp.readdirSync;
  mret (forallb (fun file => includes file validFiles) files).

Definition finalize_extension_files (root appName : string) : Proc unit :=
  Proc.log ("prefix is: " +:+ Template.truncated appName);;
  f ← Proc.get_fs;
  let r := rewrite_scaffold E root appName (Template.derive appName) f in
  Proc.put_fs r.1;;
  Proc.ended r.2.

(** The test of the rollback loop on one directory entry and one
    allow-listed name. *)
Definition generated_match (fileToMatch file : string) : bool :=
  (Pattern.dot_log fileToMatch && (Js.indexOf fileToMatch file =? 0))
  || String.eqb file fileToMatch.

(** The callback of [catch] in [run]. *)
Definition rollback (root appName : string) (reason : Reason) : Proc unit :=
  Proc.log "";;
  Proc.log "Aborting installation.";;
  match reason_command reason with
  | Some (String _ _ as command) => Proc.log ("  " +:+ command +:+ " has failed.")
  | _ =>
      Proc.log "Unexpected error. Please report it as a bug:";;
      Proc.log (reason_message reason)
  end;;
  Proc.log "";;
  currentFiles ← FsOp.readdirSync;
  Proc.forEach currentFiles (fun file =>
    Proc.forEach knownGeneratedFiles (fun fileToMatch =>
      if generated_match fileToMatch file then
        Proc.log ("Deleting generated file... " +:+ file);;
        FsOp.removeSync file
      else mret tt));;
  remainingFiles ← FsOp.readdirSync;
  match remainingFiles with
  | [] =>
      Proc.log ("Deleting " +:+ appName +:+ " / from " +:+ path_resolve E (root +:+ "/.."));;
      Proc.chdir AtParent;;
      FsOp.removeRoot
  | _ :: _ => mret tt
  end;;
  Proc.log "Done.";;
  Proc.exit 1.

(** The callback of the last [then] of [run]: what happens once the
    install has succeeded. *)
Definition afterInstall (root appName : string) (version : option string)
    (verbose : bool) (packageName : string) : Proc unit :=
  checkNodeVersion packageName;;
  fixDependencies packageName;;
  Proc.call (init_script E packageName root appName verbose);;
  finalize_extension_files root appName;;
  if decide (version = Some "react-scripts@0.9.x") then
    Proc.log "Note: the project was boostrapped with an old unsupported version of tools."
  else mret tt.

Definition run (root appName : string) (version : option string)
    (verbose useYarn : bool) : Proc unit :=
  let packageToInstall := getInstallPackage version in
  let allDependencies := ["react"; "react-dom"; packageToInstall] in
  Proc.log "Installing packages. This might take a couple minutes.";;
  Proc.catch_
    (Proc.then_
       (Proc.then_
          (Proc.then_ (getPackageName packageToInstall)
             (fun packageName =>
                Proc.then_ (checkIfOnline useYarn)
                  (fun isOnline => mret (isOnline, packageName))))
          (fun info =>
             let isOnline := info.1 in
             let packageName := info.2 in
             Proc.log ("Installing react, react-dom, and " +:+ packageName +:+ "...");;
             Proc.log "";;
             Proc.then_ (install useYarn allDependencies verbose isOnline)
               (fun _ => mret packageName)))
       (afterInstall root appName version verbose))
    (rollback root appName).

Definition createApp (name : string) (verbose : bool) (version : option string)
    : Proc unit :=
  let root := path_resolve E name in
  let appName := path_basename E root in
  checkAppName appName;;
  FsOp.ensureDirSync;;
  safe ← isSafeToCreateProjectIn;
  (if negb safe then
     Proc.log ("The directory " +:+ name +:+ " contains files that could conflict.");;
     Proc.log "Try using a new directory name.";;
     Proc.exit 1
   else mret tt);;
  Proc.log ("Creating a new Divi extension in " +:+ root +:+ ".");;
  Proc.log "";;
  FsOp.writeManifest
    {| pkg_name := appName; pkg_version := "0.1.0";
       dependencies := None; devDependencies := None |};;
  Proc.chdir AtRoot;;
  version ← (if negb (node_satisfies E ">=6.0.0") then
               Proc.log "You are using an old Node so the project will be boostrapped with an old unsupported version of tools.";;
               mret (Some "react-scripts@0.9.x")
             else mret version);
  useYarn ← shouldUseYarn;
  version ← (if negb useYarn then
               npmInfo ← checkNpmVersion;
               if negb npmInfo.1 then
                 match npmInfo.2 with
                 | Some (String _ _) =>
                     Proc.log "You are using an old npm so the project will be boostrapped with an old unsupported version of tools."
                 | _ => mret tt
                 end;;
                 mret (Some "react-scripts@0.9.x")
               else mret version
             else mret version);
  run root appName version verbose useYarn.

(** The top of the script: the project directory is required. *)
Definition main (projectName : option string) (verbose : bool)
    (scriptsVersion : option string) : Proc unit :=
  match projectName with
  | None =>
      Proc.log "Please specify the project directory:";;
      Proc.exit 1
  | Some name => createApp name verbose scriptsVersion
  end.

End Orchestrator.

(** ** The specification's wording, for comparison with the code *)

Module TemplateSpec.

(** "stripping a leading case-insensitive [divi] from the name" *)
Definition strip_divi (name : string) : string :=
  match name with
  | String c1 (String c2 (String c3 (String c4 r))) =>
      if Template.ci_eq "d" c1 && Template.ci_eq "i" c2
         && Template.ci_eq "v" c3 && Template.ci_eq "i" c4
      then r else name
  | _ => name
  end.

Definition is_sep (c : ascii) : bool := Ascii.eqb c "-" || Ascii.eqb c "_".

(** "trimming one leading [-] or [_] if present" *)
Definition trim_leading (s : string) : string :=
  match s with
  | String c r => if is_sep c then r else s
  | EmptyString => s
  end.

(** "trimming one trailing [-] or [_]" *)
Fixpoint trim_trailing (s : string) : string :=
  match s with
  | EmptyString => EmptyString
  | String c EmptyString => if is_sep c then EmptyString else s
  | String c r => String c (trim_trailing r)
  end.

(** The derivation as the specification words it: "taking at most the
    next 4 characters" after the leading trim. *)
Definition prefix (name : string) : string :=
  trim_trailing (Js.toLowerCase (Js.take 4 (trim_leading (strip_divi name)))).

(** The number of a leading separator: the [start] of the source. *)
Definition start (s : string) : nat :=
  match s with
  | String c _ => if is_sep c then 1%nat else 0%nat
  | EmptyString => 0%nat
  end.

(** The derivation with the cut of the source: the characters of the
    stripped name from [start] up to index 4. *)
Definition prefix_upto4 (name : string) : string :=
  let stripped := strip_divi name in
  trim_trailing
    (Js.toLowerCase (Js.take (4 - start stripped) (Js.drop (start stripped) stripped))).

End TemplateSpec.

(** The allow-list in the specification's words: a name equal to
    [package.json] or [node_modules], or one that begins with the name of a
    package-manager log. *)
Definition allow_listed (file : string) : bool :=
  String.eqb file "package.json" || String.eqb file "node_modules"
  || Js.starts_with "npm-debug.log" file
  || Js.starts_with "yarn-error.log" file
  || Js.starts_with "yarn-debug.log" file.

(** A manifest that lacks a required dependency entry after the install. *)
Definition lacks_required (m : Manifest) (packageName : string) : Prop :=
  match dependencies m with
  | None => True
  | Some deps =>
      prop deps packageName = JUndefined
      \/ prop deps "react" = JUndefined
      \/ prop deps "react-dom" = JUndefined
  end.

(** The error [fixDependencies] or [makeCaretRange] prints for such a
    manifest: the first entry found missing, in the order the code looks for
    them. *)
Definition missing_dependency_error (m : Manifest) (packageName : string) : string :=
  match dependencies m with
  | None => "Missing dependencies in package.json"
  | Some deps =>
      match prop deps packageName with
      | JUndefined => "Unable to find " +:+ packageName +:+ " in package.json"
      | JStr _ =>
          match prop (delete packageName deps) "react" with
          | JUndefined => "Missing react dependency in package.json"
          | JStr _ => "Missing react-dom dependency in package.json"
          end
      end
  end.

(** ** Auxiliary definitions of the proofs *)

(** What [makeCaretRange] prints for a version. *)
Definition patch_note (E : Env) (name version : string) : list string :=
  if semver_validRange E ("^" +:+ version) then []
  else ["Unable to patch " +:+ name +:+ " dependency version because version "
        +:+ version +:+ " will become invalid " +:+ "^" +:+ version].

(** The directory after [removeSync] of one entry. *)
Definition remove_entry (file : string) (f : Fs) : Fs :=
  {| root_exists := root_exists f;
     entries := filter (fun e => e <> file) (entries f);
     manifest := if String.eqb file "package.json" then None else manifest f |}.

(** What the sweep over [files] leaves of a list of entries. *)
Definition swept (files : list string) (e : string) : Prop :=
  ~ (e ∈ files /\ allow_listed e = true).

(** The value [makeCaretRange] stores for a version. *)
Definition caret (E : Env) (version : string) : string :=
  if semver_validRange E ("^" +:+ version) then "^" +:+ version else version.

(** A step that ends at once and changes nothing but the console. *)
Ltac console_only := eexists; (split; [reflexivity|]); repeat split.

(** ** A sample environment *)

Module Sample.

Definition is_name_char (c : ascii) : bool :=
  Js.is_lower c || Js.is_digit c || Ascii.eqb c "-" || Ascii.eqb c "_" || Ascii.eqb c ".".

Definition name_ok (n : string) : bool :=
  Js.truthy n && Semver.all_chars is_name_char n
  && negb (Js.starts_with "." n) && negb (Js.starts_with "_" n).

(** The part of a path after its last [/]. *)
Fixpoint basename (path : string) : string :=
  match path with
  | EmptyString => EmptyString
  | String c r =>
      if Js.contains "/" r then basename r
      else if Ascii.eqb c "/" then r else path
  end.

(** An install that leaves [node_modules] and the given manifest behind
    and ends with [code]. *)
Definition child (m : option Manifest) (code : option Z)
    (command : string) (args : list string) (f : Fs) : Fs * option Z :=
  ({| root_exists := true;
      entries := entries f ++ (if includes "node_modules" (entries f) then []
                               else ["node_modules"]);
      manifest := match m with Some _ => m | None => manifest f end |},
   code).

Definition env (archive : string -> Reason + string) (dns : option Reason)
    (yarn : bool) (installed : option Manifest) (code : option Z) : Env :=
  {| semver_valid := Semver.valid;
     semver_validRange := Semver.validRange;
     semver_gte := Semver.gte;
     node_satisfies := fun _ => true;
     validateProjectName := fun n =>
       {| validForNewPackages := name_ok n; errors := None; warnings := None |};
     path_resolve := fun n => "/work/" +:+ n;
     path_basename := basename;
     yarnpkg_runs := yarn;
     npm_version_output := Some "5.6.0";
     archive_name := archive;
     dns_lookup_err := fun _ => dns;
     child_process := child installed code;
     installed_engines_node := fun _ => inr (Some ">=6");
     init_script := fun _ _ _ _ f d =>
       {| left_fs := f; left_cwd := d; printed := []; started := [];
          ended_with := Returned tt |};
     rewrite_scaffold := fun _ _ _ f => (f, Returned tt) |}.

Definition no_archive (path : string) : Reason + string :=
  inl (Error "invalid tar file").

(** The manifest after an install that recorded the three packages. *)
Definition installed_ok : Manifest :=
  {| pkg_name := "divi-sample"; pkg_version := "0.1.0";
     dependencies := Some (<["react" := JStr "16.2.0"]>
                            (<["react-dom" := JStr "16.2.0"]>
                              (<["react-scripts" := JStr "1.0.17"]> ∅)));
     devDependencies := None |}.

(** The same without the [react] entry. *)
Definition installed_no_react : Manifest :=
  {| pkg_name := "divi-sample"; pkg_version := "0.1.0";
     dependencies := Some (<["react-dom" := JStr "16.2.0"]>
                            (<["react-scripts" := JStr "1.0.17"]> ∅));
     devDependencies := None |}.

(** Reachable registry, npm, no archive to read, an install that
    succeeds. *)
Definition default : Env := env no_archive None false (Some installed_ok) (Some 0).

Definition world (names : list string) (m : option Manifest) : World :=
  {| fs := {| root_exists := true; entries := names; manifest := m |};
     cwd := AtRoot; console := []; events := [] |}.

Definition fresh : World :=
  {| fs := {| root_exists := false; entries := []; manifest := None |};
     cwd := AtOriginal; console := []; events := [] |}.

(** Worlds and environments of the examples. *)
Definition littered : World :=
  world ["package.json"; "README.md"; "node_modules"; "npm-debug.log.1"; "notes.log"]
    None.

Definition after_bad_install : World :=
  world ["package.json"; "node_modules"] (Some installed_no_react).

Definition occupied : World := world [".git"; "index.html"] None.

Definition no_react : Env :=
  env no_archive None false (Some installed_no_react) (Some 0).

Definition failing_install : Env :=
  env no_archive None false None (Some 1).

End Sample.

(** ** Closed forms and further parts of the program *)

(** The [dependencies] object [fixDependencies] writes back. *)
Definition moved_dependencies (packageName : string) (deps : gmap string jsval)
    : gmap string jsval :=
  stringify_props (delete "react-dom" (delete "react" (delete packageName deps))).

(** The [devDependencies] object [fixDependencies] writes back, for the
    versions [rv] of [react] and [dv] of [react-dom]. *)
Definition moved_devDependencies (E : Env) (packageName : string)
    (dev : gmap string jsval) (pv rv dv : string) : gmap string jsval :=
  stringify_props
    (<["react-dom" := JStr (caret E dv)]>
       (<["react" := JStr (caret E rv)]>
          (<["react-dom" := JStr dv]>
             (<["react" := JStr rv]> (<[packageName := JStr pv]> dev))))).

(** The arguments [install] passes to the package manager. *)
Definition install_args (useYarn : bool) (dependencies : list string)
    (verbose isOnline : bool) : list string :=
  (if useYarn
   then ["add"; "--exact"] ++ (if isOnline then [] else ["--offline"])
   else ["install"; "--save"; "--save-exact"])
  ++ dependencies ++ (if verbose then ["--verbose"] else []).

(** The program [install] starts. *)
Definition install_command (useYarn : bool) : string :=
  if useYarn then "yarnpkg" else "npm".

(** [hasMinNpm] of [checkNpmVersion]. *)
Definition hasMinNpm (E : Env) : bool :=
  match npm_version_output E with
  | Some npmVersion =>
      match semver_gte E npmVersion "3.0.0" with
      | Some b => b
      | None => false
      end
  | None => false
  end.

(** Whether [checkAppName] lets a name through. *)
Definition name_accepted (E : Env) (appName : string) : bool :=
  validForNewPackages (validateProjectName E appName)
  && negb (includes appName ["react"; "react-dom"; "react-scripts"]).

(** Whether [createApp] falls back to the last tools that support the
    Node or the npm at hand. *)
Definition old_tools (E : Env) : bool :=
  negb (node_satisfies E ">=6.0.0") || (negb (yarnpkg_runs E) && negb (hasMinNpm E)).

(** The version [createApp] hands to [run]. *)
Definition effective_version (E : Env) (version : option string) : option string :=
  if old_tools E then Some "react-scripts@0.9.x" else version.

(** A step that leaves one view [proj] of the world as it found it. *)
Definition kept {A T} (proj : World -> T) (p : Proc A) : Prop :=
  forall w, proj (p w).1 = proj w.

(** What [getPackageName] reads before it can name an archive. *)
Definition archive_probe (installPackage : string) : list Event :=
  if Js.contains ".tgz" installPackage then
    [if Pattern.is_http installPackage then HttpGet installPackage
     else ReadStream installPackage]
  else [].

(** [isOnline] as [checkIfOnline] resolves it. *)
Definition online (E : Env) (useYarn : bool) : bool :=
  negb useYarn
  || match dns_lookup_err E "registry.yarnpkg.com" with
     | None => true
     | Some _ => false
     end.

(** The target directory once [fs.removeSync( root )] has run. *)
Definition removed : Fs := {| root_exists := false; entries := []; manifest := None |}.

(** The error of [fs.readdirSync] on a directory that is not there. *)
Definition ENOENT : Reason := Error "ENOENT: no such file or directory, scandir".

(** No [-] of the string is followed by a digit: nowhere inside it can the
    optional version part of the archive pattern begin. *)
Fixpoint no_hyphen_digit (s : string) : bool :=
  match s with
  | String c (String d _ as r) =>
      negb (Ascii.eqb c "-" && Js.is_digit d) && no_hyphen_digit r
  | _ => true
  end.

(** The file-name endings the archive pattern allows after the name:
    [.tgz] alone, or [-], a digit, at least one more character, [.tgz]. *)
Inductive archive_suffix : string -> Prop :=
| suffix_plain : archive_suffix ".tgz"
| suffix_version (d c : ascii) (rest : string) :
    Js.is_digit d = true ->
    Js.no_line_terminator (String c rest) = true ->
    Js.contains "/" (String c rest) = false ->
    archive_suffix (String "-" (String d (String c rest)) +:+ ".tgz").

(** The lines [checkAppName] prints for a name that
    validate-npm-package-name refuses. *)
Definition validation_report (appName : string) (check : NameCheck) : list string :=
  ("Could not create a project called " +:+ dquote +:+ appName +:+ dquote
   +:+ " because of npm naming restrictions:")
  :: map (fun error => "  *  " +:+ error) (default [] (errors check))
  ++ map (fun error => "  *  " +:+ error) (default [] (warnings check)).

(** ** Template Token Substitution Engine: the replacement of the tokens *)

(** The orchestrator above leaves the contents of the scaffold files to the
    environment ([rewrite_scaffold]).  What [finalize_extension_files]
    computes from the content and from the path of one file is modelled
    here, on strings alone. *)

Module Replace.

(** The replacement text of [String.prototype.replace] for a pattern
    without capture groups: [$$] is a dollar sign, [$&] the matched text,
    [$`] what precedes the match in the input, [$'] what follows it; any
    other [$] stands for itself. *)
Fixpoint expand (rep matched before after : string) : string :=
  match rep with
  | EmptyString => EmptyString
  | String d tail =>
      if Ascii.eqb d "$" then
        match tail with
        | String c r =>
            if Ascii.eqb c "$" then String "$" (expand r matched before after)
            else if Ascii.eqb c "&" then matched +:+ expand r matched before after
            else if Ascii.eqb c "`" then before +:+ expand r matched before after
            else if Ascii.eqb c "'" then after +:+ expand r matched before after
            else String "$" (expand tail matched before after)
        | EmptyString => String "$" EmptyString
        end
      else String d (expand tail matched before after)
  end.

(** [s.replace( /pat/g, rep )] for a pattern [pat] of literal characters
    that is not empty, as every pattern of the file is, from a position that
    has [before] in front of it in the input; [skip] counts the characters
    of a match still to be passed over. *)
Fixpoint all_from (skip : nat) (pat rep before s : string) : string :=
  match s with
  | EmptyString => EmptyString
  | String c r =>
      match skip with
      | S k => all_from k pat rep (before +:+ String c EmptyString) r
      | O =>
          if Js.starts_with pat s then
            expand rep pat before (Js.drop (Js.len pat) s)
            +:+ all_from (Js.len pat - 1) pat rep (before +:+ String c EmptyString) r
          else String c (all_from 0 pat rep (before +:+ String c EmptyString) r)
      end
  end.

Definition all (pat rep s : string) : string := all_from 0 pat rep EmptyString s.

(** [s.replace( 'pat', rep )] for a string [pat] that is not empty: the
    first occurrence only. *)
Fixpoint first_from (pat rep before s : string) : string :=
  match s with
  | EmptyString => EmptyString
  | String c r =>
      if Js.starts_with pat s then
        expand rep pat before (Js.drop (Js.len pat) s) +:+ Js.drop (Js.len pat) s
      else String c (first_from pat rep (before +:+ String c EmptyString) r)
  end.

Definition first (pat rep s : string) : string := first_from pat rep EmptyString s.

End Replace.

(** The [output] that [finalize_extension_files] writes back for the
    [data] of one scaffold file. *)
Definition render (appName data : string) : string :=
  let t := Template.derive appName in
  Replace.all "<GETTEXT_DOMAIN>" appName
    (Replace.all "<NAME>" appName
       (Replace.all "__prefix" (Template.prefix t)
          (Replace.all "__PREFIX" (Template.PREFIX t)
             (Replace.all "__Prefix" (Template.Prefix t) data)))).

(** Where the main file is moved: [template] replaced in the whole path
    [path.join( root, 'template.php' )] by the name of the directory.
    [root] is a resolved path other than [/], so that the path is [root]
    followed by [/template.php] and its [dirname] is [root]. *)
Definition main_file_target (E : Env) (root : string) : string :=
  Replace.first "template" (path_basename E root) (root +:+ "/template.php").

(** Where the module file is moved. *)
Definition module_file_target (root appName : string) : string :=
  Replace.first "__Prefix" (Template.Prefix (Template.derive appName))
    (root +:+ "/module/__Prefix_Custom.php").

Module Scenario.

(** [base] run by a Node that satisfies the ranges [satisfies] accepts,
    with [engines] for what the installed package's manifest says. *)
Definition on_node (satisfies : string -> bool)
    (engines : string -> Reason + option string) (base : Env) : Env :=
  {| semver_valid := semver_valid base;
     semver_validRange := semver_validRange base;
     semver_gte := semver_gte base;
     node_satisfies := satisfies;
     validateProjectName := validateProjectName base;
     path_resolve := path_resolve base;
     path_basename := path_basename base;
     yarnpkg_runs := yarnpkg_runs base;
     npm_version_output := npm_version_output base;
     archive_name := archive_name base;
     dns_lookup_err := dns_lookup_err base;
     child_process := child_process base;
     installed_engines_node := engines;
     init_script := init_script base;
     rewrite_scaffold := rewrite_scaffold base |}.

(** [base] with the verdicts [check] of validate-npm-package-name. *)
Definition with_names (check : string -> NameCheck) (base : Env) : Env :=
  {| semver_valid := semver_valid base;
     semver_validRange := semver_validRange base;
     semver_gte := semver_gte base;
     node_satisfies := node_satisfies base;
     validateProjectName := check;
     path_resolve := path_resolve base;
     path_basename := path_basename base;
     yarnpkg_runs := yarnpkg_runs base;
     npm_version_output := npm_version_output base;
     archive_name := archive_name base;
     dns_lookup_err := dns_lookup_err base;
     child_process := child_process base;
     installed_engines_node := installed_engines_node base;
     init_script := init_script base;
     rewrite_scaffold := rewrite_scaffold base |}.

(** The package's answer with its findings spelled out. *)
Definition npm_rules : Env :=
  with_names
    (fun n =>
       if Sample.name_ok n
       then {| validForNewPackages := true; errors := None; warnings := None |}
       else {| validForNewPackages := false;
               errors := Some ["name can only contain URL-friendly characters"];
               warnings := Some ["name can no longer contain capital letters"] |})
    Sample.default.

(** [base] with the init script [init]. *)
Definition with_init (init : string -> string -> string -> bool -> Fs -> Cwd -> Effect)
    (base : Env) : Env :=
  {| semver_valid := semver_valid base;
     semver_validRange := semver_validRange base;
     semver_gte := semver_gte base;
     node_satisfies := node_satisfies base;
     validateProjectName := validateProjectName base;
     path_resolve := path_resolve base;
     path_basename := path_basename base;
     yarnpkg_runs := yarnpkg_runs base;
     npm_version_output := npm_version_output base;
     archive_name := archive_name base;
     dns_lookup_err := dns_lookup_err base;
     child_process := child_process base;
     installed_engines_node := installed_engines_node base;
     init_script := init;
     rewrite_scaffold := rewrite_scaffold base |}.

(** An init script that copies a template into [src], installs the
    packages of the template with the package manager and reports. *)
Definition template_install : Env :=
  with_init
    (fun _ _ _ _ f d =>
       {| left_fs := {| root_exists := root_exists f;
                        entries := entries f ++ ["src"];
                        manifest := manifest f |};
          left_cwd := d;
          printed := ["Installing template dependencies using npm..."; "Success!"];
          started := [Spawn "npm" ["install"; "--save"; "react"; "react-dom"]];
          ended_with := Returned tt |})
    Sample.default.

(** A Node older than any range asked of it. *)
Definition old_node : Env :=
  on_node (fun _ => false) (installed_engines_node Sample.default) Sample.default.

(** An install that left no manifest of the scripts package to load. *)
Definition unreadable_package : Env :=
  on_node (fun _ => true) (fun _ => inl (Error "Cannot find module")) Sample.default.

(** The target directory after a good install. *)
Definition installed : World :=
  Sample.world ["package.json"; "node_modules"] (Some Sample.installed_ok).

End Scenario.

(** * Properties *)

(** ** Facts about the string primitives *)

Lemma len_map_chars f s : Js.len (Js.map_chars f s) = Js.len s.
Proof. induction s as [|c r IH]; simpl; congruence. Qed.

Lemma take_all n s : (Js.len s <= n)%nat -> Js.take n s = s.
Proof.
  revert n; induction s as [|c r IH]; intros [|n] H; simpl in *; try reflexivity; try lia.
  rewrite IH by lia. reflexivity.
Qed.

Lemma take_min n s : Js.take (Nat.min n (Js.len s)) s = Js.take n s.
Proof.
  revert n; induction s as [|c r IH]; intros [|n]; simpl; try reflexivity.
  rewrite IH. reflexivity.
Qed.

Lemma drop_all n s : (Js.len s <= n)%nat -> Js.drop n s = EmptyString.
Proof.
  revert n; induction s as [|c r IH]; intros [|n] H; simpl in *; try reflexivity; try lia.
  apply IH; lia.
Qed.

Lemma len_drop n s : Js.len (Js.drop n s) = (Js.len s - n)%nat.
Proof.
  revert n; induction s as [|c r IH]; intros [|n]; simpl; try reflexivity.
  apply IH.
Qed.

Lemma len_take n s : Js.len (Js.take n s) = Nat.min n (Js.len s).
Proof.
  revert n; induction s as [|c r IH]; intros [|n]; simpl; try reflexivity.
  rewrite IH. reflexivity.
Qed.

(** [substring] between two indices in order is a [drop] and a [take]. *)
Lemma substring_take_drop s (a b : nat) :
  (a <= b)%nat ->
  Js.substring s (Z.of_nat a) (Z.of_nat b) = Js.take (b - a) (Js.drop a s).
Proof.
  intros Hab. unfold Js.substring, Js.clamp.
  replace (Z.to_nat (Z.min (Z.max (Z.of_nat a) 0) (Z.of_nat (Js.len s))))
    with (Nat.min a (Js.len s)) by lia.
  replace (Z.to_nat (Z.min (Z.max (Z.of_nat b) 0) (Z.of_nat (Js.len s))))
    with (Nat.min b (Js.len s)) by lia.
  destruct (le_lt_dec (Js.len s) a) as [Hlen|Hlen].
  - rewrite (drop_all a s) by lia.
    replace (Nat.min (Nat.min a (Js.len s)) (Nat.min b (Js.len s))) with (Js.len s) by lia.
    rewrite (drop_all (Js.len s) s) by lia.
    destruct (_ - _)%nat, (b - a)%nat; reflexivity.
  - replace (Nat.min (Nat.min a (Js.len s)) (Nat.min b (Js.len s))) with a by lia.
    replace (Nat.max (Nat.min a (Js.len s)) (Nat.min b (Js.len s)) - a)%nat
      with (Nat.min (b - a) (Js.len (Js.drop a s))) by (rewrite len_drop; lia).
    apply take_min.
Qed.

Lemma slice_1 s : Js.slice s 1 = Js.drop 1 s.
Proof.
  unfold Js.slice. destruct s as [|c r]; [reflexivity|].
  assert (H : Z.to_nat (if 1 <? 0
                        then Z.max (Z.of_nat (Js.len (String c r)) + 1) 0
                        else Z.min 1 (Z.of_nat (Js.len (String c r)))) = 1%nat).
  { change (1 <? 0) with false. cbv iota. simpl Js.len. lia. }
  rewrite H. reflexivity.
Qed.

(** The last character, as the program reads it. *)
Lemma index_last_cons c r :
  r <> EmptyString ->
  Js.index (String c r) (Z.of_nat (Js.len (String c r)) - 1)
  = Js.index r (Z.of_nat (Js.len r) - 1).
Proof.
  intros Hr. destruct r as [|d r']; [congruence|].
  unfold Js.index.
  assert (H1 : (Z.of_nat (Js.len (String c (String d r'))) - 1 <? 0) = false)
    by (apply Z.ltb_ge; simpl Js.len; lia).
  assert (H2 : (Z.of_nat (Js.len (String d r')) - 1 <? 0) = false)
    by (apply Z.ltb_ge; simpl Js.len; lia).
  rewrite H1, H2.
  replace (Z.to_nat (Z.of_nat (Js.len (String c (String d r'))) - 1))
    with (S (Z.to_nat (Z.of_nat (Js.len (String d r')) - 1))) by (simpl Js.len; lia).
  reflexivity.
Qed.

Lemma take_pred_cons c r :
  r <> EmptyString ->
  Js.take (Js.len (String c r) - 1) (String c r) = String c (Js.take (Js.len r - 1) r).
Proof.
  intros Hr. destruct r as [|d r']; [congruence|].
  simpl Js.len. rewrite !Nat.sub_succ, !Nat.sub_0_r. reflexivity.
Qed.

(** The trailing trim of the source is the removal of one trailing separator. *)
Lemma trailing_trim p :
  (if Template.is_separator (Js.index p (Z.of_nat (Js.len p) - 1))
   then Js.substring p 0 (Z.of_nat (Js.len p) - 1) else p)
  = TemplateSpec.trim_trailing p.
Proof.
  induction p as [|c r IH]; [reflexivity|].
  destruct r as [|d r'].
  - simpl. unfold TemplateSpec.is_sep. destruct (Ascii.eqb c "-" || Ascii.eqb c "_"); reflexivity.
  - rewrite index_last_cons by discriminate.
    change (TemplateSpec.trim_trailing (String c (String d r')))
      with (String c (TemplateSpec.trim_trailing (String d r'))).
    rewrite <- IH.
    destruct (Template.is_separator _); [|reflexivity].
    replace (Z.of_nat (Js.len (String c (String d r'))) - 1)
      with (Z.of_nat (Js.len (String c (String d r')) - 1)) by (simpl Js.len; lia).
    replace (Z.of_nat (Js.len (String d r')) - 1)
      with (Z.of_nat (Js.len (String d r') - 1)) by (simpl Js.len; lia).
    rewrite (substring_take_drop _ 0) by lia.
    rewrite (substring_take_drop _ 0) by lia.
    rewrite !Nat.sub_0_r. change (Js.drop 0 ?x) with x.
    simpl Js.drop. apply take_pred_cons. discriminate.
Qed.

Lemma replace_divi_from_false s :
  Js.no_line_terminator s = true -> Template.replace_divi_from false s = s.
Proof.
  induction s as [|c r IH]; [reflexivity|].
  simpl. intros H. apply andb_true_iff in H as [Hc Hr].
  apply negb_true_iff in Hc. rewrite Hc, IH by assumption. reflexivity.
Qed.

Lemma no_line_terminator_drop4 c1 c2 c3 c4 r :
  Js.no_line_terminator (String c1 (String c2 (String c3 (String c4 r)))) = true ->
  Js.no_line_terminator r = true.
Proof.
  simpl. intros H. repeat (apply andb_true_iff in H as [_ H]). exact H.
Qed.

(** On a name without line terminators the replacement strips one leading
    [divi], whatever its case. *)
Lemma replace_divi_strip name :
  Js.no_line_terminator name = true ->
  Template.replace_divi name = TemplateSpec.strip_divi name.
Proof.
  intros H. unfold Template.replace_divi.
  destruct name as [|c1 r1]; [reflexivity|].
  assert (Hkeep : String c1 (Template.replace_divi_from (Js.is_line_terminator c1) r1)
                  = String c1 r1).
  { simpl in H. apply andb_true_iff in H as [Hc Hr].
    apply negb_true_iff in Hc. rewrite Hc, replace_divi_from_false by assumption.
    reflexivity. }
  destruct r1 as [|c2 [|c3 [|c4 r]]]; try exact Hkeep.
  unfold Template.replace_divi_from; fold Template.replace_divi_from.
  unfold TemplateSpec.strip_divi.
  destruct (_ && _ && _ && _).
  - apply replace_divi_from_false. eapply no_line_terminator_drop4; eassumption.
  - exact Hkeep.
Qed.

Lemma start_of_stripped s :
  (if Template.is_separator (Js.index s 0) then 1 else 0) = Z.of_nat (TemplateSpec.start s).
Proof.
  destruct s as [|c r]; [reflexivity|].
  unfold Js.index, TemplateSpec.start, TemplateSpec.is_sep. simpl.
  destruct (Ascii.eqb c "-" || Ascii.eqb c "_"); reflexivity.
Qed.

Lemma start_le_1 s : (TemplateSpec.start s <= 1)%nat.
Proof.
  destruct s as [|c r]; simpl; [lia|]. destruct (TemplateSpec.is_sep c); lia.
Qed.

Lemma len_trim_trailing s : (Js.len (TemplateSpec.trim_trailing s) <= Js.len s)%nat.
Proof.
  induction s as [|c r IH]; [simpl; lia|].
  destruct r as [|d r'].
  - simpl. destruct (TemplateSpec.is_sep c); simpl; lia.
  - change (TemplateSpec.trim_trailing (String c (String d r')))
      with (String c (TemplateSpec.trim_trailing (String d r'))).
    simpl Js.len in *. lia.
Qed.

Lemma truncated_spec name :
  Js.no_line_terminator name = true ->
  Template.truncated name
  = Js.toLowerCase
      (Js.take (4 - TemplateSpec.start (TemplateSpec.strip_divi name))
         (Js.drop (TemplateSpec.start (TemplateSpec.strip_divi name))
            (TemplateSpec.strip_divi name))).
Proof.
  intros H. unfold Template.truncated.
  rewrite replace_divi_strip by assumption.
  rewrite start_of_stripped.
  change 4 with (Z.of_nat 4).
  rewrite substring_take_drop; [reflexivity|].
  pose proof (start_le_1 (TemplateSpec.strip_divi name)). lia.
Qed.

(** C3, as the code has it.  For a project name without line terminators the
    derived prefix is: the name without one leading [divi] (in any case),
    without one leading [-] or [_] if present, cut at index 4 of the stripped
    name (so at most 4 characters when no separator was skipped and at most 3
    when one was), lower-cased, and without one trailing [-] or [_];
    [PREFIX] is its upper-cased form and [Prefix] is the first character of
    [PREFIX] followed by the remaining characters of [prefix].  The name
    [divi-foo-extension] gives [foo], [FOO] and [Foo]. *)
Theorem prefix_derivation (name : string) :
  Js.no_line_terminator name = true ->
  let p := TemplateSpec.prefix_upto4 name in
  Template.derive name
  = {| Template.prefix := p;
       Template.PREFIX := Js.toUpperCase p;
       Template.Prefix := Js.charAt (Js.toUpperCase p) 0 +:+ Js.drop 1 p |}
  /\ (Js.len p <= 4 - TemplateSpec.start (TemplateSpec.strip_divi name))%nat
  /\ Template.derive "divi-foo-extension"
     = {| Template.prefix := "foo"; Template.PREFIX := "FOO"; Template.Prefix := "Foo" |}.
Proof.
  intros H p. split; [|split; [|reflexivity]].
  - unfold Template.derive. rewrite trailing_trim, slice_1.
    rewrite truncated_spec by assumption. reflexivity.
  - subst p. unfold TemplateSpec.prefix_upto4.
    etransitivity; [apply len_trim_trailing|].
    unfold Js.toLowerCase. rewrite len_map_chars, len_take. lia.
Qed.

Lemma prefix_derivation_witness :
  Js.no_line_terminator "divi_My-extension" = true
  /\ Template.derive "divi_My-extension"
  = {| Template.prefix := "my"; Template.PREFIX := "MY"; Template.Prefix := "My" |}.
Proof.
  split; [reflexivity|].
  exact (proj1 (prefix_derivation "divi_My-extension" eq_refl)).
Defined.

(** The cut of the specification's wording ("at most the next 4 characters"
    after the leading separator) is not the cut of the code: for
    [divi-abcdef] the code derives [abc], the wording [abcd]. *)
Lemma prefix_spec_differs :
  Template.prefix (Template.derive "divi-abcdef") = "abc"
  /\ TemplateSpec.prefix "divi-abcdef" = "abcd"
  /\ Template.prefix (Template.derive "divi-abcdef") <> TemplateSpec.prefix "divi-abcdef".
Proof. repeat split. discriminate. Qed.

(** C10.  When nothing is left of the project name once the leading [divi]
    is stripped, the derivation (a total function) gives the empty string for
    [prefix], [PREFIX] and [Prefix]. *)
Theorem prefix_of_stripped_name_empty (name : string) :
  Template.replace_divi name = EmptyString ->
  Template.derive name
  = {| Template.prefix := ""; Template.PREFIX := ""; Template.Prefix := "" |}.
Proof.
  intros H. unfold Template.derive, Template.truncated. rewrite H. reflexivity.
Qed.

Lemma prefix_of_stripped_name_empty_witness :
  Template.replace_divi "divi" = EmptyString
  /\ Template.derive "divi"
  = {| Template.prefix := ""; Template.PREFIX := ""; Template.Prefix := "" |}.
Proof.
  split; [reflexivity|].
  exact (prefix_of_stripped_name_empty "divi" eq_refl).
Defined.

(** ** Stepping through [Proc] *)

Lemma bind_returned {A B} (m : Proc A) (k : A -> Proc B) w w' a :
  m w = (w', Returned a) -> (m ≫= k) w = k a w'.
Proof. intros H. unfold mbind, proc_bind, Proc.bind. rewrite H. reflexivity. Qed.

Lemma bind_exited {A B} (m : Proc A) (k : A -> Proc B) w w' c :
  m w = (w', Exited c) -> (m ≫= k) w = (w', Exited c).
Proof. intros H. unfold mbind, proc_bind, Proc.bind. rewrite H. reflexivity. Qed.

Lemma bind_log {B} line (k : unit -> Proc B) w :
  (Proc.log line ≫= k) w
  = k tt {| fs := fs w; cwd := cwd w; console := console w ++ [line]; events := events w |}.
Proof. reflexivity. Qed.

Lemma catch_exited {A} (m : Proc A) h w w' c :
  m w = (w', Exited c) -> Proc.catch_ m h w = (w', Exited c).
Proof. intros H. unfold Proc.catch_. rewrite H. reflexivity. Qed.

Lemma then_exited {A B} (m : Proc A) (k : A -> Proc B) w w' a w'' c :
  m w = (w', Returned a) -> k a w' = (w'', Exited c) ->
  Proc.then_ m k w = (w'', Exited c).
Proof.
  intros H1 H2. unfold Proc.then_, Proc.in_callback. rewrite H1, H2. reflexivity.
Qed.

Lemma forEach_cons {A} (x : A) r (f : A -> Proc unit) w w1 :
  f x w = (w1, Returned tt) -> Proc.forEach (x :: r) f w = Proc.forEach r f w1.
Proof. intros H. simpl. unfold Proc.bind. rewrite H. reflexivity. Qed.

Lemma then_rejected {A B} (m : Proc A) (k : A -> Proc B) w w' r :
  m w = (w', Rejected r) -> Proc.then_ m k w = (w', Rejected r).
Proof. intros H. unfold Proc.then_. rewrite H. reflexivity. Qed.

Lemma catch_rejected {A} (m : Proc A) h w w' r :
  m w = (w', Rejected r) -> Proc.catch_ m h w = Proc.in_callback (h r) w'.
Proof. intros H. unfold Proc.catch_. rewrite H. reflexivity. Qed.

(** ** The rollback handler *)

Lemma starts_with_refl s : Js.starts_with s s = true.
Proof.
  induction s as [|c r IH]; [reflexivity|]. simpl.
  rewrite Ascii.eqb_refl. exact IH.
Qed.

Lemma indexOf_ge p s : -1 <= Js.indexOf p s.
Proof.
  induction s as [|c r IH]; simpl.
  - destruct (Js.starts_with p ""); lia.
  - destruct (Js.starts_with p (String c r)); [lia|].
    destruct (Js.indexOf p r <? 0) eqn:E; lia.
Qed.

(** [s.indexOf( p ) === 0] says that [s] begins with [p]. *)
Lemma indexOf_0 p s : (Js.indexOf p s =? 0) = Js.starts_with p s.
Proof.
  destruct s as [|c r]; simpl.
  - destruct (Js.starts_with p ""); reflexivity.
  - destruct (Js.starts_with p (String c r)); [reflexivity|].
    pose proof (indexOf_ge p r).
    destruct (Js.indexOf p r <? 0) eqn:E; [reflexivity|].
    apply Z.ltb_ge in E. apply Z.eqb_neq. lia.
Qed.

Lemma eqb_starts_with file k :
  String.eqb file k = true -> Js.starts_with k file = true.
Proof. intros H. apply String.eqb_eq in H. subst. apply starts_with_refl. Qed.

(** The test of the loop, over the whole allow-list, is the allow-list of
    the specification. *)
Lemma generated_match_allow_listed file :
  existsb (fun k => generated_match k file) knownGeneratedFiles = allow_listed file.
Proof.
  unfold knownGeneratedFiles, allow_listed, existsb, generated_match.
  rewrite !indexOf_0.
  change (Pattern.dot_log "package.json") with false.
  change (Pattern.dot_log "node_modules") with false.
  change (Pattern.dot_log "npm-debug.log") with true.
  change (Pattern.dot_log "yarn-error.log") with true.
  change (Pattern.dot_log "yarn-debug.log") with true.
  pose proof (eqb_starts_with file "npm-debug.log").
  pose proof (eqb_starts_with file "yarn-error.log").
  pose proof (eqb_starts_with file "yarn-debug.log").
  destruct (String.eqb file "package.json"), (String.eqb file "node_modules"),
    (String.eqb file "npm-debug.log"), (String.eqb file "yarn-error.log"),
    (String.eqb file "yarn-debug.log"),
    (Js.starts_with "npm-debug.log" file), (Js.starts_with "yarn-error.log" file),
    (Js.starts_with "yarn-debug.log" file); simpl in *; try reflexivity;
    repeat match goal with H : true = true -> false = true |- _ =>
      specialize (H eq_refl); discriminate H end.
Qed.

Lemma remove_entry_idem file f :
  remove_entry file (remove_entry file f) = remove_entry file f.
Proof.
  unfold remove_entry; simpl. f_equal.
  - rewrite list_filter_filter. apply list_filter_iff. tauto.
  - destruct (String.eqb file "package.json"); reflexivity.
Qed.

(** The inner loop of the handler on one entry. *)
Lemma rollback_inner known file w :
  exists w',
    Proc.forEach known (fun fileToMatch =>
      if generated_match fileToMatch file then
        Proc.log ("Deleting generated file... " +:+ file);; FsOp.removeSync file
      else mret tt) w = (w', Returned tt)
    /\ fs w' = (if existsb (fun k => generated_match k file) known
                then remove_entry file (fs w) else fs w)
    /\ cwd w' = cwd w /\ events w' = events w.
Proof.
  revert w. induction known as [|k known IH]; intros w.
  - exists w. repeat split.
  - simpl Proc.forEach. simpl existsb.
    destruct (generated_match k file) eqn:Hk.
    + set (w1 := {| fs := remove_entry file (fs w); cwd := cwd w;
                    console := console w ++ ["Deleting generated file... " +:+ file];
                    events := events w |}).
      destruct (IH w1) as (w' & Hrun & Hfs & Hcwd & Hev).
      exists w'. split; [|split; [|split]].
      * unfold Proc.bind at 1. exact Hrun.
      * rewrite Hfs. subst w1; simpl. rewrite remove_entry_idem.
        destruct (existsb _ known); reflexivity.
      * rewrite Hcwd. reflexivity.
      * rewrite Hev. reflexivity.
    + destruct (IH w) as (w' & Hrun & Hfs & Hcwd & Hev).
      exists w'. split; [|split; [|split]]; try assumption.
Qed.

Lemma filter_ext_in {A} (P Q : A -> Prop)
    {decP : forall x, Decision (P x)} {decQ : forall x, Decision (Q x)} (l : list A) :
  (forall x, x ∈ l -> (P x <-> Q x)) -> filter P l = filter Q l.
Proof.
  induction l as [|x l IH]; intros Hext; [reflexivity|].
  rewrite !filter_cons.
  assert (Hx : P x <-> Q x) by (apply Hext; left).
  rewrite IH by (intros y Hy; apply Hext; right; exact Hy).
  destruct (decide (P x)), (decide (Q x)); tauto.
Qed.

Lemma rollback_outer files w :
  exists w',
    Proc.forEach files (fun file =>
      Proc.forEach knownGeneratedFiles (fun fileToMatch =>
        if generated_match fileToMatch file then
          Proc.log ("Deleting generated file... " +:+ file);; FsOp.removeSync file
        else mret tt)) w = (w', Returned tt)
    /\ entries (fs w') = filter (swept files) (entries (fs w))
    /\ root_exists (fs w') = root_exists (fs w)
    /\ cwd w' = cwd w /\ events w' = events w.
Proof.
  revert w. induction files as [|x files IH]; intros w.
  - exists w. repeat split. simpl.
    symmetry. erewrite (filter_ext_in _ (fun _ => True)).
    + induction (entries (fs w)) as [|e l IHl]; [reflexivity|].
      rewrite filter_cons_True by exact I. congruence.
    + intros e _. unfold swept. split; [tauto|]. intros _ [H _]. inversion H.
  - destruct (rollback_inner knownGeneratedFiles x w) as (w1 & Hrun1 & Hfs1 & Hcwd1 & Hev1).
    destruct (IH w1) as (w' & Hrun & Hent & Hroot & Hcwd & Hev).
    exists w'. split; [|split; [|split; [|split]]].
    + erewrite forEach_cons by exact Hrun1. exact Hrun.
    + rewrite Hent, Hfs1, generated_match_allow_listed.
      destruct (allow_listed x) eqn:Hx; simpl.
      * rewrite list_filter_filter. apply list_filter_iff.
        intros e. unfold swept. rewrite elem_of_cons. split.
        -- intros [H1 H2] [[->| H3] H4]; [congruence|tauto].
        -- intros H. split; [tauto|]. intros ->. apply H. split; [left; reflexivity|assumption].
      * apply list_filter_iff. intros e. unfold swept. rewrite elem_of_cons. split.
        -- intros H [[->|H3] H4]; [congruence|tauto].
        -- tauto.
    + rewrite Hroot, Hfs1. destruct (existsb _ _); reflexivity.
    + congruence.
    + congruence.
Qed.

Lemma bind_log2 {B} a b (k : unit -> Proc B) w :
  ((Proc.log a;; Proc.log b) ≫= k) w
  = k tt {| fs := fs w; cwd := cwd w; console := (console w ++ [a]) ++ [b];
            events := events w |}.
Proof. reflexivity. Qed.

Lemma readdirSync_ok w :
  root_exists (fs w) = true -> FsOp.readdirSync w = (w, Returned (entries (fs w))).
Proof.
  intros H. unfold FsOp.readdirSync, mbind, proc_bind, Proc.bind, Proc.get_fs.
  rewrite H. reflexivity.
Qed.

(** The handler from its first [readdirSync] on. *)
Lemma rollback_sweep (E : Env) (root appName : string) (w : World) :
  root_exists (fs w) = true ->
  let r := (currentFiles ← FsOp.readdirSync;
            Proc.forEach currentFiles (fun file =>
              Proc.forEach knownGeneratedFiles (fun fileToMatch =>
                if generated_match fileToMatch file then
                  Proc.log ("Deleting generated file... " +:+ file);;
                  FsOp.removeSync file
                else mret tt));;
            remainingFiles ← FsOp.readdirSync;
            match remainingFiles with
            | [] =>
                Proc.log ("Deleting " +:+ appName +:+ " / from "
                          +:+ path_resolve E (root +:+ "/.."));;
                Proc.chdir AtParent;;
                FsOp.removeRoot
            | _ :: _ => mret tt
            end;;
            Proc.log "Done.";;
            @Proc.exit unit 1) w in
  r.2 = Exited 1
  /\ entries (fs r.1) = filter (fun file => allow_listed file = false) (entries (fs w))
  /\ root_exists (fs r.1) = bool_decide (entries (fs r.1) <> []).
Proof.
  intros Hroot r. subst r.
  destruct (rollback_outer (entries (fs w)) w) as (w3 & Hrun & Hent & Hroot3 & _ & _).
  rewrite Hroot in Hroot3.
  assert (Hsw : filter (swept (entries (fs w))) (entries (fs w))
                = filter (fun file => allow_listed file = false) (entries (fs w))).
  { apply filter_ext_in. intros e He. unfold swept.
    destruct (allow_listed e); split.
    - intros H. exfalso. apply H. auto.
    - discriminate.
    - reflexivity.
    - intros _ [_ H]. discriminate. }
  rewrite Hsw in Hent.
  rewrite (bind_returned _ _ _ _ _ (readdirSync_ok w Hroot)).
  rewrite (bind_returned _ _ _ _ _ Hrun).
  rewrite (bind_returned _ _ _ _ _ (readdirSync_ok w3 Hroot3)).
  destruct (entries (fs w3)) as [|e es] eqn:He3.
  - simpl. rewrite <- Hent. repeat split.
  - simpl. rewrite He3, Hroot3, <- Hent. repeat split.
Qed.

(** What the handler leaves, whatever the reason. *)
Lemma rollback_outcome (E : Env) (root appName : string) (reason : Reason) (w : World) :
  root_exists (fs w) = true ->
  let r := rollback E root appName reason w in
  r.2 = Exited 1
  /\ entries (fs r.1) = filter (fun file => allow_listed file = false) (entries (fs w))
  /\ root_exists (fs r.1) = bool_decide (entries (fs r.1) <> []).
Proof.
  intros Hroot r. subst r. unfold rollback. rewrite !bind_log.
  destruct (reason_command reason) as [[|c cmd]|];
    rewrite ?bind_log2, ?bind_log; cbv beta;
    match goal with
    | |- (_ ?W).2 = _ /\ _ => exact (rollback_sweep E root appName W Hroot)
    end.
Qed.

(** C1.  When the rollback handler (the callback of [catch] in [run]) runs on
    an existing target directory, for any rejection reason such as the
    [{ command }] of an install that exited non-zero: it ends the process with
    status 1; the entries it leaves are exactly the entries that are not
    allow-listed, where allow-listed means equal to [package.json] or
    [node_modules] or beginning with [npm-debug.log], [yarn-error.log] or
    [yarn-debug.log]; no other entry is deleted; and the directory itself is
    removed if and only if no entry remains. *)
Theorem rollback_deletes_allow_listed (E : Env) (root appName : string)
    (reason : Reason) (w : World) :
  root_exists (fs w) = true ->
  let r := rollback E root appName reason w in
  r.2 = Exited 1
  /\ entries (fs r.1) = filter (fun file => allow_listed file = false) (entries (fs w))
  /\ (forall file, file ∈ entries (fs w) ->
        (file ∈ entries (fs r.1) <-> allow_listed file = false))
  /\ (forall file, file ∈ entries (fs r.1) -> file ∈ entries (fs w))
  /\ (root_exists (fs r.1) = false <-> entries (fs r.1) = []).
Proof.
  intros Hroot r.
  destruct (rollback_outcome E root appName reason w Hroot) as (Hexit & Hent & Hrm).
  fold r in Hexit, Hent, Hrm.
  split; [exact Hexit|]. split; [exact Hent|]. split; [|split].
  - intros file Hin. rewrite Hent, list_elem_of_filter. tauto.
  - intros file. rewrite Hent, list_elem_of_filter. tauto.
  - rewrite Hrm. destruct (entries (fs r.1)); simpl; split; congruence.
Qed.

Lemma rollback_deletes_allow_listed_witness :
  root_exists (fs Sample.littered) = true
  /\ (rollback Sample.default "/work/divi-sample" "divi-sample"
        (InstallFailure "npm install") Sample.littered).2 = Exited 1
  /\ entries (fs (rollback Sample.default "/work/divi-sample" "divi-sample"
                    (InstallFailure "npm install") Sample.littered).1)
     = ["README.md"; "notes.log"].
Proof.
  split; [reflexivity|].
  destruct (rollback_deletes_allow_listed Sample.default "/work/divi-sample" "divi-sample"
              (InstallFailure "npm install") Sample.littered eq_refl) as (H1 & H2 & _).
  split; [exact H1|]. rewrite H2. reflexivity.
Defined.

(** ** The install step *)

(** An install whose child process does not end with code 0 rejects with
    the command line. *)
Lemma install_rejects (E : Env) (useYarn : bool) (dependencies : list string)
    (verbose isOnline : bool) (w : World) :
  (forall command args f,
     (child_process E command args f).2 <> Some 0
     /\ root_exists (child_process E command args f).1 = true) ->
  exists w' line,
    install E useYarn dependencies verbose isOnline w = (w', Rejected (InstallFailure line))
    /\ root_exists (fs w') = true.
Proof.
  intros Hfail.
  destruct useYarn, isOnline, verbose;
    cbv [install Proc.in_callback mbind proc_bind mret proc_ret Proc.bind Proc.ret spawn
         Proc.emit Proc.get_fs Proc.put_fs Proc.log Proc.reject negb fs cwd console events];
    match goal with
    | |- context [child_process E ?c ?a ?f] =>
        destruct (Hfail c a f) as [Hc Hr];
        destruct (child_process E c a f) as [f' code] eqn:Hchild;
        simpl in Hc, Hr;
        destruct code as [[|p|p]|]; [congruence|..];
        eexists; eexists; (split; [reflexivity|exact Hr])
    end.
Qed.

(** X1 (end-to-end scenario B).  With the default package, an install that fails is rolled
    back; the run ends with status 1 and none of the allow-listed artifacts
    is left. *)
Lemma failed_install_rolls_back (E : Env) (root appName : string)
    (verbose useYarn : bool) (w : World) :
  (forall command args f,
     (child_process E command args f).2 <> Some 0
     /\ root_exists (child_process E command args f).1 = true) ->
  let r := run E root appName None verbose useYarn w in
  r.2 = Exited 1
  /\ (forall file, file ∈ entries (fs r.1) -> allow_listed file = false).
Proof.
  intros Hfail r. subst r. unfold run.
  change (getInstallPackage E None) with "react-scripts".
  rewrite bind_log.
  set (w0 := {| fs := fs w; cwd := cwd w;
                console := console w ++ ["Installing packages. This might take a couple minutes."];
                events := events w |}).
  assert (Hinfo : exists w1 isOnline,
    Proc.then_ (getPackageName E "react-scripts")
      (fun packageName => Proc.then_ (checkIfOnline E useYarn)
         (fun isOnline => mret (isOnline, packageName))) w0
    = (w1, Returned (isOnline, "react-scripts"))).
  { destruct useYarn; eexists; eexists; reflexivity. }
  destruct Hinfo as (w1 & isOnline & Hinfo).
  set (w2 := {| fs := fs w1; cwd := cwd w1;
                console := (console w1 ++ ["Installing react, react-dom, and react-scripts..."])
                           ++ [""];
                events := events w1 |}).
  destruct (install_rejects E useYarn ["react"; "react-dom"; "react-scripts"] verbose
              isOnline w2 Hfail) as (w3 & line & Hinstall & Hroot).
  assert (Hchain : Proc.then_
    (Proc.then_
       (Proc.then_ (getPackageName E "react-scripts")
          (fun packageName => Proc.then_ (checkIfOnline E useYarn)
             (fun isOnline => mret (isOnline, packageName))))
       (fun info =>
          Proc.log ("Installing react, react-dom, and " +:+ info.2 +:+ "...");;
          Proc.log "";;
          Proc.then_ (install E useYarn ["react"; "react-dom"; "react-scripts"] verbose info.1)
            (fun _ => mret info.2)))
    (afterInstall E root appName None verbose) w0
    = (w3, Rejected (InstallFailure line))).
  { apply then_rejected. unfold Proc.then_ at 1. rewrite Hinfo.
    unfold Proc.in_callback. cbv beta. simpl fst. simpl snd.
    rewrite !bind_log. fold w2.
    rewrite (then_rejected _ _ _ _ _ Hinstall). reflexivity. }
  rewrite (catch_rejected _ _ _ _ _ Hchain).
  destruct (rollback_outcome E root appName (InstallFailure line) w3 Hroot)
    as (Hexit & Hent & _).
  unfold Proc.in_callback.
  destruct (rollback E root appName (InstallFailure line) w3) as [w4 o].
  simpl in Hexit, Hent. subst o. simpl. split; [reflexivity|].
  intros file. rewrite Hent, list_elem_of_filter. tauto.
Qed.

Lemma failed_install_rolls_back_witness :
  (run Sample.failing_install "/work/divi-sample" "divi-sample" None false false
     (Sample.world ["package.json"; "README.md"] None)).2 = Exited 1
  /\ (forall file,
        file ∈ entries (fs (run Sample.failing_install "/work/divi-sample" "divi-sample"
                              None false false
                              (Sample.world ["package.json"; "README.md"] None)).1) ->
        allow_listed file = false).
Proof.
  exact (failed_install_rolls_back Sample.failing_install "/work/divi-sample" "divi-sample"
           false false (Sample.world ["package.json"; "README.md"] None)
           (fun _ _ _ => conj (fun H => eq_ind (Some 1) (fun c => match c with
                                                                   | Some 0 => False
                                                                   | _ => True
                                                                   end) I (Some 0) H)
                              eq_refl)).
Defined.

(** ** The manifest rewriter *)

(** An entry of the object itself is what a read gives. *)
Lemma get_own (obj : gmap string jsval) name v :
  prop obj name = JStr v -> get obj name = Value (JStr v).
Proof.
  unfold prop, get. destruct (obj !! name) as [x|]; simpl; [congruence|discriminate].
Qed.

(** Under a name that [Object.prototype] does not define a read gives the
    entry of the object itself. *)
Lemma get_plain (obj : gmap string jsval) name :
  inherited name = false -> get obj name = Value (prop obj name).
Proof.
  intros H. unfold prop, get. destruct (obj !! name) as [x|]; simpl; [reflexivity|].
  rewrite H. reflexivity.
Qed.

Lemma makeCaretRange_undefined E deps name w :
  inherited name = false ->
  prop deps name = JUndefined ->
  makeCaretRange E deps name w
  = ({| fs := fs w; cwd := cwd w;
        console := console w ++ ["Missing " +:+ name +:+ " dependency in package.json"];
        events := events w |}, Exited 1).
Proof.
  intros Hname H. unfold makeCaretRange. rewrite (get_plain _ _ Hname), H.
  reflexivity.
Qed.

Lemma makeCaretRange_defined E deps name version w :
  prop deps name = JStr version ->
  exists w', makeCaretRange E deps name w
             = (w', Returned (<[name := JStr (caret E version)]> deps))
    /\ fs w' = fs w /\ cwd w' = cwd w /\ events w' = events w.
Proof.
  intros H. unfold makeCaretRange, caret. rewrite (get_own _ _ _ H).
  destruct (semver_validRange E ("^" +:+ version));
    console_only.
Qed.

Lemma prop_insert (d : gmap string jsval) k v : prop (<[k := v]> d) k = v.
Proof. unfold prop. rewrite lookup_insert_eq. reflexivity. Qed.

Lemma prop_insert_ne (d : gmap string jsval) k k' v :
  k <> k' -> prop (<[k := v]> d) k' = prop d k'.
Proof. intros H. unfold prop. rewrite lookup_insert_ne by exact H. reflexivity. Qed.

Lemma prop_delete_undefined (d : gmap string jsval) k k' :
  prop d k' = JUndefined -> prop (delete k d) k' = JUndefined.
Proof.
  unfold prop. intros H. destruct (decide (k = k')) as [->|Hne].
  - rewrite lookup_delete_eq. reflexivity.
  - rewrite lookup_delete_ne by exact Hne. exact H.
Qed.

Lemma requireManifest_ok w m :
  manifest (fs w) = Some m -> FsOp.requireManifest w = (w, Returned m).
Proof.
  intros H. unfold FsOp.requireManifest, mbind, proc_bind, Proc.bind, Proc.get_fs.
  rewrite H. reflexivity.
Qed.

Lemma makeCaretRange_defined_world E deps name version w :
  prop deps name = JStr version ->
  makeCaretRange E deps name w
  = ({| fs := fs w; cwd := cwd w; console := console w ++ patch_note E name version;
        events := events w |},
     Returned (<[name := JStr (caret E version)]> deps)).
Proof.
  intros H. unfold makeCaretRange, caret, patch_note. rewrite (get_own _ _ _ H).
  destruct (semver_validRange E ("^" +:+ version)); [|reflexivity].
  destruct w. cbn. rewrite app_nil_r. reflexivity.
Qed.

(** A missing entry ends [fixDependencies] with [process.exit( 1 )] after
    the error has been printed; the manifest is not rewritten. *)
Lemma fixDependencies_missing E packageName w m :
  manifest (fs w) = Some m ->
  inherited packageName = false ->
  lacks_required m packageName ->
  exists notes,
    fixDependencies E packageName w
    = ({| fs := fs w; cwd := cwd w;
          console := console w ++ notes ++ [missing_dependency_error m packageName];
          events := events w |}, Exited 1).
Proof.
  intros Hm Hname Hlack. unfold fixDependencies, missing_dependency_error.
  rewrite (bind_returned _ _ _ _ _ (requireManifest_ok w m Hm)).
  unfold lacks_required in Hlack.
  destruct (dependencies m) as [deps|].
  2:{ exists []. reflexivity. }
  rewrite (get_plain deps packageName Hname).
  destruct (prop deps packageName) as [|pv] eqn:Hpkg.
  { exists []. reflexivity. }
  destruct Hlack as [Hl|Hlack]; [discriminate|].
  cbv zeta. cbn [assign].
  set (deps1 := delete packageName deps).
  rewrite (get_plain deps1 "react" eq_refl), (get_plain deps1 "react-dom" eq_refl).
  cbn [assign].
  set (dev2 := <["react-dom" := prop deps1 "react-dom"]>
                 (<["react" := prop deps1 "react"]>
                    (<[packageName := JStr pv]> (default ∅ (devDependencies m))))).
  assert (Hreact : prop dev2 "react" = prop deps1 "react").
  { subst dev2. rewrite prop_insert_ne by discriminate. apply prop_insert. }
  assert (Hdom : prop dev2 "react-dom" = prop deps1 "react-dom").
  { subst dev2. apply prop_insert. }
  destruct (prop deps1 "react") as [|rv] eqn:Hr.
  - exists []. apply bind_exited.
    exact (makeCaretRange_undefined E dev2 "react" w eq_refl Hreact).
  - assert (Hd : prop deps1 "react-dom" = JUndefined).
    { destruct Hlack as [Hl|Hl].
      - subst deps1. rewrite (prop_delete_undefined _ _ _ Hl) in Hr. discriminate.
      - subst deps1. apply prop_delete_undefined. exact Hl. }
    exists (patch_note E "react" rv).
    rewrite (bind_returned _ _ _ _ _ (makeCaretRange_defined_world E dev2 "react" rv w Hreact)).
    assert (Hdom' : prop (<["react" := JStr (caret E rv)]> dev2) "react-dom" = JUndefined).
    { rewrite prop_insert_ne by discriminate. rewrite Hdom. exact Hd. }
    apply bind_exited.
    rewrite (makeCaretRange_undefined E _ "react-dom" _ eq_refl Hdom').
    cbn [fs cwd console events]. rewrite <- app_assoc. reflexivity.
Qed.

Lemma checkNodeVersion_ok E packageName engines w :
  installed_engines_node E packageName = inr engines ->
  (forall range, engines = Some range -> node_satisfies E range = true) ->
  checkNodeVersion E packageName w = (w, Returned tt).
Proof.
  intros He Hsat. unfold checkNodeVersion. rewrite He.
  destruct engines as [range|]; [|reflexivity].
  rewrite (Hsat range eq_refl). reflexivity.
Qed.

(** C2, as the code has it.  When the manifest left by the install lacks a
    required entry (no [dependencies] object, or no entry for the resolved
    package, for [react] or for [react-dom]), the name of the resolved
    package is none that every object inherits from [Object.prototype], and
    the engine check has passed, [fixDependencies] prints the error for the
    first entry it finds missing and ends the process with status 1 inside
    the last [then] callback of [run]; the rollback handler does not run:
    the target directory with its manifest, the working directory and the
    processes started are as the earlier steps left them. *)
Theorem missing_dependency_exits_without_rollback
    (E : Env) (root appName : string) (version : option string) (verbose : bool)
    (packageName : string) (engines : option string) (earlier : Proc string)
    (w0 w : World) (m : Manifest) :
  earlier w0 = (w, Returned packageName) ->
  installed_engines_node E packageName = inr engines ->
  (forall range, engines = Some range -> node_satisfies E range = true) ->
  manifest (fs w) = Some m ->
  inherited packageName = false ->
  lacks_required m packageName ->
  let r := Proc.catch_ (Proc.then_ earlier (afterInstall E root appName version verbose))
             (rollback E root appName) w0 in
  r.2 = Exited 1
  /\ (exists notes,
        console r.1 = console w ++ notes ++ [missing_dependency_error m packageName])
  /\ fs r.1 = fs w /\ cwd r.1 = cwd w /\ events r.1 = events w.
Proof.
  intros Hearlier He Hsat Hm Hname Hlack r.
  destruct (fixDependencies_missing E packageName w m Hm Hname Hlack) as (notes & Hfix).
  assert (Hafter : afterInstall E root appName version verbose packageName w
                   = ({| fs := fs w; cwd := cwd w;
                         console := console w ++ notes
                                    ++ [missing_dependency_error m packageName];
                         events := events w |}, Exited 1)).
  { unfold afterInstall.
    rewrite (bind_returned _ _ _ _ _ (checkNodeVersion_ok E packageName engines w He Hsat)).
    apply bind_exited. exact Hfix. }
  subst r.
  rewrite (catch_exited _ _ _ _ _ (then_exited _ _ _ _ _ _ _ Hearlier Hafter)).
  cbn [fst snd fs cwd console events].
  split; [reflexivity|]. split; [exists notes; reflexivity|]. repeat split.
Qed.

Lemma missing_dependency_exits_without_rollback_witness :
  lacks_required Sample.installed_no_react "react-scripts"
  /\ (let r := Proc.catch_
                 (Proc.then_ (mret "react-scripts")
                    (afterInstall Sample.default "/work/divi-sample" "divi-sample" None
                       false))
                 (rollback Sample.default "/work/divi-sample" "divi-sample")
                 Sample.after_bad_install in
      r.2 = Exited 1
      /\ exists notes,
           console r.1 = console Sample.after_bad_install ++ notes
                         ++ ["Missing react dependency in package.json"]).
Proof.
  assert (Hlack : lacks_required Sample.installed_no_react "react-scripts").
  { right. left. reflexivity. }
  split; [exact Hlack|].
  destruct (missing_dependency_exits_without_rollback Sample.default
              "/work/divi-sample" "divi-sample" None false "react-scripts"
              (Some ">=6") (mret "react-scripts") Sample.after_bad_install
              Sample.after_bad_install Sample.installed_no_react
              eq_refl eq_refl (fun _ _ => eq_refl) eq_refl eq_refl Hlack)
    as (H1 & H2 & _).
  split; [exact H1 | exact H2].
Defined.

(** A run whose install records no [react] entry ends with status 1 and
    leaves [package.json] and [node_modules], both allow-listed, in place. *)
Lemma missing_dependency_keeps_artifacts :
  (createApp Sample.no_react "divi-sample" false None Sample.fresh).2 = Exited 1
  /\ entries (fs (createApp Sample.no_react "divi-sample" false None Sample.fresh).1)
     = ["package.json"; "node_modules"]
  /\ manifest (fs (createApp Sample.no_react "divi-sample" false None Sample.fresh).1)
     = Some Sample.installed_no_react
  /\ allow_listed "package.json" = true /\ allow_listed "node_modules" = true.
Proof. vm_compute. repeat split. Qed.

Section CaretRewrite.

Variable E : Env.

(** What the proofs take from the semver package: a range that begins with
    two carets does not parse. *)
Hypothesis semver_rejects_double_caret :
  forall s, semver_validRange E ("^^" +:+ s) = false.

(** A doubled caret in the stored value was there in the version. *)
Lemma caret_double_kept version :
  Js.starts_with "^^" (caret E version) = true -> caret E version = version.
Proof.
  unfold caret. destruct (semver_validRange E ("^" +:+ version)) eqn:Hvalid; [|reflexivity].
  intros Hcc. exfalso.
  destruct version as [|c rest]; [discriminate Hcc|].
  revert Hcc.
  change (Js.starts_with "^^" ("^" +:+ String c rest)) with (Ascii.eqb "^" c && true).
  destruct (Ascii.eqb_spec "^" c) as [Hc|Hc]; [intros _|discriminate].
  rewrite <- Hc in Hvalid.
  change ("^" +:+ String "^" rest) with ("^^" +:+ rest) in Hvalid.
  rewrite semver_rejects_double_caret in Hvalid. discriminate.
Qed.

Lemma caret_idempotent version : caret E (caret E version) = caret E version.
Proof.
  unfold caret at 2 3. destruct (semver_validRange E ("^" +:+ version)) eqn:Hvalid.
  - unfold caret. change ("^" +:+ "^" +:+ version) with ("^^" +:+ version).
    rewrite semver_rejects_double_caret. reflexivity.
  - unfold caret. rewrite Hvalid. reflexivity.
Qed.

(** C4.  Provided semver refuses a range that begins with two carets,
    [makeCaretRange] is idempotent: on a dependency object in which the name
    has a version it returns, and applied again to what it returned it
    returns the same object; the value it stores begins with two carets only
    when it is the version it was given, unchanged, so a version that does
    not begin with two carets never comes out with two. *)
Theorem makeCaretRange_idempotent (deps : gmap string jsval)
    (name version : string) (w : World) :
  prop deps name = JStr version ->
  exists w1 deps1 patched,
    makeCaretRange E deps name w = (w1, Returned deps1)
    /\ prop deps1 name = JStr patched
    /\ (exists w2, makeCaretRange E deps1 name w1 = (w2, Returned deps1))
    /\ (Js.starts_with "^^" patched = true -> patched = version)
    /\ (Js.starts_with "^^" version = false -> Js.starts_with "^^" patched = false).
Proof.
  intros Hv.
  destruct (makeCaretRange_defined E deps name version w Hv) as (w1 & Hrun1 & _).
  exists w1, (<[name := JStr (caret E version)]> deps), (caret E version).
  split; [exact Hrun1|]. split; [apply prop_insert|].
  split; [|split].
  - destruct (makeCaretRange_defined E (<[name := JStr (caret E version)]> deps) name
                (caret E version) w1 (prop_insert _ _ _)) as (w2 & Hrun2 & _).
    exists w2. rewrite Hrun2, caret_idempotent, insert_insert_eq. reflexivity.
  - apply caret_double_kept.
  - intros Hno. destruct (Js.starts_with "^^" (caret E version)) eqn:Hcc; [|reflexivity].
    rewrite (caret_double_kept version Hcc) in Hcc. congruence.
Qed.

End CaretRewrite.

(** ** The semver model rejects a doubled caret *)

Lemma trim_right_cons c r :
  Semver.is_space c = false ->
  Semver.trim_right (String c r) = String c (Semver.trim_right r).
Proof.
  intros Hc. simpl. rewrite Hc. destruct (Semver.trim_right r); reflexivity.
Qed.

Lemma valid_caret s : Semver.valid (String "^" s) = None.
Proof.
  unfold Semver.valid, Semver.trim.
  change (Semver.trim_left (String "^" s)) with (String "^" s).
  rewrite trim_right_cons by reflexivity.
  destruct (_ <? _)%nat; reflexivity.
Qed.

Lemma validRange_double_caret s : Semver.validRange ("^^" +:+ s) = false.
Proof.
  unfold Semver.validRange, Semver.trim.
  change (Semver.trim_left ("^^" +:+ s)) with (String "^" (String "^" s)).
  rewrite !trim_right_cons by reflexivity.
  change (Ascii.eqb "^" "^") with true. cbv iota.
  rewrite valid_caret. reflexivity.
Qed.

Lemma makeCaretRange_idempotent_witness :
  (forall s, semver_validRange Sample.default ("^^" +:+ s) = false)
  /\ exists w1 deps1 patched,
       makeCaretRange Sample.default (<["react" := JStr "16.2.0"]> ∅) "react" Sample.fresh
       = (w1, Returned deps1)
       /\ prop deps1 "react" = JStr patched
       /\ (exists w2, makeCaretRange Sample.default deps1 "react" w1 = (w2, Returned deps1))
       /\ (Js.starts_with "^^" patched = true -> patched = "16.2.0")
       /\ (Js.starts_with "^^" "16.2.0" = false -> Js.starts_with "^^" patched = false).
Proof.
  split; [exact validRange_double_caret|].
  exact (makeCaretRange_idempotent Sample.default validRange_double_caret
           (<["react" := JStr "16.2.0"]> ∅) "react" "16.2.0" Sample.fresh eq_refl).
Defined.

(** ** The connectivity probe *)

(** C8.  [checkIfOnline] always resolves.  Without yarn it resolves to [true]
    and leaves the world as it is: no name is looked up.  With yarn it looks
    up [registry.yarnpkg.com] once and resolves to [true] exactly when the
    lookup reports no error. *)
Theorem checkIfOnline_probe (E : Env) (useYarn : bool) (w : World) :
  checkIfOnline E useYarn w
  = if useYarn
    then ({| fs := fs w; cwd := cwd w; console := console w;
             events := events w ++ [DnsLookup "registry.yarnpkg.com"] |},
          Returned (bool_decide (dns_lookup_err E "registry.yarnpkg.com" = None)))
    else (w, Returned true).
Proof.
  unfold checkIfOnline. destruct useYarn; simpl; [|reflexivity].
  destruct (dns_lookup_err E "registry.yarnpkg.com"); reflexivity.
Qed.

(** ** The resolver *)

Lemma contains_cons p c r :
  Js.contains p (String c r) = Js.starts_with p (String c r) || Js.contains p r.
Proof. reflexivity. Qed.

Lemma contains_cons_false p c r :
  Js.contains p (String c r) = false ->
  Js.starts_with p (String c r) = false /\ Js.contains p r = false.
Proof. rewrite contains_cons. apply orb_false_iff. Qed.

Lemma contains_starts_with p s : Js.starts_with p s = true -> Js.contains p s = true.
Proof. intros H. destruct s; simpl; rewrite H; reflexivity. Qed.

Lemma indexOf_pos p c r :
  Js.starts_with p (String c r) = false -> Js.contains p r = true ->
  (0 <? Js.indexOf p (String c r)) = true.
Proof.
  intros H1 H2. simpl Js.indexOf. rewrite H1.
  assert (H : 0 <= Js.indexOf p r).
  { clear H1. induction r as [|d r IH]; simpl in *.
    - rewrite orb_false_r in H2. rewrite H2. lia.
    - destruct (Js.starts_with p (String d r)); [lia|].
      simpl in H2. specialize (IH H2).
      destruct (Js.indexOf p r <? 0) eqn:E; [apply Z.ltb_lt in E; lia | lia]. }
  destruct (Js.indexOf p r <? 0) eqn:E; [apply Z.ltb_lt in E; lia|].
  apply Z.ltb_lt. lia.
Qed.

(** The display name of [react-scripts@v]. *)
Lemma getPackageName_scripts_at E v w :
  Js.contains ".tgz" v = false ->
  getPackageName E ("react-scripts@" +:+ v) w = (w, Returned "react-scripts").
Proof.
  intros Htgz. unfold getPackageName.
  assert (H1 : Js.contains ".tgz" ("react-scripts@" +:+ v) = false).
  { simpl. exact Htgz. }
  rewrite H1. rewrite indexOf_0.
  change (Js.starts_with "git+" ("react-scripts@" +:+ v)) with false. cbv iota.
  assert (H2 : (0 <? Js.indexOf "@" ("react-scripts@" +:+ v)) = true).
  { apply indexOf_pos; [reflexivity|]. simpl. reflexivity. }
  rewrite H2. reflexivity.
Qed.

(** C5, as the code has it.  When [semver.valid] accepts the version
    specifier, the install target is [react-scripts@] followed by the
    normalised version that [semver.valid] returned, and the display name is
    [react-scripts] provided that version does not contain [.tgz]; with no
    version specifier both are [react-scripts]. *)
Theorem resolver_semver (E : Env) (version : option string) (validSemver : string)
    (w : World) :
  valid_version E version = Some validSemver ->
  validSemver <> EmptyString ->
  getInstallPackage E version = "react-scripts@" +:+ validSemver
  /\ (Js.contains ".tgz" validSemver = false ->
      getPackageName E (getInstallPackage E version) w = (w, Returned "react-scripts"))
  /\ getInstallPackage E None = "react-scripts"
  /\ getPackageName E (getInstallPackage E None) w = (w, Returned "react-scripts").
Proof.
  intros Hvalid Hne.
  assert (Hpkg : getInstallPackage E version = "react-scripts@" +:+ validSemver).
  { unfold getInstallPackage. rewrite Hvalid.
    destruct validSemver; [congruence|reflexivity]. }
  split; [exact Hpkg|]. split; [|split; reflexivity].
  intros Htgz. rewrite Hpkg. apply getPackageName_scripts_at. exact Htgz.
Qed.

Lemma resolver_semver_witness :
  valid_version Sample.default (Some "v1.2.3") = Some "1.2.3"
  /\ getInstallPackage Sample.default (Some "v1.2.3") = "react-scripts@1.2.3"
  /\ getPackageName Sample.default (getInstallPackage Sample.default (Some "v1.2.3"))
       Sample.fresh = (Sample.fresh, Returned "react-scripts").
Proof.
  split; [reflexivity|].
  destruct (resolver_semver Sample.default (Some "v1.2.3") "1.2.3" Sample.fresh eq_refl)
    as (H1 & H2 & _); [discriminate|].
  split; [exact H1|]. apply H2. reflexivity.
Defined.

(** With build metadata the install target carries the normalised version,
    not the specifier; and a version with [.tgz] in its prerelease sends
    [getPackageName] into the archive branch, where no display name comes
    out. *)
Lemma resolver_semver_counterexample :
  Semver.valid "1.2.3+build.5" = Some "1.2.3"
  /\ getInstallPackage Sample.default (Some "1.2.3+build.5") <> "react-scripts@1.2.3+build.5"
  /\ Semver.valid "1.0.0-a.tgz" = Some "1.0.0-a.tgz"
  /\ getInstallPackage Sample.default (Some "1.0.0-a.tgz") = "react-scripts@1.0.0-a.tgz"
  /\ (getPackageName Sample.default "react-scripts@1.0.0-a.tgz" Sample.fresh).2
     = Rejected (TypeError "Cannot read property '1' of null").
Proof. repeat split. vm_compute. discriminate. Qed.

(** *** Archive specifiers *)

(** Without a slash the archive pattern does not match. *)
Lemma tgz_scan_no_slash s : Js.contains "/" s = false -> Pattern.tgz_scan s = None.
Proof.
  induction s as [|c r IH]; [reflexivity|].
  intros H. apply contains_cons_false in H as [H1 H2].
  simpl. destruct (Js.is_line_terminator c); [reflexivity|].
  rewrite (IH H2).
  change (Js.starts_with "/" (String c r)) with (Ascii.eqb "/" c && true) in H1.
  rewrite andb_true_r, Ascii.eqb_sym in H1. rewrite H1. reflexivity.
Qed.

Lemma tgz_name_no_slash s : Js.contains "/" s = false -> Pattern.tgz_name s = None.
Proof.
  destruct s as [|c r]; [reflexivity|].
  intros H. apply contains_cons_false in H as [_ H].
  simpl. destruct (Js.is_line_terminator c); [reflexivity|].
  apply tgz_scan_no_slash. exact H.
Qed.

(** C6: what the code does on an archive specifier without a slash.  When
    the archive cannot be read, the fallback pattern does not match, reading
    group 1 of the [null] match throws, and [getPackageName] rejects: no
    display name is derived from the file name. *)
Theorem archive_fallback_without_slash (E : Env) (installPackage : string)
    (err : Reason) (w : World) :
  Js.contains ".tgz" installPackage = true ->
  Js.contains "/" installPackage = false ->
  archive_name E installPackage = inl err ->
  exists w',
    getPackageName E installPackage w
    = (w', Rejected (TypeError "Cannot read property '1' of null"))
    /\ fs w' = fs w.
Proof.
  intros Htgz Hslash Herr. unfold getPackageName. rewrite Htgz.
  unfold Proc.catch_, readArchiveName.
  unfold mbind, proc_bind, Proc.bind, Proc.emit. rewrite Herr.
  unfold Proc.reject, Proc.in_callback, Proc.log.
  rewrite (tgz_name_no_slash _ Hslash).
  eexists. split; [reflexivity|reflexivity].
Qed.

Lemma archive_fallback_without_slash_witness :
  Js.contains ".tgz" "react-scripts-0.2.0-alpha.1.tgz" = true
  /\ Js.contains "/" "react-scripts-0.2.0-alpha.1.tgz" = false
  /\ exists w',
    getPackageName Sample.default "react-scripts-0.2.0-alpha.1.tgz" Sample.fresh
    = (w', Rejected (TypeError "Cannot read property '1' of null"))
    /\ fs w' = fs Sample.fresh.
Proof.
  split; [reflexivity|]. split; [reflexivity|].
  exact (archive_fallback_without_slash Sample.default "react-scripts-0.2.0-alpha.1.tgz"
           (Error "invalid tar file") Sample.fresh eq_refl eq_refl eq_refl).
Defined.

(** *** Git specifiers *)

Lemma git_tail_starts r : Pattern.git_tail r = true -> Js.starts_with ".git" r = true.
Proof.
  destruct r as [|c1 [|c2 [|c3 [|c4 rest]]]]; try discriminate.
  unfold Pattern.git_tail.
  change (Js.starts_with ".git" (String c1 (String c2 (String c3 (String c4 rest)))))
    with (Ascii.eqb "." c1 && (Ascii.eqb "g" c2 && (Ascii.eqb "i" c3 && (Ascii.eqb "t" c4 && true)))).
  rewrite !(Ascii.eqb_sym _ c1), !(Ascii.eqb_sym _ c2), !(Ascii.eqb_sym _ c3), !(Ascii.eqb_sym _ c4).
  destruct (Ascii.eqb c1 "."), (Ascii.eqb c2 "g"), (Ascii.eqb c3 "i"), (Ascii.eqb c4 "t");
    simpl; congruence.
Qed.

(** No [.git] ahead: no group. *)
Lemma git_group_none s : Js.contains ".git" s = false -> Pattern.git_group s = None.
Proof.
  induction s as [|c r IH]; [reflexivity|].
  intros H. apply contains_cons_false in H as [_ H].
  simpl. destruct (Ascii.eqb c "/"); [reflexivity|].
  rewrite (IH H).
  destruct (Pattern.git_tail r) eqn:Ht; [|reflexivity].
  apply git_tail_starts, contains_starts_with in Ht. congruence.
Qed.

Lemma git_tail_not_dot c r : c <> "."%char -> Pattern.git_tail (String c r) = false.
Proof.
  intros Hc. destruct r as [|c2 [|c3 [|c4 rest]]]; try reflexivity.
  unfold Pattern.git_tail. apply Ascii.eqb_neq in Hc. rewrite Hc. reflexivity.
Qed.

(** From the [.git] that closes the segment no later group starts. *)
Lemma git_group_dot_git suffix :
  Js.contains ".git" suffix = false ->
  Pattern.git_group (".git" +:+ suffix) = None.
Proof.
  intros H.
  assert (Hs : Pattern.git_tail suffix = false).
  { destruct (Pattern.git_tail suffix) eqn:Ht; [|reflexivity].
    apply git_tail_starts, contains_starts_with in Ht. congruence. }
  change (".git" +:+ suffix) with (String "." (String "g" (String "i" (String "t" suffix)))).
  unfold Pattern.git_group; fold Pattern.git_group.
  rewrite (git_group_none _ H), Hs.
  rewrite !git_tail_not_dot by discriminate.
  reflexivity.
Qed.

Lemma git_group_segment seg suffix :
  seg <> EmptyString ->
  Js.contains "/" seg = false ->
  Pattern.git_tail (".git" +:+ suffix) = true ->
  Js.contains ".git" suffix = false ->
  Pattern.git_group (seg +:+ ".git" +:+ suffix) = Some seg.
Proof.
  intros Hne Hslash Htail Hsuffix.
  induction seg as [|c r IH]; [congruence|].
  apply contains_cons_false in Hslash as [Hc Hr].
  change (Js.starts_with "/" (String c r)) with (Ascii.eqb "/" c && true) in Hc.
  rewrite andb_true_r, Ascii.eqb_sym in Hc.
  change (String c r +:+ ".git" +:+ suffix) with (String c (r +:+ ".git" +:+ suffix)).
  unfold Pattern.git_group; fold Pattern.git_group. rewrite Hc.
  destruct r as [|d r'].
  - change ("" +:+ ".git" +:+ suffix) with (".git" +:+ suffix).
    rewrite (git_group_dot_git _ Hsuffix), Htail. reflexivity.
  - rewrite IH by (discriminate || exact Hr). reflexivity.
Qed.

Lemma git_tail_inv r :
  Pattern.git_tail r = true ->
  exists x, r = ".git" +:+ x /\ (x = EmptyString \/ exists ref, x = String "#" ref).
Proof.
  destruct r as [|c1 [|c2 [|c3 [|c4 rest]]]]; try discriminate.
  unfold Pattern.git_tail. intros H.
  repeat (apply andb_true_iff in H as [H ?]).
  repeat match goal with
         | Hc : Ascii.eqb _ _ = true |- _ => apply Ascii.eqb_eq in Hc; subst
         end.
  exists rest. split; [reflexivity|].
  destruct rest as [|h ref]; [left; reflexivity|].
  right. exists ref.
  match goal with Hh : _ && _ = true |- _ => apply andb_true_iff in Hh as [Hh _];
    apply Ascii.eqb_eq in Hh; subst; reflexivity end.
Qed.

(** Before the last slash of a prefix without [#] no match starts. *)
Lemma git_group_before_slash run rest :
  Js.contains "#" run = false ->
  Pattern.git_group (run +:+ "/" +:+ rest) = None.
Proof.
  induction run as [|c r IH]; intros H; [reflexivity|].
  apply contains_cons_false in H as [_ Hr].
  change (String c r +:+ "/" +:+ rest) with (String c (r +:+ "/" +:+ rest)).
  unfold Pattern.git_group; fold Pattern.git_group.
  destruct (Ascii.eqb c "/"); [reflexivity|].
  rewrite (IH Hr).
  assert (Ht : Pattern.git_tail (r +:+ "/" +:+ rest) = false).
  { destruct (Pattern.git_tail (r +:+ "/" +:+ rest)) eqn:Ht; [exfalso|reflexivity].
    apply git_tail_inv in Ht as (x & Hx & Hend).
    destruct r as [|c1 [|c2 [|c3 [|c4 [|c5 r5]]]]]; simpl in Hx;
      try discriminate Hx.
    - injection Hx as _ _ _ _ Hx.
      destruct Hend as [->|[ref ->]]; discriminate Hx.
    - injection Hx as _ _ _ _ Hx.
      destruct Hend as [->|[ref ->]]; [discriminate Hx|].
      injection Hx as -> _.
      do 4 (apply contains_cons_false in Hr as [_ Hr]).
      apply contains_cons_false in Hr as [Hr _]. discriminate Hr. }
  rewrite Ht. reflexivity.
Qed.

Lemma git_name_skip pre rest :
  Js.contains "#" pre = false ->
  Pattern.git_name (pre +:+ "/" +:+ rest) = Pattern.git_name rest.
Proof.
  induction pre as [|c r IH]; intros H.
  - simpl. reflexivity.
  - pose proof (git_group_before_slash (String c r) rest H) as Hg.
    change (String c r +:+ "/" +:+ rest) with (String c (r +:+ "/" +:+ rest)) in *.
    unfold Pattern.git_name; fold Pattern.git_name.
    rewrite Hg. apply IH.
    apply contains_cons_false in H as [_ H]. exact H.
Qed.

Lemma git_name_pick seg suffix :
  seg <> EmptyString ->
  Js.contains "/" seg = false ->
  Pattern.git_tail (".git" +:+ suffix) = true ->
  Js.contains ".git" suffix = false ->
  Pattern.git_name (seg +:+ ".git" +:+ suffix) = Some seg.
Proof.
  intros Hne Hslash Htail Hsuffix.
  pose proof (git_group_segment seg suffix Hne Hslash Htail Hsuffix) as Hg.
  destruct seg as [|c r]; [congruence|].
  change (String c r +:+ ".git" +:+ suffix) with (String c (r +:+ ".git" +:+ suffix)) in *.
  unfold Pattern.git_name; fold Pattern.git_name. rewrite Hg. reflexivity.
Qed.

(** C7, as the code has it.  For a specifier [pre/seg.git] or
    [pre/seg.git#ref] that begins with [git+] and does not contain [.tgz],
    where [pre] has no [#], [seg] is not empty and has no [/], and [ref] has no
    line terminator and no further [.git]: the display name is [seg], and the
    specifier is the install target unchanged when [semver.valid] refuses
    it. *)
Theorem git_display_name (E : Env) (pre seg suffix : string) (w : World) :
  let specifier := pre +:+ "/" +:+ seg +:+ ".git" +:+ suffix in
  Js.starts_with "git+" specifier = true ->
  Js.contains ".tgz" specifier = false ->
  Js.contains "#" pre = false ->
  seg <> EmptyString ->
  Js.contains "/" seg = false ->
  (suffix = EmptyString
   \/ exists ref, suffix = "#" +:+ ref /\ Js.no_line_terminator ref = true) ->
  Js.contains ".git" suffix = false ->
  getPackageName E specifier w = (w, Returned seg)
  /\ (semver_valid E specifier = None -> getInstallPackage E (Some specifier) = specifier).
Proof.
  intros specifier Hgit Htgz Hpre Hne Hslash Href Hsuffix.
  assert (Htail : Pattern.git_tail (".git" +:+ suffix) = true).
  { destruct Href as [->|(ref & -> & Href)]; [reflexivity|].
    unfold Pattern.git_tail. simpl. exact Href. }
  split.
  - unfold getPackageName. rewrite Htgz, indexOf_0, Hgit. simpl (true).
    subst specifier. rewrite (git_name_skip pre _ Hpre).
    rewrite (git_name_pick seg suffix Hne Hslash Htail Hsuffix). reflexivity.
  - intros Hv. unfold getInstallPackage, valid_version. rewrite Hv.
    destruct specifier; [discriminate Hgit|reflexivity].
Qed.

Lemma git_display_name_witness :
  getPackageName Sample.default "git+https://example.com/x/my-pkg.git#v1.2.3" Sample.fresh
  = (Sample.fresh, Returned "my-pkg")
  /\ getInstallPackage Sample.default (Some "git+https://example.com/x/my-pkg.git#v1.2.3")
     = "git+https://example.com/x/my-pkg.git#v1.2.3".
Proof.
  destruct (git_display_name Sample.default "git+https://example.com/x" "my-pkg" "#v1.2.3"
              Sample.fresh eq_refl eq_refl eq_refl) as [H1 H2];
    [discriminate|reflexivity|right; exists "v1.2.3"; split; reflexivity|reflexivity|].
  split; [exact H1|]. apply H2. reflexivity.
Defined.

(** A [git+] specifier with [.tgz] in it is resolved as an archive, and
    with a [.git] in the ref the group runs up to the last one. *)
Lemma git_display_name_counterexample :
  (getPackageName Sample.default "git+https://example.com/x/my.tgz-mirror.git" Sample.fresh).2
  = Rejected (TypeError "Cannot read property '1' of null")
  /\ (getPackageName Sample.default "git+https://example.com/x/my-pkg.git#v1.git"
        Sample.fresh).2
     = Returned "my-pkg.git#v1".
Proof. split; reflexivity. Qed.

(** ** The directory check of [createApp] *)

Lemma forEach_log (f : string -> string) l w :
  exists w', Proc.forEach l (fun x => Proc.log (f x)) w = (w', Returned tt)
    /\ fs w' = fs w /\ cwd w' = cwd w /\ events w' = events w.
Proof.
  revert w. induction l as [|x l IH]; intros w.
  - exists w. repeat split.
  - destruct (IH {| fs := fs w; cwd := cwd w; console := console w ++ [f x];
                    events := events w |}) as (w' & Hrun & Hfs & Hcwd & Hev).
    exists w'. split; [exact Hrun|]. auto.
Qed.

Lemma printValidationResults_frame results w :
  exists w', printValidationResults results w = (w', Returned tt)
    /\ fs w' = fs w /\ cwd w' = cwd w /\ events w' = events w.
Proof.
  destruct results as [l|]; [apply forEach_log|].
  exists w. repeat split.
Qed.

(** [checkAppName] returns or exits with status 1; it touches nothing but
    the console. *)
Lemma checkAppName_frame E appName w :
  exists w',
    (checkAppName E appName w = (w', Returned tt)
     \/ checkAppName E appName w = (w', Exited 1))
    /\ fs w' = fs w /\ cwd w' = cwd w /\ events w' = events w.
Proof.
  unfold checkAppName.
  destruct (validForNewPackages (validateProjectName E appName)); simpl negb; cbv iota.
  - destruct (includes appName ["react"; "react-dom"; "react-scripts"]).
    + eexists. split; [right; reflexivity|]. repeat split.
    + eexists. split; [left; reflexivity|]. repeat split.
  - set (line := "Could not create a project called " +:+ dquote +:+ appName +:+ dquote
                 +:+ " because of npm naming restrictions:").
    destruct (printValidationResults_frame (errors (validateProjectName E appName))
                {| fs := fs w; cwd := cwd w; console := console w ++ [line];
                   events := events w |})
      as (w1 & Hrun1 & Hfs1 & Hcwd1 & Hev1).
    destruct (printValidationResults_frame (warnings (validateProjectName E appName)) w1)
      as (w2 & Hrun2 & Hfs2 & Hcwd2 & Hev2).
    exists w2. split.
    + right. apply bind_exited.
      rewrite bind_log.
      rewrite (bind_returned _ _ _ _ _ Hrun1).
      rewrite (bind_returned _ _ _ _ _ Hrun2).
      reflexivity.
    + simpl in *. repeat split; congruence.
Qed.

Lemma forallb_includes_false files file :
  file ∈ files -> includes file validFiles = false ->
  forallb (fun f => includes f validFiles) files = false.
Proof.
  induction files as [|x l IH]; intros Hin Hf; [inversion Hin|].
  apply elem_of_cons in Hin as [->|Hin]; cbn [forallb].
  - rewrite Hf. reflexivity.
  - rewrite (IH Hin Hf). apply andb_false_r.
Qed.

(** C9.  On an existing target directory that holds an entry outside
    [validFiles], [createApp] ends the process with status 1 and leaves the
    directory, its manifest, the working directory and the list of started
    processes as they were: no manifest is written, nothing is installed.
    An empty directory passes [isSafeToCreateProjectIn]. *)
Theorem createApp_refuses_conflicting_directory (E : Env) (name : string)
    (verbose : bool) (version : option string) (w : World) :
  root_exists (fs w) = true ->
  ((exists file, file ∈ entries (fs w) /\ includes file validFiles = false) ->
   let r := createApp E name verbose version w in
   r.2 = Exited 1 /\ fs r.1 = fs w /\ events r.1 = events w /\ cwd r.1 = cwd w)
  /\ (entries (fs w) = [] -> isSafeToCreateProjectIn w = (w, Returned true)).
Proof.
  intros Hroot. split.
  - intros (file & Hin & Hbad) r. subst r. unfold createApp.
    destruct (checkAppName_frame E (path_basename E (path_resolve E name)) w)
      as (w1 & [Hrun|Hrun] & Hfs & Hcwd & Hev).
    + rewrite (bind_returned _ _ _ _ _ Hrun).
      assert (Hroot1 : root_exists (fs w1) = true) by congruence.
      assert (Hens : FsOp.ensureDirSync w1 = (w1, Returned tt)).
      { unfold FsOp.ensureDirSync, mbind, proc_bind, Proc.bind, Proc.get_fs.
        rewrite Hroot1. reflexivity. }
      rewrite (bind_returned _ _ _ _ _ Hens).
      assert (Hsafe : isSafeToCreateProjectIn w1 = (w1, Returned false)).
      { unfold isSafeToCreateProjectIn.
        rewrite (bind_returned _ _ _ _ _ (readdirSync_ok w1 Hroot1)).
        rewrite Hfs, (forallb_includes_false _ _ Hin Hbad). reflexivity. }
      rewrite (bind_returned _ _ _ _ _ Hsafe).
      simpl. auto.
    + rewrite (bind_exited _ _ _ _ _ Hrun). simpl. auto.
  - intros Hempty. unfold isSafeToCreateProjectIn.
    rewrite (bind_returned _ _ _ _ _ (readdirSync_ok w Hroot)).
    rewrite Hempty. reflexivity.
Qed.

Lemma createApp_refuses_conflicting_directory_witness :
  root_exists (fs Sample.occupied) = true
  /\ "index.html" ∈ entries (fs Sample.occupied)
  /\ includes "index.html" validFiles = false
  /\ (createApp Sample.default "divi-sample" false None Sample.occupied).2 = Exited 1
  /\ fs (createApp Sample.default "divi-sample" false None Sample.occupied).1 = fs Sample.occupied.
Proof.
  assert (Hin : "index.html" ∈ entries (fs Sample.occupied)) by (right; left).
  split; [reflexivity|]. split; [exact Hin|]. split; [reflexivity|].
  destruct (proj1 (createApp_refuses_conflicting_directory Sample.default "divi-sample"
                     false None Sample.occupied eq_refl)
              (ex_intro _ "index.html" (conj Hin eq_refl))) as (H1 & H2 & _).
  split; [exact H1 | exact H2].
Defined.

(** * Further properties of the program *)

(** ** The manifest rewriter on a complete manifest *)

Lemma prop_stringify (d : gmap string jsval) k : prop (stringify_props d) k = prop d k.
Proof.
  unfold prop, stringify_props.
  destruct (d !! k) as [v|] eqn:Hk.
  - destruct (decide (v = JUndefined)) as [->|Hv].
    + rewrite map_lookup_filter_None_2; [reflexivity|].
      right. intros x Hx. rewrite Hk in Hx. injection Hx as <-. simpl. tauto.
    + erewrite map_lookup_filter_Some_2; [reflexivity|exact Hk|exact Hv].
  - rewrite map_lookup_filter_None_2; [reflexivity|]. left. exact Hk.
Qed.

Lemma prop_delete (d : gmap string jsval) k : prop (delete k d) k = JUndefined.
Proof. unfold prop. rewrite lookup_delete_eq. reflexivity. Qed.

Lemma prop_delete_ne (d : gmap string jsval) k k' :
  k <> k' -> prop (delete k d) k' = prop d k'.
Proof. intros H. unfold prop. rewrite lookup_delete_ne by exact H. reflexivity. Qed.

Lemma writeManifest_ok m w :
  root_exists (fs w) = true ->
  FsOp.writeManifest m w
  = ({| fs := {| root_exists := true;
                 entries := if includes "package.json" (entries (fs w)) then entries (fs w)
                            else entries (fs w) ++ ["package.json"];
                 manifest := Some m |};
        cwd := cwd w; console := console w; events := events w |}, Returned tt).
Proof.
  intros H. unfold FsOp.writeManifest, mbind, proc_bind, Proc.bind, Proc.get_fs.
  rewrite H. reflexivity.
Qed.

(** On a manifest that records the three packages, [fixDependencies]
    returns after it has written the manifest back. *)
Lemma fixDependencies_returns (E : Env) (packageName : string) (w : World)
    (m : Manifest) (deps : gmap string jsval) (pv rv dv : string) :
  root_exists (fs w) = true ->
  manifest (fs w) = Some m ->
  dependencies m = Some deps ->
  prop deps packageName = JStr pv ->
  prop deps "react" = JStr rv ->
  prop deps "react-dom" = JStr dv ->
  packageName <> "react" ->
  packageName <> "react-dom" ->
  exists w',
    fixDependencies E packageName w = (w', Returned tt)
    /\ fs w' = {| root_exists := true;
                  entries := if includes "package.json" (entries (fs w)) then entries (fs w)
                             else entries (fs w) ++ ["package.json"];
                  manifest :=
                    Some {| pkg_name := pkg_name m; pkg_version := pkg_version m;
                            dependencies := Some (moved_dependencies packageName deps);
                            devDependencies :=
                              Some (moved_devDependencies E packageName
                                      (default ∅ (devDependencies m)) pv rv dv) |} |}
    /\ cwd w' = cwd w /\ events w' = events w.
Proof.
  intros Hroot Hm Hdeps Hpkg Hreact Hdom Hne1 Hne2.
  unfold fixDependencies.
  rewrite (bind_returned _ _ _ _ _ (requireManifest_ok w m Hm)).
  rewrite Hdeps, (get_own _ _ _ Hpkg). cbv zeta.
  assert (Hr1 : prop (delete packageName deps) "react" = JStr rv).
  { rewrite prop_delete_ne by exact Hne1. exact Hreact. }
  assert (Hd1 : prop (delete packageName deps) "react-dom" = JStr dv).
  { rewrite prop_delete_ne by exact Hne2. exact Hdom. }
  rewrite (get_own _ _ _ Hr1), (get_own _ _ _ Hd1). cbn [assign].
  set (dev2 := <["react-dom" := JStr dv]>
                 (<["react" := JStr rv]>
                    (<[packageName := JStr pv]> (default ∅ (devDependencies m))))).
  assert (Hreact2 : prop dev2 "react" = JStr rv).
  { subst dev2. rewrite prop_insert_ne by discriminate. apply prop_insert. }
  destruct (makeCaretRange_defined E dev2 "react" rv w Hreact2)
    as (w1 & Hrun1 & Hfs1 & Hcwd1 & Hev1).
  rewrite (bind_returned _ _ _ _ _ Hrun1).
  set (dev3 := <["react" := JStr (caret E rv)]> dev2) in *.
  assert (Hdom3 : prop dev3 "react-dom" = JStr dv).
  { subst dev3 dev2. rewrite prop_insert_ne by discriminate. apply prop_insert. }
  destruct (makeCaretRange_defined E dev3 "react-dom" dv w1 Hdom3)
    as (w2 & Hrun2 & Hfs2 & Hcwd2 & Hev2).
  rewrite (bind_returned _ _ _ _ _ Hrun2).
  assert (Hroot2 : root_exists (fs w2) = true) by congruence.
  rewrite (writeManifest_ok _ w2 Hroot2).
  eexists. split; [reflexivity|]. cbn [fs cwd console events].
  rewrite Hfs2, Hfs1. repeat split; congruence.
Qed.

(** X2.  On a manifest that records the resolved package, [react] and
    [react-dom] as strings under [dependencies], and for a resolved package
    that is neither [react] nor [react-dom], [fixDependencies] returns after
    writing the manifest back with the same name and version: the three
    entries are gone from [dependencies]; [devDependencies] holds the
    resolved package at its recorded version and [react], [react-dom] at the
    versions [makeCaretRange] stores for them; every other entry of both
    objects is as it was; nothing is started and the working directory
    stays. *)
Theorem fixDependencies_moves (E : Env) (packageName : string) (w : World)
    (m : Manifest) (deps : gmap string jsval) (pv rv dv : string) :
  root_exists (fs w) = true ->
  manifest (fs w) = Some m ->
  dependencies m = Some deps ->
  prop deps packageName = JStr pv ->
  prop deps "react" = JStr rv ->
  prop deps "react-dom" = JStr dv ->
  packageName <> "react" ->
  packageName <> "react-dom" ->
  exists w' deps' dev',
    fixDependencies E packageName w = (w', Returned tt)
    /\ manifest (fs w')
       = Some {| pkg_name := pkg_name m; pkg_version := pkg_version m;
                 dependencies := Some deps'; devDependencies := Some dev' |}
    /\ prop deps' packageName = JUndefined
    /\ prop deps' "react" = JUndefined
    /\ prop deps' "react-dom" = JUndefined
    /\ prop dev' packageName = JStr pv
    /\ prop dev' "react" = JStr (caret E rv)
    /\ prop dev' "react-dom" = JStr (caret E dv)
    /\ (forall k, k <> packageName -> k <> "react" -> k <> "react-dom" ->
          prop deps' k = prop deps k
          /\ prop dev' k = prop (default ∅ (devDependencies m)) k)
    /\ events w' = events w /\ cwd w' = cwd w.
Proof.
  intros Hroot Hm Hdeps Hpkg Hreact Hdom Hne1 Hne2.
  destruct (fixDependencies_returns E packageName w m deps pv rv dv
              Hroot Hm Hdeps Hpkg Hreact Hdom Hne1 Hne2) as (w' & Hrun & Hfs & Hcwd & Hev).
  exists w', (moved_dependencies packageName deps),
    (moved_devDependencies E packageName (default ∅ (devDependencies m)) pv rv dv).
  split; [exact Hrun|]. split; [rewrite Hfs; reflexivity|].
  unfold moved_dependencies, moved_devDependencies. rewrite !prop_stringify.
  split. { rewrite !prop_delete_ne by congruence. apply prop_delete. }
  split. { rewrite prop_delete_ne by discriminate. apply prop_delete. }
  split. { apply prop_delete. }
  split. { rewrite !prop_insert_ne by congruence. apply prop_insert. }
  split. { rewrite prop_insert_ne by discriminate. apply prop_insert. }
  split. { apply prop_insert. }
  split; [|split; congruence].
  intros k Hk1 Hk2 Hk3. rewrite !prop_stringify. split.
  - rewrite !prop_delete_ne by congruence. reflexivity.
  - rewrite !prop_insert_ne by congruence. reflexivity.
Qed.

Lemma fixDependencies_moves_witness :
  exists w',
    fixDependencies Sample.default "react-scripts"
      (Sample.world ["package.json"; "node_modules"] (Some Sample.installed_ok))
    = (w', Returned tt)
    /\ option_map (fun m => (option_map (fun d => prop d "react") (dependencies m),
                             option_map (fun d => prop d "react") (devDependencies m)))
         (manifest (fs w'))
       = Some (Some JUndefined, Some (JStr "^16.2.0")).
Proof.
  destruct (fixDependencies_moves Sample.default "react-scripts"
              (Sample.world ["package.json"; "node_modules"] (Some Sample.installed_ok))
              Sample.installed_ok _ "1.0.17" "16.2.0" "16.2.0"
              eq_refl eq_refl eq_refl eq_refl eq_refl eq_refl
              ltac:(discriminate) ltac:(discriminate))
    as (w' & deps' & dev' & Hrun & Hm & _ & Hr & _ & _ & Hdr & _).
  exists w'. split; [exact Hrun|].
  rewrite Hm. simpl. rewrite Hr, Hdr. reflexivity.
Defined.

(** X3.  When the resolved package is itself [react] or [react-dom],
    [fixDependencies] never completes on a manifest that is there: moving
    the package empties the entry that is copied afterwards, so an entry is
    found missing and the process ends with status 1; the manifest on disk
    is not rewritten. *)
Theorem fixDependencies_own_runtime (E : Env) (packageName : string) (w : World)
    (m : Manifest) :
  packageName = "react" \/ packageName = "react-dom" ->
  manifest (fs w) = Some m ->
  exists w', fixDependencies E packageName w = (w', Exited 1)
    /\ fs w' = fs w /\ cwd w' = cwd w /\ events w' = events w.
Proof.
  intros Hname Hm.
  assert (Hplain : inherited packageName = false).
  { destruct Hname as [->| ->]; reflexivity. }
  unfold fixDependencies.
  rewrite (bind_returned _ _ _ _ _ (requireManifest_ok w m Hm)).
  destruct (dependencies m) as [deps|].
  2:{ rewrite bind_log. console_only. }
  rewrite (get_plain deps packageName Hplain).
  destruct (prop deps packageName) as [|pv] eqn:Hpkg.
  { rewrite bind_log. console_only. }
  cbv zeta. cbn [assign].
  set (deps1 := delete packageName deps).
  rewrite (get_plain deps1 "react" eq_refl), (get_plain deps1 "react-dom" eq_refl).
  cbn [assign].
  set (dev2 := <["react-dom" := prop deps1 "react-dom"]>
                 (<["react" := prop deps1 "react"]>
                    (<[packageName := JStr pv]> (default ∅ (devDependencies m))))).
  assert (Hreact : prop dev2 "react" = prop deps1 "react").
  { subst dev2. rewrite prop_insert_ne by discriminate. apply prop_insert. }
  assert (Hdom : prop dev2 "react-dom" = prop deps1 "react-dom").
  { subst dev2. apply prop_insert. }
  destruct (prop deps1 "react") as [|rv] eqn:Hr.
  - eexists. split.
    + apply bind_exited. exact (makeCaretRange_undefined E dev2 "react" w eq_refl Hreact).
    + repeat split.
  - assert (Hd : prop deps1 "react-dom" = JUndefined).
    { destruct Hname as [->| ->].
      - subst deps1. rewrite prop_delete in Hr. discriminate.
      - subst deps1. apply prop_delete. }
    destruct (makeCaretRange_defined E dev2 "react" rv w Hreact)
      as (w1 & Hrun1 & Hfs1 & Hcwd1 & Hev1).
    rewrite (bind_returned _ _ _ _ _ Hrun1).
    assert (Hdom' : prop (<["react" := JStr (caret E rv)]> dev2) "react-dom" = JUndefined).
    { rewrite prop_insert_ne by discriminate. rewrite Hdom. exact Hd. }
    eexists. split.
    + apply bind_exited.
      exact (makeCaretRange_undefined E _ "react-dom" w1 eq_refl Hdom').
    + cbn [fs cwd console events]. repeat split; assumption.
Qed.

Lemma fixDependencies_own_runtime_witness :
  exists w',
    fixDependencies Sample.default "react"
      (Sample.world ["package.json"; "node_modules"] (Some Sample.installed_ok))
    = (w', Exited 1)
    /\ manifest (fs w') = Some Sample.installed_ok.
Proof.
  destruct (fixDependencies_own_runtime Sample.default "react"
              (Sample.world ["package.json"; "node_modules"] (Some Sample.installed_ok))
              Sample.installed_ok (or_introl eq_refl) eq_refl)
    as (w' & Hrun & Hfs & _).
  exists w'. split; [exact Hrun|]. rewrite Hfs. reflexivity.
Defined.

(** ** The install step, in closed form *)

Lemma install_closed (E : Env) (useYarn : bool) (dependencies : list string)
    (verbose isOnline : bool) (w : World) :
  let command := install_command useYarn in
  let args := install_args useYarn dependencies verbose isOnline in
  let child := child_process E command args (fs w) in
  exists lines,
    install E useYarn dependencies verbose isOnline w
    = ({| fs := child.1; cwd := cwd w; console := console w ++ lines;
          events := events w ++ [Spawn command args] |},
       if decide (child.2 = Some 0) then Returned tt
       else Rejected (InstallFailure (command +:+ " " +:+ String.concat " " args))).
Proof.
  unfold install_args, install_command.
  destruct useYarn, isOnline, verbose;
    cbv [install Proc.in_callback mbind proc_bind mret proc_ret Proc.bind Proc.ret spawn
         Proc.emit Proc.get_fs Proc.put_fs Proc.log Proc.reject negb];
    cbn [app fst snd fs cwd console events]; rewrite ?app_nil_r;
    match goal with
    | |- context [child_process E ?c ?a ?f] =>
        destruct (child_process E c a f) as [f' [[|p|p]|]]
    end; cbn [fst snd];
    first [ exists []; rewrite app_nil_r; reflexivity
          | eexists [_; _; _]; rewrite <- !app_assoc; reflexivity ].
Qed.

(** X4.  [install] in closed form: it starts exactly one process,
    [yarnpkg add --exact] (with [--offline] when not online) or
    [npm install --save --save-exact], followed by the dependencies and by
    [--verbose] when asked; the target directory afterwards is what that
    process left; the promise resolves when the process ended with code 0
    and otherwise rejects with the command line as [command]. *)
Theorem install_command_line (E : Env) (useYarn : bool) (dependencies : list string)
    (verbose isOnline : bool) (w : World) :
  let command := if useYarn then "yarnpkg" else "npm" in
  let args := install_args useYarn dependencies verbose isOnline in
  let child := child_process E command args (fs w) in
  let r := install E useYarn dependencies verbose isOnline w in
  fs r.1 = child.1
  /\ cwd r.1 = cwd w
  /\ events r.1 = events w ++ [Spawn command args]
  /\ r.2 = if decide (child.2 = Some 0) then Returned tt
           else Rejected (InstallFailure (command +:+ " " +:+ String.concat " " args)).
Proof.
  intros command args child r.
  destruct (install_closed E useYarn dependencies verbose isOnline w) as (lines & H).
  subst r. rewrite H. repeat split.
Qed.

(** ** [createApp] *)

Lemma bind_mret {A B} (a : A) (k : A -> Proc B) w :
  ((mret a : Proc A) ≫= k) w = k a w.
Proof. reflexivity. Qed.

Lemma bind_ext {A B} (m : Proc A) (k1 k2 : A -> Proc B) w :
  (forall a w', k1 a w' = k2 a w') -> (m ≫= k1) w = (m ≫= k2) w.
Proof.
  intros H. unfold mbind, proc_bind, Proc.bind.
  destruct (m w) as [w' [a|r|r|c]]; auto.
Qed.

Lemma checkAppName_accepts E appName w :
  name_accepted E appName = true -> checkAppName E appName w = (w, Returned tt).
Proof.
  unfold name_accepted, checkAppName. intros H.
  apply andb_true_iff in H as [H1 H2]. apply negb_true_iff in H2.
  rewrite H1, H2. reflexivity.
Qed.

Lemma checkAppName_refuses E appName w :
  name_accepted E appName = false ->
  exists w', checkAppName E appName w = (w', Exited 1)
    /\ fs w' = fs w /\ cwd w' = cwd w /\ events w' = events w.
Proof.
  intros H. destruct (checkAppName_frame E appName w) as (w' & [Hrun|Hrun] & Hframe).
  - exfalso. revert Hrun. unfold checkAppName, name_accepted in *.
    destruct (validForNewPackages (validateProjectName E appName)); simpl in H |- *.
    + apply negb_false_iff in H. rewrite H. discriminate.
    + intros Hrun.
      assert (Hx : exists w1, (Proc.log ("Could not create a project called " +:+ dquote
                     +:+ appName +:+ dquote +:+ " because of npm naming restrictions:");;
                   printValidationResults (errors (validateProjectName E appName));;
                   printValidationResults (warnings (validateProjectName E appName));;
                   @Proc.exit unit 1) w = (w1, Exited 1)).
      { rewrite bind_log.
        destruct (printValidationResults_frame (errors (validateProjectName E appName))
                    {| fs := fs w; cwd := cwd w;
                       console := console w ++ ["Could not create a project called "
                         +:+ dquote +:+ appName +:+ dquote
                         +:+ " because of npm naming restrictions:"];
                       events := events w |}) as (w1 & Hr1 & _).
        destruct (printValidationResults_frame (warnings (validateProjectName E appName)) w1)
          as (w2 & Hr2 & _).
        exists w2. rewrite (bind_returned _ _ _ _ _ Hr1), (bind_returned _ _ _ _ _ Hr2).
        reflexivity. }
      destruct Hx as (w1 & Hx). rewrite (bind_exited _ _ _ _ _ Hx) in Hrun. discriminate.
  - exists w'. auto.
Qed.

(** X5.  A name that validate-npm-package-name refuses, or that is one of
    [react], [react-dom], [react-scripts], makes [createApp] end the process
    with status 1 before it touches anything: the target directory is not
    even created and no process is started. *)
Theorem createApp_refuses_name (E : Env) (name : string) (verbose : bool)
    (version : option string) (w : World) :
  name_accepted E (path_basename E (path_resolve E name)) = false ->
  let r := createApp E name verbose version w in
  r.2 = Exited 1 /\ fs r.1 = fs w /\ cwd r.1 = cwd w /\ events r.1 = events w.
Proof.
  intros H r. subst r. unfold createApp.
  destruct (checkAppName_refuses E _ w H) as (w' & Hrun & Hframe).
  rewrite (bind_exited _ _ _ _ _ Hrun). simpl. tauto.
Qed.

Lemma createApp_refuses_name_witness :
  name_accepted Sample.default "react-dom" = false
  /\ (createApp Sample.default "react-dom" false None Sample.fresh).2 = Exited 1
  /\ fs (createApp Sample.default "react-dom" false None Sample.fresh).1 = fs Sample.fresh.
Proof.
  split; [reflexivity|].
  destruct (createApp_refuses_name Sample.default "react-dom" false None Sample.fresh eq_refl)
    as (H1 & H2 & _).
  split; [exact H1 | exact H2].
Defined.

Lemma includes_package_json files :
  forallb (fun file => includes file validFiles) files = true ->
  includes "package.json" files = false.
Proof.
  induction files as [|f l IH]; [reflexivity|].
  cbn [forallb]. intros H. apply andb_true_iff in H as [Hf Hl].
  unfold includes in *. cbn [existsb]. rewrite (IH Hl), orb_false_r.
  destruct (String.eqb_spec "package.json" f) as [<-|]; [discriminate Hf|reflexivity].
Qed.

Lemma checkNpmVersion_result E w :
  checkNpmVersion E w
  = ({| fs := fs w; cwd := cwd w; console := console w;
        events := events w ++ [Spawn "npm" ["--version"]] |},
     Returned (hasMinNpm E, npm_version_output E)).
Proof.
  unfold checkNpmVersion, hasMinNpm.
  destruct (npm_version_output E) as [v|]; [|reflexivity].
  destruct (semver_gte E v "3.0.0"); reflexivity.
Qed.

Lemma shouldUseYarn_result E w :
  shouldUseYarn E w
  = ({| fs := fs w; cwd := cwd w; console := console w;
        events := events w ++ [Spawn "yarnpkg" ["--version"]] |},
     Returned (yarnpkg_runs E)).
Proof. reflexivity. Qed.

(** What [createApp] has done when it calls [run], and what it passes. *)
Lemma createApp_run (E : Env) (name : string) (verbose : bool)
    (version : option string) (w : World) :
  let root := path_resolve E name in
  let appName := path_basename E root in
  name_accepted E appName = true ->
  (root_exists (fs w) = true ->
   forallb (fun file => includes file validFiles) (entries (fs w)) = true) ->
  exists w1,
    createApp E name verbose version w
    = run E root appName (effective_version E version) verbose (yarnpkg_runs E) w1
    /\ fs w1 = {| root_exists := true;
                  entries := (if root_exists (fs w) then entries (fs w) else [])
                             ++ ["package.json"];
                  manifest := Some {| pkg_name := appName; pkg_version := "0.1.0";
                                      dependencies := None; devDependencies := None |} |}
    /\ cwd w1 = AtRoot
    /\ events w1 = events w ++ Spawn "yarnpkg" ["--version"]
                   :: (if yarnpkg_runs E then [] else [Spawn "npm" ["--version"]]).
Proof.
  intros root appName Hname Hsafe. unfold createApp. fold root. fold appName.
  rewrite (bind_returned _ _ _ _ _ (checkAppName_accepts E appName w Hname)).
  set (f1 := {| root_exists := true;
                entries := if root_exists (fs w) then entries (fs w) else [];
                manifest := if root_exists (fs w) then manifest (fs w) else None |}).
  set (w1 := {| fs := f1; cwd := cwd w; console := console w; events := events w |}).
  assert (Hens : FsOp.ensureDirSync w = (w1, Returned tt) \/
                 (FsOp.ensureDirSync w = (w, Returned tt) /\ root_exists (fs w) = true)).
  { unfold FsOp.ensureDirSync, mbind, proc_bind, Proc.bind, Proc.get_fs.
    destruct (root_exists (fs w)) eqn:Hr; [right; auto|left].
    subst w1 f1. rewrite ?Hr. reflexivity. }
  assert (Hall : forallb (fun file => includes file validFiles)
                   (if root_exists (fs w) then entries (fs w) else []) = true).
  { destruct (root_exists (fs w)); [auto|reflexivity]. }
  assert (Hgo : forall w0,
    root_exists (fs w0) = true ->
    entries (fs w0) = (if root_exists (fs w) then entries (fs w) else []) ->
    cwd w0 = cwd w -> events w0 = events w ->
    exists w2,
      (safe ← isSafeToCreateProjectIn;
       (if negb safe then
          Proc.log ("The directory " +:+ name +:+ " contains files that could conflict.");;
          Proc.log "Try using a new directory name.";;
          Proc.exit 1
        else mret tt);;
       Proc.log ("Creating a new Divi extension in " +:+ root +:+ ".");;
       Proc.log "";;
       FsOp.writeManifest
         {| pkg_name := appName; pkg_version := "0.1.0";
            dependencies := None; devDependencies := None |};;
       Proc.chdir AtRoot;;
       version ← (if negb (node_satisfies E ">=6.0.0") then
                    Proc.log "You are using an old Node so the project will be boostrapped with an old unsupported version of tools.";;
                    mret (Some "react-scripts@0.9.x")
                  else mret version);
       useYarn ← shouldUseYarn E;
       version ← (if negb useYarn then
                    npmInfo ← checkNpmVersion E;
                    if negb npmInfo.1 then
                      match npmInfo.2 with
                      | Some (String _ _) =>
                          Proc.log "You are using an old npm so the project will be boostrapped with an old unsupported version of tools."
                      | _ => mret tt
                      end;;
                      mret (Some "react-scripts@0.9.x")
                    else mret version
                  else mret version);
       run E root appName version verbose useYarn) w0
      = run E root appName (effective_version E version) verbose (yarnpkg_runs E) w2
      /\ fs w2 = {| root_exists := true;
                    entries := (if root_exists (fs w) then entries (fs w) else [])
                               ++ ["package.json"];
                    manifest := Some {| pkg_name := appName; pkg_version := "0.1.0";
                                        dependencies := None; devDependencies := None |} |}
      /\ cwd w2 = AtRoot
      /\ events w2 = events w ++ Spawn "yarnpkg" ["--version"]
                     :: (if yarnpkg_runs E then [] else [Spawn "npm" ["--version"]])).
  { intros w0 Hr0 He0 Hc0 Hv0.
    assert (Hsafe0 : isSafeToCreateProjectIn w0 = (w0, Returned true)).
    { unfold isSafeToCreateProjectIn.
      rewrite (bind_returned _ _ _ _ _ (readdirSync_ok w0 Hr0)).
      rewrite He0, Hall. reflexivity. }
    rewrite (bind_returned _ _ _ _ _ Hsafe0).
    cbn [negb]. cbv iota.
    rewrite bind_mret.
    rewrite !bind_log.
    match goal with |- context [(FsOp.writeManifest ?m ≫= ?k) ?W] =>
      assert (HrW : root_exists (fs W) = true) by exact Hr0;
      rewrite (bind_returned _ _ _ _ _ (writeManifest_ok m W HrW))
    end.
    cbn [fs cwd console events].
    rewrite He0, (includes_package_json _ Hall).
    unfold effective_version, old_tools.
    destruct (node_satisfies E ">=6.0.0"), (yarnpkg_runs E) eqn:Hy; cbn [negb orb andb];
      unfold shouldUseYarn;
      cbv [mbind proc_bind mret proc_ret Proc.bind Proc.ret Proc.chdir Proc.log Proc.emit];
      rewrite ?Hy; cbn [negb];
      rewrite ?checkNpmVersion_result; cbn [fst snd];
      (destruct (hasMinNpm E); cbn [negb];
       [|destruct (npm_version_output E) as [[|? ?]|]]);
      eexists; (split; [reflexivity|]); cbn [fs cwd console events];
      rewrite ?Hc0, ?Hv0, <- ?app_assoc; repeat split. }
  destruct Hens as [Hens|[Hens Hr]].
  - rewrite (bind_returned _ _ _ _ _ Hens). apply Hgo; reflexivity.
  - rewrite (bind_returned _ _ _ _ _ Hens). apply Hgo; try reflexivity.
    + exact Hr.
    + rewrite Hr. reflexivity.
Qed.

(** X6.  For an accepted name and a target directory that is absent or
    holds only tolerated files, [createApp] reaches [run]: by then the
    directory exists, [package.json] is appended to its entries with the
    initial manifest (the name, version 0.1.0, no dependencies), the working
    directory is the target directory, and [yarnpkg --version] (and
    [npm --version] when yarn is missing) is all that has been started;
    [run] receives the availability of yarn and the version specifier,
    replaced by [react-scripts@0.9.x] on an old Node or an old npm. *)
Theorem createApp_hands_over (E : Env) (name : string) (verbose : bool)
    (version : option string) (w : World) :
  let root := path_resolve E name in
  let appName := path_basename E root in
  name_accepted E appName = true ->
  (root_exists (fs w) = true ->
   forallb (fun file => includes file validFiles) (entries (fs w)) = true) ->
  exists w1,
    createApp E name verbose version w
    = run E root appName (effective_version E version) verbose (yarnpkg_runs E) w1
    /\ fs w1 = {| root_exists := true;
                  entries := (if root_exists (fs w) then entries (fs w) else [])
                             ++ ["package.json"];
                  manifest := Some {| pkg_name := appName; pkg_version := "0.1.0";
                                      dependencies := None; devDependencies := None |} |}
    /\ cwd w1 = AtRoot
    /\ events w1 = events w ++ Spawn "yarnpkg" ["--version"]
                   :: (if yarnpkg_runs E then [] else [Spawn "npm" ["--version"]]).
Proof.
  intros root appName. exact (createApp_run E name verbose version w).
Qed.


Lemma createApp_hands_over_witness :
  name_accepted Sample.default "divi-sample" = true
  /\ exists w1,
       createApp Sample.default "divi-sample" false (Some "1.0.17") Sample.fresh
       = run Sample.default "/work/divi-sample" "divi-sample" (Some "1.0.17") false false w1
       /\ entries (fs w1) = ["package.json"]
       /\ events w1 = [Spawn "yarnpkg" ["--version"]; Spawn "npm" ["--version"]].
Proof.
  split; [reflexivity|].
  destruct (createApp_hands_over Sample.default "divi-sample" false (Some "1.0.17")
              Sample.fresh eq_refl (fun H => eq_refl))
    as (w1 & Hrun & Hfs & _ & Hev).
  exists w1. split; [exact Hrun|]. split; [rewrite Hfs; reflexivity|exact Hev].
Defined.

Lemma npm_fallback E w :
  hasMinNpm E = false ->
  exists w', forall version : option string,
    (npmInfo ← checkNpmVersion E;
     if negb npmInfo.1 then
       match npmInfo.2 with
       | Some (String _ _) =>
           Proc.log "You are using an old npm so the project will be boostrapped with an old unsupported version of tools."
       | _ => mret tt
       end;;
       mret (Some "react-scripts@0.9.x")
     else mret version) w = (w', Returned (Some "react-scripts@0.9.x")).
Proof.
  intros Hn.
  destruct (npm_version_output E) as [[|c v]|] eqn:Hv;
    eexists; intros version;
    rewrite (bind_returned _ _ _ _ _ (checkNpmVersion_result E w));
    cbn [fst snd]; rewrite Hn, Hv; reflexivity.
Qed.

(** X7.  On a Node that does not satisfy [>=6.0.0], or without yarn on an
    npm older than 3.0.0, the version specifier given by the user has no
    effect on [createApp]. *)
Theorem createApp_fallback_ignores_specifier (E : Env) (name : string) (verbose : bool)
    (version1 version2 : option string) (w : World) :
  old_tools E = true ->
  createApp E name verbose version1 w = createApp E name verbose version2 w.
Proof.
  unfold old_tools. intros Hold. unfold createApp.
  do 2 (apply bind_ext; intros ? ?).
  apply bind_ext; intros safe ?.
  apply bind_ext; intros ? ?.
  do 4 (apply bind_ext; intros ? ?).
  destruct (node_satisfies E ">=6.0.0"); cbn [negb orb] in Hold |- *; [|reflexivity].
  apply andb_true_iff in Hold as [Hy Hn].
  apply negb_true_iff in Hy. apply negb_true_iff in Hn.
  rewrite !bind_mret.
  rewrite !(bind_returned _ _ _ _ _ (shouldUseYarn_result E _)).
  rewrite Hy. cbn [negb].
  match goal with |- (_ ≫= _) ?W = _ => destruct (npm_fallback E W Hn) as (wn & Hnpm) end.
  rewrite (bind_returned _ _ _ _ _ (Hnpm version1)).
  rewrite (bind_returned _ _ _ _ _ (Hnpm version2)).
  reflexivity.
Qed.

(** ** Frames *)

Section Frame.

Context {T : Type} (proj : World -> T).

Hypothesis proj_console : forall f d c c' e,
  proj (Build_World f d c e) = proj (Build_World f d c' e).
Hypothesis proj_fs : forall f f' d c e,
  proj (Build_World f d c e) = proj (Build_World f' d c e).

Lemma kept_ended {A} (o : Outcome A) : kept proj (Proc.ended o).
Proof. intros w. reflexivity. Qed.

Lemma kept_ret {A} (a : A) : kept proj (mret a : Proc A).
Proof. intros w. reflexivity. Qed.

Lemma kept_throw {A} r : kept proj (@Proc.throw A r).
Proof. intros w. reflexivity. Qed.

Lemma kept_reject {A} r : kept proj (@Proc.reject A r).
Proof. intros w. reflexivity. Qed.

Lemma kept_exit {A} c : kept proj (@Proc.exit A c).
Proof. intros w. reflexivity. Qed.

Lemma kept_log line : kept proj (Proc.log line).
Proof. intros w. destruct w. apply proj_console. Qed.

Lemma kept_get_fs : kept proj Proc.get_fs.
Proof. intros w. reflexivity. Qed.

Lemma kept_put_fs f : kept proj (Proc.put_fs f).
Proof. intros w. destruct w. apply proj_fs. Qed.

Lemma bind_tail {A B} (m : Proc A) (k : A -> Proc B) w :
  (forall a, kept proj (k a)) -> proj ((m ≫= k) w).1 = proj (m w).1.
Proof.
  intros Hk. unfold mbind, proc_bind, Proc.bind.
  destruct (m w) as [w' [a|r|r|c]]; try reflexivity. apply Hk.
Qed.

Lemma bind_stops {A B} (m : Proc A) (k : A -> Proc B) w :
  (forall a, (m w).2 <> Returned a) -> ((m ≫= k) w).1 = (m w).1.
Proof.
  intros H. unfold mbind, proc_bind, Proc.bind.
  destruct (m w) as [w' [a|r|r|c]]; try reflexivity.
  exfalso. exact (H a eq_refl).
Qed.

Lemma in_callback_world {A} (m : Proc A) w : (Proc.in_callback m w).1 = (m w).1.
Proof. unfold Proc.in_callback. destruct (m w) as [w' [a|r|r|c]]; reflexivity. Qed.

Lemma then_tail {A B} (m : Proc A) (k : A -> Proc B) w :
  (forall a, kept proj (k a)) -> proj (Proc.then_ m k w).1 = proj (m w).1.
Proof.
  intros Hk. unfold Proc.then_.
  destruct (m w) as [w' [a|r|r|c]]; try reflexivity.
  rewrite in_callback_world. apply Hk.
Qed.

Lemma catch_tail {A} (m : Proc A) (h : Reason -> Proc A) w :
  (forall r, kept proj (h r)) -> proj (Proc.catch_ m h w).1 = proj (m w).1.
Proof.
  intros Hh. unfold Proc.catch_.
  destruct (m w) as [w' [a|r|r|c]]; try reflexivity.
  rewrite in_callback_world. apply Hh.
Qed.

Lemma kept_bind {A B} (m : Proc A) (k : A -> Proc B) :
  kept proj m -> (forall a, kept proj (k a)) -> kept proj (m ≫= k).
Proof. intros Hm Hk w. rewrite bind_tail by exact Hk. apply Hm. Qed.

Lemma kept_then {A B} (m : Proc A) (k : A -> Proc B) :
  kept proj m -> (forall a, kept proj (k a)) -> kept proj (Proc.then_ m k).
Proof. intros Hm Hk w. rewrite then_tail by exact Hk. apply Hm. Qed.

Lemma kept_in_callback {A} (m : Proc A) : kept proj m -> kept proj (Proc.in_callback m).
Proof. intros Hm w. rewrite in_callback_world. apply Hm. Qed.

Lemma kept_forEach {A} (l : list A) (f : A -> Proc unit) :
  (forall x, kept proj (f x)) -> kept proj (Proc.forEach l f).
Proof.
  intros Hf. induction l as [|x l IH]; [apply kept_ended|].
  exact (kept_bind (f x) (fun _ => Proc.forEach l f) (Hf x) (fun _ => IH)).
Qed.

Ltac frame :=
  repeat first
    [ apply kept_ret | apply kept_ended | apply kept_throw | apply kept_reject
    | apply kept_exit | apply kept_log | apply kept_get_fs | apply kept_put_fs
    | apply kept_bind; [|intros ?]
    | apply kept_then; [|intros ?]
    | apply kept_in_callback
    | apply kept_forEach; intros ?
    | match goal with
      | |- kept _ (match ?x with _ => _ end) => destruct x
      end ].

Lemma kept_readdirSync : kept proj FsOp.readdirSync.
Proof. unfold FsOp.readdirSync. frame. Qed.

Lemma kept_removeSync file : kept proj (FsOp.removeSync file).
Proof. unfold FsOp.removeSync. frame. Qed.

Lemma kept_writeManifest m : kept proj (FsOp.writeManifest m).
Proof. unfold FsOp.writeManifest. frame. Qed.

Lemma kept_requireManifest : kept proj FsOp.requireManifest.
Proof. unfold FsOp.requireManifest. frame. Qed.

Lemma kept_checkNodeVersion E packageName : kept proj (checkNodeVersion E packageName).
Proof. unfold checkNodeVersion. frame. Qed.

Lemma kept_makeCaretRange E deps name : kept proj (makeCaretRange E deps name).
Proof. unfold makeCaretRange. frame. Qed.

Lemma kept_fixDependencies E packageName : kept proj (fixDependencies E packageName).
Proof.
  unfold fixDependencies. cbv zeta.
  apply kept_bind; [apply kept_requireManifest|intros m].
  destruct (dependencies m) as [deps|]; [|frame].
  destruct (get deps packageName) as [[|pv]|]; [frame| |];
    (apply kept_bind; [apply kept_makeCaretRange|intros dev];
     apply kept_bind; [apply kept_makeCaretRange|intros dev'];
     apply kept_writeManifest).
Qed.

Lemma kept_finalize_extension_files E root appName :
  kept proj (finalize_extension_files E root appName).
Proof. unfold finalize_extension_files. cbv zeta. frame. Qed.

(** What follows a successful install leaves the view as it was, but for
    what the init script of the installed package does when it is reached. *)
Lemma afterInstall_frame E root appName version verbose packageName w :
  proj (afterInstall E root appName version verbose packageName w).1 = proj w
  \/ exists w1,
       proj w1 = proj w
       /\ proj (afterInstall E root appName version verbose packageName w).1
          = proj (Proc.call (init_script E packageName root appName verbose) w1).1.
Proof.
  unfold afterInstall.
  pose proof (kept_checkNodeVersion E packageName w) as H1.
  destruct (checkNodeVersion E packageName w) as [w1 o1] eqn:Hc. cbn [fst] in H1.
  destruct o1 as [[]|r|r|c];
    try (left; rewrite bind_stops by (rewrite Hc; discriminate); rewrite Hc; exact H1).
  rewrite !(bind_returned _ _ _ _ _ Hc).
  pose proof (kept_fixDependencies E packageName w1) as H2.
  destruct (fixDependencies E packageName w1) as [w2 o2] eqn:Hf. cbn [fst] in H2.
  destruct o2 as [[]|r|r|c];
    try (left; rewrite bind_stops by (rewrite Hf; discriminate); rewrite Hf;
         cbn [fst]; congruence).
  rewrite !(bind_returned _ _ _ _ _ Hf).
  right. exists w2. split; [congruence|].
  apply bind_tail. intros _.
  apply kept_bind; [apply kept_finalize_extension_files|intros _].
  destruct (decide (version = Some "react-scripts@0.9.x")); frame.
Qed.

(** With an init script that leaves the view alone, so does all that
    follows a successful install. *)
Lemma kept_afterInstall E root appName version verbose packageName :
  kept proj (Proc.call (init_script E packageName root appName verbose)) ->
  kept proj (afterInstall E root appName version verbose packageName).
Proof.
  intros Hinit w.
  destruct (afterInstall_frame E root appName version verbose packageName w)
    as [H|(w1 & H1 & H)]; [exact H|].
  rewrite H, Hinit. exact H1.
Qed.

Section Moves.

Hypothesis proj_cwd : forall f d d' c e,
  proj (Build_World f d c e) = proj (Build_World f d' c e).

Lemma kept_chdir d : kept proj (Proc.chdir d).
Proof. intros w. destruct w. apply proj_cwd. Qed.

(** The handler starts nothing. *)
Lemma kept_rollback E root appName reason : kept proj (rollback E root appName reason).
Proof.
  unfold rollback.
  apply kept_bind; [apply kept_log|intros _].
  apply kept_bind; [apply kept_log|intros _].
  apply kept_bind; [destruct (reason_command reason) as [[|? ?]|]; frame|intros _].
  apply kept_bind; [apply kept_log|intros _].
  apply kept_bind; [apply kept_readdirSync|intros files].
  apply kept_bind.
  { apply kept_forEach; intros file. apply kept_forEach; intros k.
    destruct (generated_match k file); [|apply kept_ret].
    apply kept_bind; [apply kept_log|intros _]. apply kept_removeSync. }
  intros _.
  apply kept_bind; [apply kept_readdirSync|intros remaining].
  apply kept_bind.
  { destruct remaining; [|apply kept_ret].
    apply kept_bind; [apply kept_log|intros _].
    apply kept_bind; [apply kept_chdir|intros _].
    apply kept_put_fs. }
  intros _. frame.
Qed.

End Moves.

Section Acts.

Hypothesis proj_events : forall f d c e e',
  proj (Build_World f d c e) = proj (Build_World f d c e').

Lemma kept_emit e : kept proj (Proc.emit e).
Proof. intros w. destruct w. apply proj_events. Qed.

Lemma kept_getPackageName E installPackage : kept proj (getPackageName E installPackage).
Proof.
  unfold getPackageName.
  destruct (Js.contains ".tgz" installPackage).
  - intros w. rewrite catch_tail.
    + unfold readArchiveName.
      apply kept_bind; [apply kept_emit|intros _].
      destruct (archive_name E installPackage); frame.
    + intros err. apply kept_bind; [apply kept_log|intros _].
      destruct (Pattern.tgz_name installPackage); frame.
  - destruct (Js.indexOf "git+" installPackage =? 0).
    + destruct (Pattern.git_name installPackage); frame.
    + destruct (0 <? Js.indexOf "@" installPackage); frame.
Qed.

Lemma kept_checkIfOnline E useYarn : kept proj (checkIfOnline E useYarn).
Proof.
  unfold checkIfOnline. destruct useYarn; cbn [negb]; [|apply kept_ret].
  apply kept_bind; [apply kept_emit|intros _]. apply kept_ret.
Qed.

Lemma kept_install E useYarn dependencies verbose isOnline :
  kept proj (install E useYarn dependencies verbose isOnline).
Proof.
  unfold install, spawn. cbv zeta. apply kept_in_callback.
  apply kept_bind.
  { destruct useYarn; [|apply kept_ret].
    apply kept_bind; [destruct (negb isOnline); frame|intros _]. apply kept_ret. }
  intros ca.
  apply kept_bind.
  { apply kept_bind; [apply kept_emit|intros _]. frame. }
  intros code. destruct code as [[|?|?]|]; frame.
Qed.

(** The promise chain of [run], up to the install. *)
Lemma kept_install_chain E useYarn verbose packageToInstall :
  kept proj
    (Proc.then_
       (Proc.then_ (getPackageName E packageToInstall)
          (fun packageName =>
             Proc.then_ (checkIfOnline E useYarn)
               (fun isOnline => mret (isOnline, packageName))))
       (fun info =>
          Proc.log ("Installing react, react-dom, and " +:+ info.2 +:+ "...");;
          Proc.log "";;
          Proc.then_ (install E useYarn ["react"; "react-dom"; packageToInstall]
                        verbose info.1)
            (fun _ => mret info.2))).
Proof.
  apply kept_then.
  - apply kept_then; [apply kept_getPackageName|intros p].
    apply kept_then; [apply kept_checkIfOnline|intros b]. apply kept_ret.
  - intros info.
    apply kept_bind; [apply kept_log|intros _].
    apply kept_bind; [apply kept_log|intros _].
    apply kept_then; [apply kept_install|intros _]. apply kept_ret.
Qed.

(** The promise chain of [run], up to its [catch]. *)
Lemma kept_chain E root appName version verbose useYarn packageToInstall :
  (forall packageName, kept proj (Proc.call (init_script E packageName root appName verbose))) ->
  kept proj
    (Proc.then_
       (Proc.then_
          (Proc.then_ (getPackageName E packageToInstall)
             (fun packageName =>
                Proc.then_ (checkIfOnline E useYarn)
                  (fun isOnline => mret (isOnline, packageName))))
          (fun info =>
             Proc.log ("Installing react, react-dom, and " +:+ info.2 +:+ "...");;
             Proc.log "";;
             Proc.then_ (install E useYarn ["react"; "react-dom"; packageToInstall]
                           verbose info.1)
               (fun _ => mret info.2)))
       (afterInstall E root appName version verbose)).
Proof.
  intros Hinit.
  apply kept_then; [apply kept_install_chain|intros p; apply kept_afterInstall, Hinit].
Qed.

End Acts.

End Frame.

(** ** What [run] starts *)

Lemma quiet_rollback E root appName reason : kept events (rollback E root appName reason).
Proof. apply kept_rollback; reflexivity. Qed.

(** What is started after a successful install is what the init script
    starts. *)
Lemma afterInstall_events E root appName version verbose packageName w :
  exists extra,
    (extra = [] \/ exists f d, extra = started (init_script E packageName root appName verbose f d))
    /\ events (afterInstall E root appName version verbose packageName w).1
       = events w ++ extra.
Proof.
  destruct (afterInstall_frame events (fun _ _ _ _ _ => eq_refl) (fun _ _ _ _ _ => eq_refl)
              E root appName version verbose packageName w) as [H|(w1 & H1 & H)].
  - exists []. split; [left; reflexivity|]. rewrite H, app_nil_r. reflexivity.
  - eexists. split; [right; eexists _, _; reflexivity|].
    rewrite H. cbn [Proc.call fst events]. rewrite H1. reflexivity.
Qed.

(** [getPackageName] reads the world only to write to it. *)
Lemma getPackageName_frame E installPackage :
  exists lines o, forall w,
    getPackageName E installPackage w
    = ({| fs := fs w; cwd := cwd w; console := console w ++ lines;
          events := events w ++ archive_probe installPackage |}, o).
Proof.
  unfold getPackageName, archive_probe.
  destruct (Js.contains ".tgz" installPackage).
  - unfold readArchiveName, Proc.catch_, Proc.in_callback.
    destruct (archive_name E installPackage) as [err|name].
    + destruct (Pattern.tgz_name installPackage) as [assumed|];
        [eexists [_; _]|eexists [_]]; eexists; intros w;
        cbv [mbind proc_bind mret proc_ret Proc.bind Proc.ret Proc.emit Proc.reject
             Proc.log Proc.throw]; cbn [fs cwd console events];
        rewrite <- ?app_assoc; reflexivity.
    + exists [], (Returned name). intros w.
      cbv [mbind proc_bind mret proc_ret Proc.bind Proc.ret Proc.emit].
      cbn [fs cwd console events]. rewrite app_nil_r. reflexivity.
  - assert (Hw : forall w, w = {| fs := fs w; cwd := cwd w; console := console w ++ [];
                                  events := events w ++ [] |}).
    { intros [f d c e]. cbn. rewrite !app_nil_r. reflexivity. }
    destruct (Js.indexOf "git+" installPackage =? 0);
      [destruct (Pattern.git_name installPackage)
      |destruct (0 <? Js.indexOf "@" installPackage)];
      exists []; eexists; intros w; rewrite <- (Hw w); reflexivity.
Qed.

(** What the chain of [run] has started when the install has ended. *)
Lemma install_chain_events E useYarn verbose packageToInstall w :
  let chain :=
    Proc.then_
      (Proc.then_ (getPackageName E packageToInstall)
         (fun packageName =>
            Proc.then_ (checkIfOnline E useYarn)
              (fun isOnline => mret (isOnline, packageName))))
      (fun info =>
         Proc.log ("Installing react, react-dom, and " +:+ info.2 +:+ "...");;
         Proc.log "";;
         Proc.then_ (install E useYarn ["react"; "react-dom"; packageToInstall]
                       verbose info.1)
           (fun _ => mret info.2)) in
  events (chain w).1
  = events w ++ archive_probe packageToInstall
    ++ match (getPackageName E packageToInstall w).2 with
       | Returned _ =>
           (if useYarn then [DnsLookup "registry.yarnpkg.com"] else [])
           ++ [Spawn (install_command useYarn)
                 (install_args useYarn ["react"; "react-dom"; packageToInstall] verbose
                    (online E useYarn))]
       | _ => []
       end
  /\ (forall packageName, (chain w).2 = Returned packageName ->
        (getPackageName E packageToInstall w).2 = Returned packageName).
Proof.
  intros chain. subst chain. set (pkg := packageToInstall).
  destruct (getPackageName_frame E pkg) as (lines & o & Hg).
  rewrite (Hg w). cbn [snd].
  destruct o as [name|r|r|c].
  2-4: unfold Proc.then_; rewrite Hg; cbn [fst snd events]; rewrite app_nil_r;
       (split; [reflexivity|discriminate]).
  assert (Honline : forall w1,
    exists w2, Proc.in_callback
      (Proc.then_ (checkIfOnline E useYarn) (fun isOnline => mret (isOnline, name))) w1
      = (w2, Returned (online E useYarn, name))
      /\ fs w2 = fs w1
      /\ events w2 = events w1 ++ (if useYarn then [DnsLookup "registry.yarnpkg.com"] else [])).
  { intros w1. unfold online, checkIfOnline. destruct useYarn; cbn [negb orb].
    - eexists. split; [reflexivity|]. split; reflexivity.
    - exists w1. split; [reflexivity|]. rewrite app_nil_r. split; reflexivity. }
  destruct (Honline (getPackageName E pkg w).1) as (w2 & Hrun & Hfs2 & Hev2).
  destruct (install_closed E useYarn ["react"; "react-dom"; pkg] verbose (online E useYarn)
              {| fs := fs w2; cwd := cwd w2;
                 console := (console w2 ++ ["Installing react, react-dom, and "
                                            +:+ name +:+ "..."]) ++ [""];
                 events := events w2 |}) as (lines' & Hinstall).
  match goal with |- context [Proc.then_ (Proc.then_ ?g ?k1) ?k2 ?W] =>
    assert (Hc : Proc.then_ (Proc.then_ g k1) k2 W
                 = Proc.in_callback (k2 (online E useYarn, name)) w2)
      by (unfold Proc.then_ at 1 2; rewrite Hg; rewrite Hg in Hrun; cbn [fst] in Hrun;
          rewrite Hrun; reflexivity)
  end.
  rewrite Hc. cbv beta. cbn [fst snd].
  rewrite Hg in Hev2. cbn [fst events] in Hev2.
  split.
  - rewrite in_callback_world, !bind_log.
    rewrite then_tail by (intros; apply kept_ret).
    cbn [fs cwd console events].
    rewrite Hinstall. cbn [fst events]. rewrite Hev2.
    rewrite <- !app_assoc. reflexivity.
  - intros p. unfold Proc.in_callback at 1. rewrite !bind_log.
    cbn [fs cwd console events].
    unfold Proc.then_. rewrite Hinstall.
    destruct (decide _); cbn; [intros H; congruence|discriminate].
Qed.

(** X8.  Everything [run] starts, for every input: the archive is fetched
    or read when the install target holds [.tgz]; then, only if a display
    name was obtained, one DNS lookup when yarn is used and one
    package-manager process with the arguments of [install]; after that
    nothing but what the init script of the installed package starts, if it
    is reached.  The other steps after the install and the rollback handler
    start nothing. *)
Theorem run_external_actions (E : Env) (root appName : string) (version : option string)
    (verbose useYarn : bool) (w : World) :
  let packageToInstall := getInstallPackage E version in
  exists extra,
    (extra = []
     \/ exists packageName f d,
          extra = started (init_script E packageName root appName verbose f d))
    /\ events (run E root appName version verbose useYarn w).1
       = events w ++ archive_probe packageToInstall
         ++ match (getPackageName E packageToInstall w).2 with
            | Returned _ =>
                (if useYarn then [DnsLookup "registry.yarnpkg.com"] else [])
                ++ [Spawn (install_command useYarn)
                      (install_args useYarn ["react"; "react-dom"; packageToInstall] verbose
                         (online E useYarn))]
                ++ extra
            | _ => []
            end.
Proof.
  intros pkg. unfold run. fold pkg. cbv zeta. rewrite bind_log.
  rewrite catch_tail by (intros; apply quiet_rollback).
  match goal with |- context [Proc.then_ _ _ ?W] => set (w0 := W) end.
  destruct (install_chain_events E useYarn verbose pkg w0) as (Hev & Hret).
  cbv zeta in Hev, Hret.
  destruct (getPackageName_frame E pkg) as (lines & o & Hg).
  rewrite (Hg w0) in Hev, Hret. rewrite (Hg w). cbn [snd] in Hev, Hret |- *.
  change (events w0) with (events w) in Hev.
  unfold Proc.then_ at 1.
  match goal with |- context [match ?c w0 with _ => _ end] =>
    destruct (c w0) as [w3 o3] end.
  cbn [fst snd] in Hev, Hret.
  destruct o3 as [p|r|r|c].
  - rewrite (Hret p eq_refl) in Hev |- *. rewrite in_callback_world.
    destruct (afterInstall_events E root appName version verbose p w3)
      as (extra & Hextra & Hafter).
    exists extra. split.
    + destruct Hextra as [->|(f & d & ->)]; [left; reflexivity|right; eauto].
    + rewrite Hafter, Hev, <- !app_assoc. reflexivity.
  - exists []. split; [left; reflexivity|].
    cbn [fst]. rewrite Hev. destruct o; rewrite ?app_nil_r; reflexivity.
  - exists []. split; [left; reflexivity|].
    cbn [fst]. rewrite Hev. destruct o; rewrite ?app_nil_r; reflexivity.
  - exists []. split; [left; reflexivity|].
    cbn [fst]. rewrite Hev. destruct o; rewrite ?app_nil_r; reflexivity.
Qed.

(** ** The handler and the working directory *)

Lemma stays_chain E root appName version verbose useYarn packageToInstall :
  (forall packageName f d,
     left_cwd (init_script E packageName root appName verbose f d) = d) ->
  kept cwd
    (Proc.then_
       (Proc.then_
          (Proc.then_ (getPackageName E packageToInstall)
             (fun packageName =>
                Proc.then_ (checkIfOnline E useYarn)
                  (fun isOnline => mret (isOnline, packageName))))
          (fun info =>
             Proc.log ("Installing react, react-dom, and " +:+ info.2 +:+ "...");;
             Proc.log "";;
             Proc.then_ (install E useYarn ["react"; "react-dom"; packageToInstall]
                           verbose info.1)
               (fun _ => mret info.2)))
       (afterInstall E root appName version verbose)).
Proof.
  intros Hinit. apply kept_chain; try reflexivity.
  intros packageName w. apply Hinit.
Qed.

(** The handler from its first [readdirSync] on, with the working
    directory. *)
Lemma rollback_sweep_world (E : Env) (root appName : string) (w : World) :
  root_exists (fs w) = true ->
  let r := (currentFiles ← FsOp.readdirSync;
            Proc.forEach currentFiles (fun file =>
              Proc.forEach knownGeneratedFiles (fun fileToMatch =>
                if generated_match fileToMatch file then
                  Proc.log ("Deleting generated file... " +:+ file);;
                  FsOp.removeSync file
                else mret tt));;
            remainingFiles ← FsOp.readdirSync;
            match remainingFiles with
            | [] =>
                Proc.log ("Deleting " +:+ appName +:+ " / from "
                          +:+ path_resolve E (root +:+ "/.."));;
                Proc.chdir AtParent;;
                FsOp.removeRoot
            | _ :: _ => mret tt
            end;;
            Proc.log "Done.";;
            @Proc.exit unit 1) w in
  let rest := filter (fun file => allow_listed file = false) (entries (fs w)) in
  r.2 = Exited 1
  /\ ((rest = [] /\ cwd r.1 = AtParent /\ fs r.1 = removed)
      \/ (rest <> [] /\ cwd r.1 = cwd w
          /\ root_exists (fs r.1) = true /\ entries (fs r.1) = rest)).
Proof.
  intros Hroot r rest. subst r.
  destruct (rollback_outer (entries (fs w)) w) as (w3 & Hrun & Hent & Hroot3 & Hcwd3 & _).
  rewrite Hroot in Hroot3.
  assert (Hsw : filter (swept (entries (fs w))) (entries (fs w)) = rest).
  { apply filter_ext_in. intros e He. unfold swept.
    destruct (allow_listed e); split.
    - intros H. exfalso. apply H. auto.
    - discriminate.
    - reflexivity.
    - intros _ [_ H]. discriminate. }
  rewrite Hsw in Hent.
  rewrite (bind_returned _ _ _ _ _ (readdirSync_ok w Hroot)).
  rewrite (bind_returned _ _ _ _ _ Hrun).
  rewrite (bind_returned _ _ _ _ _ (readdirSync_ok w3 Hroot3)).
  rewrite Hent.
  destruct rest as [|e es] eqn:Hrest.
  - split; [reflexivity|]. left. repeat split.
  - split; [reflexivity|]. right. split; [discriminate|].
    rewrite bind_mret, bind_log. cbn. rewrite Hcwd3, Hroot3, Hent. repeat split.
Qed.

Lemma rollback_world (E : Env) (root appName : string) (reason : Reason) (w : World) :
  root_exists (fs w) = true ->
  let r := rollback E root appName reason w in
  let rest := filter (fun file => allow_listed file = false) (entries (fs w)) in
  r.2 = Exited 1
  /\ ((rest = [] /\ cwd r.1 = AtParent /\ fs r.1 = removed)
      \/ (rest <> [] /\ cwd r.1 = cwd w
          /\ root_exists (fs r.1) = true /\ entries (fs r.1) = rest)).
Proof.
  intros Hroot r rest. subst r rest. unfold rollback. rewrite !bind_log.
  destruct (reason_command reason) as [[|c cmd]|];
    rewrite ?bind_log2, ?bind_log; cbv beta;
    match goal with
    | |- (_ ?W).2 = _ /\ _ => exact (rollback_sweep_world E root appName W Hroot)
    end.
Qed.

(** On a directory that is gone the handler throws at its first
    [readdirSync]. *)
Lemma rollback_missing (E : Env) (root appName : string) (reason : Reason) (w : World) :
  root_exists (fs w) = false ->
  exists w', rollback E root appName reason w = (w', Thrown ENOENT)
    /\ fs w' = fs w /\ cwd w' = cwd w /\ events w' = events w.
Proof.
  intros Hroot. unfold rollback. rewrite !bind_log.
  destruct (reason_command reason) as [[|c cmd]|];
    rewrite ?bind_log2, ?bind_log; cbv beta;
    unfold FsOp.readdirSync;
    cbv [mbind proc_bind Proc.bind Proc.get_fs]; cbn [fs]; rewrite Hroot;
    eexists; (split; [reflexivity|]); repeat split.
Qed.

(** X9.  With an init script that ends in the working directory it was
    started in, [run] leaves the working directory where it was, except when
    the rollback handler has removed the target directory: then the working
    directory is the parent directory and the process has ended with
    status 1. *)
Theorem run_working_directory (E : Env) (root appName : string) (version : option string)
    (verbose useYarn : bool) (w : World) :
  (forall packageName f d,
     left_cwd (init_script E packageName root appName verbose f d) = d) ->
  let r := run E root appName version verbose useYarn w in
  cwd r.1 = cwd w
  \/ (cwd r.1 = AtParent /\ fs r.1 = removed /\ r.2 = Exited 1).
Proof.
  intros Hinit r. subst r. unfold run. cbv zeta. rewrite bind_log.
  set (w0 := {| fs := fs w; cwd := cwd w;
                console := console w ++ ["Installing packages. This might take a couple minutes."];
                events := events w |}).
  pose proof (stays_chain E root appName version verbose useYarn
                (getInstallPackage E version) Hinit w0) as Hchain.
  unfold Proc.catch_.
  match goal with |- context [match ?c w0 with _ => _ end] =>
    destruct (c w0) as [w1 o] end.
  cbn [fst] in Hchain. change (cwd w0) with (cwd w) in Hchain.
  destruct o as [a|r|r|c]; cbn [fst snd]; auto.
  destruct (root_exists (fs w1)) eqn:Hroot.
  - destruct (rollback_world E root appName r w1 Hroot) as (Hexit & [H|H]).
    + right. unfold Proc.in_callback.
      destruct (rollback E root appName r w1) as [w2 o2].
      cbn [fst snd] in *. subst o2. tauto.
    + left. rewrite in_callback_world. destruct H as (_ & H & _). congruence.
  - destruct (rollback_missing E root appName r w1 Hroot) as (w2 & Hrun & _ & Hcwd & _).
    left. unfold Proc.in_callback. rewrite Hrun. cbn [fst]. congruence.
Qed.

Lemma run_working_directory_witness :
  let r := run Scenario.template_install "/work/divi-sample" "divi-sample" None false false
             (Sample.world ["package.json"] None) in
  cwd r.1 = AtRoot \/ (cwd r.1 = AtParent /\ fs r.1 = removed /\ r.2 = Exited 1).
Proof.
  exact (run_working_directory Scenario.template_install "/work/divi-sample" "divi-sample"
           None false false (Sample.world ["package.json"] None) (fun _ _ _ => eq_refl)).
Defined.

(** X10.  The handler needs the target directory: when a rejection
    reaches it after the directory has gone, its first [readdirSync] throws,
    the promise returned by [catch] rejects with that error and
    [process.exit] is not reached; nothing is changed. *)
Theorem rollback_missing_directory (E : Env) (root appName : string) (reason : Reason)
    (m : Proc unit) (w0 w : World) :
  m w0 = (w, Rejected reason) ->
  root_exists (fs w) = false ->
  let r := Proc.catch_ m (rollback E root appName) w0 in
  r.2 = Rejected ENOENT /\ fs r.1 = fs w /\ cwd r.1 = cwd w /\ events r.1 = events w.
Proof.
  intros Hm Hroot r. subst r.
  rewrite (catch_rejected _ _ _ _ _ Hm).
  destruct (rollback_missing E root appName reason w Hroot) as (w' & Hrun & Hframe).
  unfold Proc.in_callback. rewrite Hrun. exact (conj eq_refl Hframe).
Qed.

Lemma rollback_missing_directory_witness :
  (Proc.catch_ (Proc.reject (InstallFailure "npm install"))
     (rollback Sample.default "/work/divi-sample" "divi-sample") Sample.fresh).2
  = Rejected ENOENT.
Proof.
  exact (proj1 (rollback_missing_directory Sample.default "/work/divi-sample" "divi-sample"
                  (InstallFailure "npm install") (Proc.reject (InstallFailure "npm install"))
                  Sample.fresh Sample.fresh eq_refl eq_refl)).
Defined.

Lemma valid_file_not_allow_listed file :
  includes file validFiles = true -> allow_listed file = false.
Proof.
  unfold includes. intros H. apply existsb_exists in H as (x & Hin & Heq).
  apply String.eqb_eq in Heq. subst x. unfold validFiles in Hin.
  repeat (destruct Hin as [<-|Hin]; [reflexivity|]). destruct Hin.
Qed.

(** X11.  A file that [isSafeToCreateProjectIn] tolerates is never taken
    for a generated file: it survives the rollback, and with it the target
    directory and the working directory. *)
Theorem rollback_keeps_tolerated_files (E : Env) (root appName : string) (reason : Reason)
    (w : World) (file : string) :
  root_exists (fs w) = true ->
  file ∈ entries (fs w) ->
  includes file validFiles = true ->
  let r := rollback E root appName reason w in
  r.2 = Exited 1
  /\ file ∈ entries (fs r.1)
  /\ root_exists (fs r.1) = true
  /\ cwd r.1 = cwd w.
Proof.
  intros Hroot Hin Hvalid r.
  destruct (rollback_world E root appName reason w Hroot) as (Hexit & H).
  fold r in Hexit, H.
  assert (Hrest : file ∈ filter (fun f => allow_listed f = false) (entries (fs w))).
  { apply list_elem_of_filter. split; [|exact Hin].
    apply valid_file_not_allow_listed. exact Hvalid. }
  split; [exact Hexit|].
  destruct H as [(Hnil & _)|(_ & Hcwd & Hr & Hent)].
  - rewrite Hnil in Hrest. inversion Hrest.
  - rewrite Hent. auto.
Qed.

Lemma rollback_keeps_tolerated_files_witness :
  "README.md" ∈ entries (fs Sample.littered)
  /\ "README.md" ∈ entries (fs (rollback Sample.default "/work/divi-sample" "divi-sample"
                                  (InstallFailure "npm install") Sample.littered).1).
Proof.
  assert (Hin : "README.md" ∈ entries (fs Sample.littered)) by (right; left).
  split; [exact Hin|].
  exact (proj1 (proj2 (rollback_keeps_tolerated_files Sample.default "/work/divi-sample"
                         "divi-sample" (InstallFailure "npm install") Sample.littered
                         "README.md" eq_refl Hin eq_refl))).
Defined.

Lemma createApp_fallback_ignores_specifier_witness :
  old_tools Scenario.old_node = true
  /\ createApp Scenario.old_node "divi-sample" false (Some "1.0.17") Sample.fresh
     = createApp Scenario.old_node "divi-sample" false None Sample.fresh.
Proof.
  split; [reflexivity|].
  exact (createApp_fallback_ignores_specifier Scenario.old_node "divi-sample" false
           (Some "1.0.17") None Sample.fresh eq_refl).
Defined.

(** ** After the install *)



(** X13.  When the manifest of the installed package cannot be loaded,
    the [require] in [checkNodeVersion] throws inside the last [then]
    callback, the promise rejects and the rollback handler runs: status 1,
    only the entries that are not allow-listed are left, the directory is
    removed when none is, nothing is started. *)
Theorem unreadable_package_rolls_back
    (E : Env) (root appName : string) (version : option string) (verbose : bool)
    (packageName : string) (err : Reason) (earlier : Proc string) (w0 w : World) :
  earlier w0 = (w, Returned packageName) ->
  installed_engines_node E packageName = inl err ->
  root_exists (fs w) = true ->
  let r := Proc.catch_ (Proc.then_ earlier (afterInstall E root appName version verbose))
             (rollback E root appName) w0 in
  r.2 = Exited 1
  /\ entries (fs r.1) = filter (fun file => allow_listed file = false) (entries (fs w))
  /\ root_exists (fs r.1) = bool_decide (entries (fs r.1) <> [])
  /\ events r.1 = events w.
Proof.
  intros Hearlier He Hroot r.
  assert (Hafter : afterInstall E root appName version verbose packageName w
                   = (w, Thrown err)).
  { unfold afterInstall, checkNodeVersion. rewrite He. reflexivity. }
  assert (Hthen : Proc.then_ earlier (afterInstall E root appName version verbose) w0
                  = (w, Rejected err)).
  { unfold Proc.then_, Proc.in_callback. rewrite Hearlier, Hafter. reflexivity. }
  subst r. rewrite (catch_rejected _ _ _ _ _ Hthen).
  destruct (rollback_outcome E root appName err w Hroot) as (Hexit & Hent & Hrm).
  pose proof (quiet_rollback E root appName err w) as Hev.
  unfold Proc.in_callback.
  destruct (rollback E root appName err w) as [w' o].
  cbn [fst snd] in *. subst o. cbn [fst snd]. auto.
Qed.

Lemma unreadable_package_rolls_back_witness :
  let r := Proc.catch_
             (Proc.then_ (mret "react-scripts")
                (afterInstall Scenario.unreadable_package "/work/divi-sample" "divi-sample"
                   None false))
             (rollback Scenario.unreadable_package "/work/divi-sample" "divi-sample")
             Scenario.installed in
  r.2 = Exited 1 /\ fs r.1 = removed.
Proof.
  destruct (unreadable_package_rolls_back Scenario.unreadable_package "/work/divi-sample"
              "divi-sample" None false "react-scripts" (Error "Cannot find module")
              (mret "react-scripts") Scenario.installed Scenario.installed
              eq_refl eq_refl eq_refl)
    as (H1 & _).
  split; [exact H1 | reflexivity].
Defined.

(** X14.  The good path after the install: with the engine check passed,
    a manifest that records the three packages, and an init script and a
    scaffold rewrite that return, the run returns without entering the
    handler.  The init script is started on the directory that holds the
    rewritten manifest (the three entries moved to [devDependencies], the
    two of React with their caret ranges) and in the working directory of
    the moment; the scaffold rewrite works on what the init script left;
    the working directory is where the init script ended, and nothing has
    been started but what the init script started. *)
Theorem afterInstall_completes
    (E : Env) (root appName : string) (version : option string) (verbose : bool)
    (packageName : string) (engines : option string) (earlier : Proc string)
    (w0 w : World) (m : Manifest) (deps : gmap string jsval) (pv rv dv : string) :
  earlier w0 = (w, Returned packageName) ->
  installed_engines_node E packageName = inr engines ->
  (forall range, engines = Some range -> node_satisfies E range = true) ->
  root_exists (fs w) = true ->
  manifest (fs w) = Some m ->
  dependencies m = Some deps ->
  prop deps packageName = JStr pv ->
  prop deps "react" = JStr rv ->
  prop deps "react-dom" = JStr dv ->
  packageName <> "react" ->
  packageName <> "react-dom" ->
  let fixed :=
    {| root_exists := true;
       entries := if includes "package.json" (entries (fs w)) then entries (fs w)
                  else entries (fs w) ++ ["package.json"];
       manifest :=
         Some {| pkg_name := pkg_name m; pkg_version := pkg_version m;
                 dependencies := Some (moved_dependencies packageName deps);
                 devDependencies :=
                   Some (moved_devDependencies E packageName
                           (default ∅ (devDependencies m)) pv rv dv) |} |} in
  let initialised := init_script E packageName root appName verbose fixed (cwd w) in
  let finalized :=
    rewrite_scaffold E root appName (Template.derive appName) (left_fs initialised) in
  ended_with initialised = Returned tt ->
  finalized.2 = Returned tt ->
  let r := Proc.catch_ (Proc.then_ earlier (afterInstall E root appName version verbose))
             (rollback E root appName) w0 in
  r.2 = Returned tt
  /\ fs r.1 = finalized.1
  /\ cwd r.1 = left_cwd initialised
  /\ events r.1 = events w ++ started initialised.
Proof.
  intros Hearlier He Hsat Hroot Hm Hdeps Hpkg Hreact Hdom Hne1 Hne2
    fixed initialised finalized Hinit Hfin r.
  destruct (fixDependencies_returns E packageName w m deps pv rv dv
              Hroot Hm Hdeps Hpkg Hreact Hdom Hne1 Hne2) as (w1 & Hfix & Hfs1 & Hcwd1 & Hev1).
  fold fixed in Hfs1.
  assert (Hafter : exists w',
    afterInstall E root appName version verbose packageName w = (w', Returned tt)
    /\ fs w' = finalized.1 /\ cwd w' = left_cwd initialised
    /\ events w' = events w ++ started initialised).
  { unfold afterInstall.
    rewrite (bind_returned _ _ _ _ _ (checkNodeVersion_ok E packageName engines w He Hsat)).
    rewrite (bind_returned _ _ _ _ _ Hfix).
    unfold finalize_extension_files.
    cbv [mbind proc_bind mret proc_ret Proc.bind Proc.ret Proc.get_fs Proc.put_fs
         Proc.ended Proc.log Proc.call].
    rewrite Hfs1, Hcwd1, Hev1. fold initialised.
    rewrite Hinit. cbn [fs cwd console events]. fold finalized. rewrite Hfin.
    destruct (decide (version = Some "react-scripts@0.9.x"));
      eexists; (split; [reflexivity|]); cbn [fs cwd console events]; auto. }
  destruct Hafter as (w' & Hafter & Hfs & Hcwd & Hev).
  subst r. unfold Proc.catch_, Proc.then_, Proc.in_callback.
  rewrite Hearlier, Hafter. cbn [fst snd]. auto.
Qed.

Lemma afterInstall_completes_witness :
  let r := Proc.catch_
             (Proc.then_ (mret "react-scripts")
                (afterInstall Scenario.template_install "/work/divi-sample" "divi-sample"
                   None false))
             (rollback Scenario.template_install "/work/divi-sample" "divi-sample")
             Scenario.installed in
  r.2 = Returned tt
  /\ entries (fs r.1) = ["package.json"; "node_modules"; "src"]
  /\ events r.1 = [Spawn "npm" ["install"; "--save"; "react"; "react-dom"]].
Proof.
  destruct (afterInstall_completes Scenario.template_install "/work/divi-sample"
              "divi-sample" None
              false "react-scripts" (Some ">=6") (mret "react-scripts")
              Scenario.installed Scenario.installed Sample.installed_ok _
              "1.0.17" "16.2.0" "16.2.0"
              eq_refl eq_refl (fun _ _ => eq_refl) eq_refl eq_refl eq_refl
              eq_refl eq_refl eq_refl ltac:(discriminate) ltac:(discriminate)
              eq_refl eq_refl)
    as (H1 & H2 & _ & H4).
  split; [exact H1|]. split; [rewrite H2; reflexivity | exact H4].
Defined.

(** ** Display names *)

(** X15.  A specifier that begins with [@] (a scoped package) and holds
    no [.tgz] is its own display name, with any [@version] it carries: the
    test [indexOf( '@' ) > 0] is false for it. *)
Theorem getPackageName_scoped_unchanged (E : Env) (rest : string) (w : World) :
  Js.contains ".tgz" rest = false ->
  getPackageName E (String "@" rest) w = (w, Returned (String "@" rest)).
Proof.
  intros Htgz. unfold getPackageName.
  assert (H1 : Js.contains ".tgz" (String "@" rest) = false).
  { rewrite contains_cons. rewrite Htgz. reflexivity. }
  rewrite H1, indexOf_0.
  change (Js.starts_with "git+" (String "@" rest)) with false. cbv iota.
  change (Js.indexOf "@" (String "@" rest)) with 0.
  reflexivity.
Qed.

Lemma getPackageName_scoped_unchanged_witness :
  getPackageName Sample.default "@scope/scripts@1.0.0" Sample.fresh
  = (Sample.fresh, Returned "@scope/scripts@1.0.0").
Proof.
  exact (getPackageName_scoped_unchanged Sample.default "scope/scripts@1.0.0" Sample.fresh
           eq_refl).
Defined.

Lemma before_at_app name tag :
  Js.contains "@" name = false ->
  Pattern.before_at (name +:+ String "@" tag) = name.
Proof.
  induction name as [|c r IH]; intros H; [reflexivity|].
  apply contains_cons_false in H as [H1 H2].
  change (Js.starts_with "@" (String c r)) with (Ascii.eqb "@" c && true) in H1.
  rewrite andb_true_r, Ascii.eqb_sym in H1.
  simpl. rewrite H1, (IH H2). reflexivity.
Qed.

Lemma contains_app_at name tag : Js.contains "@" (name +:+ String "@" tag) = true.
Proof.
  induction name as [|c r IH]; [reflexivity|].
  change (String c r +:+ String "@" tag) with (String c (r +:+ String "@" tag)).
  rewrite contains_cons, IH. apply orb_true_r.
Qed.

(** X16.  For [name@tag] with a non-empty [name] that holds no [@], where
    the specifier holds no [.tgz] and does not begin with [git+], the
    display name is [name]. *)
Theorem getPackageName_strips_tag (E : Env) (name tag : string) (w : World) :
  name <> EmptyString ->
  Js.contains "@" name = false ->
  Js.contains ".tgz" (name +:+ String "@" tag) = false ->
  Js.starts_with "git+" name = false ->
  getPackageName E (name +:+ String "@" tag) w = (w, Returned name).
Proof.
  intros Hne Hat Htgz Hgit. unfold getPackageName. rewrite Htgz, indexOf_0.
  destruct name as [|c r]; [congruence|].
  change (String c r +:+ String "@" tag) with (String c (r +:+ String "@" tag)).
  apply contains_cons_false in Hat as [H1 H2].
  assert (Hgit' : Js.starts_with "git+" (String c (r +:+ String "@" tag)) = false).
  { revert Hgit. clear.
    destruct r as [|c2 [|c3 [|c4 r]]]; simpl;
      repeat match goal with
             | |- context [Ascii.eqb ?a ?b] => destruct (Ascii.eqb a b)
             end; simpl; congruence. }
  rewrite Hgit'. cbv iota.
  assert (Hpos : (0 <? Js.indexOf "@" (String c (r +:+ String "@" tag))) = true).
  { apply indexOf_pos; [|apply contains_app_at].
    change (Js.starts_with "@" (String c r)) with (Ascii.eqb "@" c && true) in H1.
    change (Js.starts_with "@" (String c (r +:+ String "@" tag)))
      with (Ascii.eqb "@" c && true).
    exact H1. }
  rewrite Hpos.
  change (Js.charAt (String c (r +:+ String "@" tag)) 0) with (String c EmptyString).
  change (Js.drop 1 (String c (r +:+ String "@" tag))) with (r +:+ String "@" tag).
  rewrite (before_at_app r tag H2). reflexivity.
Qed.

Lemma getPackageName_strips_tag_witness :
  getPackageName Sample.default "my-react-scripts@next" Sample.fresh
  = (Sample.fresh, Returned "my-react-scripts").
Proof.
  exact (getPackageName_strips_tag Sample.default "my-react-scripts" "next" Sample.fresh
           ltac:(discriminate) eq_refl eq_refl eq_refl).
Defined.

(** *** The archive fallback on a path *)

Lemma append_cons c r s : String c r +:+ s = String c (r +:+ s).
Proof. reflexivity. Qed.

Lemma starts_with_char x c r :
  Js.starts_with (String x EmptyString) (String c r) = Ascii.eqb x c.
Proof.
  change (Js.starts_with (String x EmptyString) (String c r)) with (Ascii.eqb x c && true).
  apply andb_true_r.
Qed.

Lemma contains_char_app x a b :
  Js.contains (String x EmptyString) a = false ->
  Js.contains (String x EmptyString) b = false ->
  Js.contains (String x EmptyString) (a +:+ b) = false.
Proof.
  intros Ha Hb. induction a as [|c r IH]; [exact Hb|].
  apply contains_cons_false in Ha as [H1 H2].
  rewrite append_cons, contains_cons, (IH H2), orb_false_r.
  rewrite starts_with_char in *. exact H1.
Qed.

Lemma no_line_terminator_app a b :
  Js.no_line_terminator a = true -> Js.no_line_terminator b = true ->
  Js.no_line_terminator (a +:+ b) = true.
Proof.
  intros Ha Hb. induction a as [|c r IH]; [exact Hb|].
  simpl in Ha. apply andb_true_iff in Ha as [H1 H2].
  rewrite append_cons. simpl. rewrite H1, (IH H2). reflexivity.
Qed.

Lemma digit_not_line_terminator d : Js.is_digit d = true -> Js.is_line_terminator d = false.
Proof.
  unfold Js.is_digit, Js.is_line_terminator. cbv zeta. intros Hd.
  destruct (Nat.eqb_spec (nat_of_ascii d) 10) as [H|]; [rewrite H in Hd; discriminate|].
  destruct (Nat.eqb_spec (nat_of_ascii d) 13) as [H|]; [rewrite H in Hd; discriminate|].
  reflexivity.
Qed.

Lemma append_assoc a b c : (a +:+ b) +:+ c = a +:+ (b +:+ c).
Proof. induction a as [|x r IH]; [reflexivity|]. rewrite !append_cons, IH. reflexivity. Qed.

Lemma len_app a b : Js.len (a +:+ b) = (Js.len a + Js.len b)%nat.
Proof. induction a as [|c r IH]; simpl; [reflexivity|]. rewrite IH. reflexivity. Qed.

Lemma dot_plus_tgz_app m :
  m <> EmptyString -> Js.no_line_terminator m = true ->
  Pattern.dot_plus_tgz (m +:+ ".tgz") = true.
Proof.
  induction m as [|c r IH]; intros Hne Hlt; [congruence|].
  simpl in Hlt. apply andb_true_iff in Hlt as [Hc Hr].
  rewrite append_cons. simpl Pattern.dot_plus_tgz. rewrite Hc. cbn [andb].
  destruct r as [|c2 r2]; [reflexivity|].
  rewrite IH by (congruence || exact Hr). apply orb_true_r.
Qed.

Lemma archive_suffix_tail suffix :
  archive_suffix suffix -> Pattern.tgz_tail suffix = true.
Proof.
  intros [|d c rest Hd Hlt _]; [reflexivity|].
  unfold Pattern.tgz_tail. rewrite !append_cons.
  rewrite Hd. cbn [Ascii.eqb andb].
  change (Ascii.eqb "-" "-") with true. cbn [andb].
  rewrite <- append_cons, dot_plus_tgz_app by (congruence || exact Hlt).
  apply orb_true_r.
Qed.

Lemma archive_suffix_head suffix :
  archive_suffix suffix ->
  exists c r, suffix = String c r /\ Js.is_digit c = false /\ (4 <= Js.len suffix)%nat
    /\ Js.contains "/" suffix = false /\ Js.no_line_terminator suffix = true.
Proof.
  intros [|d c rest Hd Hlt Hslash].
  - exists "."%char, "tgz". repeat split. simpl. lia.
  - eexists "-"%char, _. split; [reflexivity|].
    split; [reflexivity|]. split; [simpl; rewrite len_app; simpl; lia|]. split.
    + rewrite !append_cons, <- append_cons.
      rewrite contains_cons, starts_with_char. change (Ascii.eqb "/" "-") with false.
      rewrite contains_cons, starts_with_char. cbn [orb].
      replace (Ascii.eqb "/" d) with false.
      2:{ destruct (Ascii.eqb_spec "/" d) as [<-|]; [discriminate Hd|reflexivity]. }
      cbn [orb]. apply contains_char_app; [exact Hslash|reflexivity].
    + rewrite !append_cons, <- append_cons.
      change (Js.no_line_terminator (String "-" (String d (String c rest +:+ ".tgz"))))
        with (negb (Js.is_line_terminator d)
              && Js.no_line_terminator (String c rest +:+ ".tgz")).
      rewrite (digit_not_line_terminator d Hd). cbn [negb andb].
      apply no_line_terminator_app; [exact Hlt|reflexivity].
Qed.

(** Inside a name without hyphen-digit pairs the lazy group cannot stop
    early: it is the whole name. *)
Lemma tgz_group_name name suffix :
  name <> EmptyString ->
  Js.no_line_terminator name = true ->
  no_hyphen_digit name = true ->
  archive_suffix suffix ->
  Pattern.tgz_group (name +:+ suffix) = Some name.
Proof.
  intros Hne Hlt Hhd Hsuf.
  destruct (archive_suffix_head suffix Hsuf) as (s0 & sr & Hs & Hs0 & Hlen & _).
  induction name as [|c r IH]; [congruence|].
  simpl in Hlt. apply andb_true_iff in Hlt as [Hc Hr].
  apply negb_true_iff in Hc.
  rewrite append_cons. simpl Pattern.tgz_group. rewrite Hc.
  destruct r as [|c2 r2].
  - change (EmptyString +:+ suffix) with suffix.
    rewrite (archive_suffix_tail suffix Hsuf). reflexivity.
  - assert (Htail : Pattern.tgz_tail (String c2 r2 +:+ suffix) = false).
    { unfold Pattern.tgz_tail. rewrite append_cons.
      assert (Hneq : String.eqb (String c2 (r2 +:+ suffix)) ".tgz" = false).
      { apply String.eqb_neq. intros Heq.
        apply (f_equal Js.len) in Heq. simpl in Heq. rewrite len_app in Heq. lia. }
      rewrite Hneq. cbn [orb].
      change (no_hyphen_digit (String c (String c2 r2)))
        with (negb (Ascii.eqb c "-" && Js.is_digit c2) && no_hyphen_digit (String c2 r2))
        in Hhd.
      apply andb_true_iff in Hhd as [_ Hhd].
      destruct r2 as [|c3 r3].
      + change (EmptyString +:+ suffix) with suffix. rewrite Hs.
        rewrite Hs0. rewrite andb_false_r. reflexivity.
      + rewrite append_cons.
        change (no_hyphen_digit (String c2 (String c3 r3)))
          with (negb (Ascii.eqb c2 "-" && Js.is_digit c3) && no_hyphen_digit (String c3 r3))
          in Hhd.
        apply andb_true_iff in Hhd as [Hhd _]. apply negb_true_iff in Hhd.
        rewrite Hhd. reflexivity. }
    rewrite Htail.
    rewrite IH; [reflexivity|congruence|exact Hr|].
    change (no_hyphen_digit (String c (String c2 r2)))
      with (negb (Ascii.eqb c "-" && Js.is_digit c2) && no_hyphen_digit (String c2 r2))
      in Hhd.
    apply andb_true_iff in Hhd as [_ Hhd]. exact Hhd.
Qed.

(** The greedy scan settles on the last slash. *)
Lemma tgz_scan_last_slash dir file g :
  Js.no_line_terminator dir = true ->
  Js.contains "/" file = false ->
  Pattern.tgz_group file = Some g ->
  Pattern.tgz_scan (dir +:+ String "/" file) = Some g.
Proof.
  intros Hlt Hslash Hg. induction dir as [|c r IH].
  - change (EmptyString +:+ String "/" file) with (String "/" file).
    simpl. rewrite (tgz_scan_no_slash file Hslash). exact Hg.
  - simpl in Hlt. apply andb_true_iff in Hlt as [Hc Hr]. apply negb_true_iff in Hc.
    rewrite append_cons. simpl. rewrite Hc, (IH Hr). reflexivity.
Qed.

Lemma contains_suffix p a : Js.contains p (a +:+ p) = true.
Proof.
  induction a as [|c r IH].
  - apply contains_starts_with, starts_with_refl.
  - rewrite append_cons, contains_cons, IH. apply orb_true_r.
Qed.

Lemma tgz_name_path dir name suffix :
  dir <> EmptyString ->
  Js.no_line_terminator dir = true ->
  name <> EmptyString ->
  Js.no_line_terminator name = true ->
  Js.contains "/" name = false ->
  no_hyphen_digit name = true ->
  archive_suffix suffix ->
  Pattern.tgz_name (dir +:+ String "/" (name +:+ suffix)) = Some name.
Proof.
  intros Hdir Hdlt Hname Hnlt Hslash Hhd Hsuf.
  destruct (archive_suffix_head suffix Hsuf) as (s0 & sr & _ & _ & _ & Hss & _).
  destruct dir as [|c r]; [congruence|].
  simpl in Hdlt. apply andb_true_iff in Hdlt as [Hc Hr]. apply negb_true_iff in Hc.
  rewrite append_cons. unfold Pattern.tgz_name. rewrite Hc.
  apply tgz_scan_last_slash; [exact Hr| |].
  - apply contains_char_app; [exact Hslash|exact Hss].
  - apply tgz_group_name; assumption.
Qed.

(** X17.  The archive fallback on a path: when the archive cannot be read
    and the specifier is [dir/name.tgz] or [dir/name-<digit><more>.tgz],
    with a directory part, a name that has no [/] and in which no [-] is
    followed by a digit, and a version part without [/], the display name
    is [name]; the archive was fetched or read once and nothing else is
    changed. *)
Theorem archive_fallback_names_package (E : Env) (dir name suffix : string)
    (err : Reason) (w : World) :
  let installPackage := dir +:+ String "/" (name +:+ suffix) in
  dir <> EmptyString ->
  Js.no_line_terminator dir = true ->
  name <> EmptyString ->
  Js.no_line_terminator name = true ->
  Js.contains "/" name = false ->
  no_hyphen_digit name = true ->
  archive_suffix suffix ->
  archive_name E installPackage = inl err ->
  exists w',
    getPackageName E installPackage w = (w', Returned name)
    /\ fs w' = fs w /\ cwd w' = cwd w
    /\ events w' = events w ++ archive_probe installPackage.
Proof.
  intros pkg Hdir Hdlt Hname Hnlt Hslash Hhd Hsuf Herr.
  assert (Htgz : Js.contains ".tgz" pkg = true).
  { subst pkg. destruct Hsuf as [|d c rest _ _ _].
    - change (dir +:+ String "/" (name +:+ ".tgz"))
        with (dir +:+ (String "/" name +:+ ".tgz")).
      rewrite <- append_assoc. apply contains_suffix.
    - change (dir +:+ String "/" (name +:+ (String "-" (String d (String c rest)) +:+ ".tgz")))
        with (dir +:+ (String "/" name +:+ (String "-" (String d (String c rest)) +:+ ".tgz"))).
      rewrite <- !append_assoc. apply contains_suffix. }
  pose proof (tgz_name_path dir name suffix Hdir Hdlt Hname Hnlt Hslash Hhd Hsuf) as Hn.
  fold pkg in Hn.
  unfold getPackageName, archive_probe. rewrite Htgz.
  unfold Proc.catch_, readArchiveName.
  unfold mbind, proc_bind, Proc.bind, Proc.emit. rewrite Herr.
  unfold Proc.reject, Proc.in_callback, Proc.log. rewrite Hn.
  eexists. split; [reflexivity|]. repeat split.
Qed.

Lemma archive_fallback_names_package_witness :
  archive_suffix "-0.2.0-alpha.1.tgz"
  /\ exists w',
       getPackageName Sample.default "./react-scripts-0.2.0-alpha.1.tgz" Sample.fresh
       = (w', Returned "react-scripts")
       /\ events w' = [ReadStream "./react-scripts-0.2.0-alpha.1.tgz"].
Proof.
  assert (Hsuf : archive_suffix "-0.2.0-alpha.1.tgz").
  { exact (suffix_version "0" "." "2.0-alpha.1" eq_refl eq_refl eq_refl). }
  split; [exact Hsuf|].
  destruct (archive_fallback_names_package Sample.default "." "react-scripts"
              "-0.2.0-alpha.1.tgz" (Error "invalid tar file") Sample.fresh
              ltac:(discriminate) eq_refl ltac:(discriminate) eq_refl eq_refl eq_refl
              Hsuf eq_refl) as (w' & Hrun & _ & _ & Hev).
  exists w'. split; [exact Hrun | exact Hev].
Defined.

(** ** The three spellings of the prefix *)

Lemma lower_upper_lower c : Js.lower_char (Js.upper_char (Js.lower_char c)) = Js.lower_char c.
Proof. destruct c as [[] [] [] [] [] [] [] []]; reflexivity. Qed.

Lemma lower_lower c : Js.lower_char (Js.lower_char c) = Js.lower_char c.
Proof. destruct c as [[] [] [] [] [] [] [] []]; reflexivity. Qed.

Lemma upper_upper c : Js.upper_char (Js.upper_char c) = Js.upper_char c.
Proof. destruct c as [[] [] [] [] [] [] [] []]; reflexivity. Qed.

(** A string that lower-casing leaves alone. *)
Lemma lowered_take n s : Js.toLowerCase s = s -> Js.toLowerCase (Js.take n s) = Js.take n s.
Proof.
  revert n. induction s as [|c r IH]; intros n H; destruct n; try reflexivity.
  unfold Js.toLowerCase in *. simpl in *. injection H as Hc Hr.
  rewrite Hc, (IH n Hr). reflexivity.
Qed.

Lemma lowered_drop n s : Js.toLowerCase s = s -> Js.toLowerCase (Js.drop n s) = Js.drop n s.
Proof.
  revert n. induction s as [|c r IH]; intros n H; destruct n; try assumption; try reflexivity.
  unfold Js.toLowerCase in *. simpl in *. injection H as Hc Hr. exact (IH n Hr).
Qed.

Lemma lowered_substring s a b :
  Js.toLowerCase s = s -> Js.toLowerCase (Js.substring s a b) = Js.substring s a b.
Proof. intros H. unfold Js.substring. cbv zeta. apply lowered_take, lowered_drop, H. Qed.

Lemma toLowerCase_idem s : Js.toLowerCase (Js.toLowerCase s) = Js.toLowerCase s.
Proof.
  unfold Js.toLowerCase. induction s as [|c r IH]; [reflexivity|].
  simpl. rewrite lower_lower, IH. reflexivity.
Qed.

Lemma lower_of_upper s : Js.toLowerCase s = s -> Js.toLowerCase (Js.toUpperCase s) = s.
Proof.
  unfold Js.toLowerCase, Js.toUpperCase. induction s as [|c r IH]; [reflexivity|].
  simpl. intros H. injection H as Hc Hr.
  rewrite (IH Hr). rewrite <- Hc at 1. rewrite lower_upper_lower, Hc. reflexivity.
Qed.

Lemma len_substring_le s a b : (Js.len (Js.substring s a b) <= Js.clamp s a `max` Js.clamp s b)%nat.
Proof. unfold Js.substring. cbv zeta. rewrite len_take. lia. Qed.

Lemma clamp_le s i : 0 <= i -> (Js.clamp s i <= Z.to_nat i)%nat.
Proof. intros H. unfold Js.clamp. lia. Qed.

Lemma truncated_lowered appName :
  Js.toLowerCase (Template.truncated appName) = Template.truncated appName.
Proof. unfold Template.truncated. cbv zeta. apply toLowerCase_idem. Qed.

Lemma truncated_len appName : (Js.len (Template.truncated appName) <= 4)%nat.
Proof.
  unfold Template.truncated. cbv zeta. unfold Js.toLowerCase. rewrite len_map_chars.
  etransitivity; [apply len_substring_le|].
  pose proof (clamp_le (Template.replace_divi appName) 4 ltac:(lia)).
  destruct (Template.is_separator _).
  - pose proof (clamp_le (Template.replace_divi appName) 1 ltac:(lia)). lia.
  - pose proof (clamp_le (Template.replace_divi appName) 0 ltac:(lia)). lia.
Qed.

(** X18.  For every name the three spellings agree: the prefix has at
    most 4 characters and no upper-case letter, [PREFIX] and [Prefix] have
    its length, lower-casing either gives the prefix, and upper-casing
    [Prefix] gives [PREFIX]. *)
Theorem derive_case_variants (appName : string) :
  let t := Template.derive appName in
  (Js.len (Template.prefix t) <= 4)%nat
  /\ Js.len (Template.PREFIX t) = Js.len (Template.prefix t)
  /\ Js.len (Template.Prefix t) = Js.len (Template.prefix t)
  /\ Js.toLowerCase (Template.prefix t) = Template.prefix t
  /\ Js.toLowerCase (Template.PREFIX t) = Template.prefix t
  /\ Js.toLowerCase (Template.Prefix t) = Template.prefix t
  /\ Js.toUpperCase (Template.Prefix t) = Template.PREFIX t.
Proof.
  intros t. subst t. unfold Template.derive. cbv zeta.
  cbn [Template.prefix Template.PREFIX Template.Prefix].
  set (p1 := Template.truncated appName).
  set (p := if Template.is_separator (Js.index p1 (Z.of_nat (Js.len p1) - 1))
            then Js.substring p1 0 (Z.of_nat (Js.len p1) - 1) else p1).
  assert (Hlow : Js.toLowerCase p = p).
  { subst p. destruct (Template.is_separator _).
    - apply lowered_substring, truncated_lowered.
    - apply truncated_lowered. }
  assert (Hlen : (Js.len p <= 4)%nat).
  { subst p. pose proof (truncated_len appName). fold p1 in H.
    destruct (Template.is_separator _); [|exact H].
    etransitivity; [apply len_substring_le|]. unfold Js.clamp. lia. }
  split; [exact Hlen|].
  split. { unfold Js.toUpperCase. apply len_map_chars. }
  rewrite slice_1.
  destruct p as [|c r].
  - repeat split.
  - unfold Js.toLowerCase, Js.toUpperCase in *. simpl in Hlow |- *.
    injection Hlow as Hc Hr. change (EmptyString +:+ r) with r.
    split; [reflexivity|]. split; [rewrite Hc, Hr; reflexivity|].
    split.
    { rewrite <- Hc at 1. rewrite lower_upper_lower, Hc.
      pose proof (lower_of_upper r Hr) as H. unfold Js.toLowerCase, Js.toUpperCase in H.
      rewrite H. reflexivity. }
    split.
    { rewrite <- Hc at 1. rewrite lower_upper_lower, Hc, Hr. reflexivity. }
    rewrite upper_upper. reflexivity.
Qed.

(** ** The replacement of the tokens *)

Lemma expand_plain rep matched before after :
  Js.contains "$" rep = false -> Replace.expand rep matched before after = rep.
Proof.
  induction rep as [|d tail IH]; intros H; [reflexivity|].
  apply contains_cons_false in H as [H1 H2].
  rewrite starts_with_char, Ascii.eqb_sym in H1.
  cbn [Replace.expand]. rewrite H1, (IH H2). reflexivity.
Qed.

Lemma contains_longer x p s :
  Js.contains (String x EmptyString) s = false -> Js.contains (String x p) s = false.
Proof.
  induction s as [|c r IH]; intros H.
  - reflexivity.
  - apply contains_cons_false in H as [H1 H2].
    rewrite contains_cons, (IH H2), orb_false_r.
    rewrite starts_with_char in H1.
    change (Js.starts_with (String x p) (String c r))
      with (Ascii.eqb x c && Js.starts_with p r).
    rewrite H1. reflexivity.
Qed.

Lemma contains_prefix_false p q s :
  Js.contains p s = false -> Js.contains (p +:+ q) s = false.
Proof.
  assert (Hsw : forall s, Js.starts_with p s = false -> Js.starts_with (p +:+ q) s = false).
  { induction p as [|x p IH]; intros s0 H; [discriminate|].
    destruct s0 as [|c r]; [reflexivity|].
    rewrite append_cons.
    change (Js.starts_with (String x (p +:+ q)) (String c r))
      with (Ascii.eqb x c && Js.starts_with (p +:+ q) r).
    change (Js.starts_with (String x p) (String c r))
      with (Ascii.eqb x c && Js.starts_with p r) in H.
    destruct (Ascii.eqb x c); [|reflexivity]. cbn [andb] in *. apply IH, H. }
  induction s as [|c r IH]; intros H.
  - simpl in H |- *. rewrite orb_false_r in *. apply Hsw, H.
  - apply contains_cons_false in H as [H1 H2].
    rewrite contains_cons, (IH H2), (Hsw _ H1). reflexivity.
Qed.

(** Where the pattern does not occur nothing is replaced. *)
Lemma all_from_absent pat rep before s :
  Js.contains pat s = false -> Replace.all_from 0 pat rep before s = s.
Proof.
  revert before. induction s as [|c r IH]; intros before H; [reflexivity|].
  apply contains_cons_false in H as [H1 H2].
  cbn [Replace.all_from]. rewrite H1, (IH _ H2). reflexivity.
Qed.

Lemma all_absent pat rep s : Js.contains pat s = false -> Replace.all pat rep s = s.
Proof. apply all_from_absent. Qed.

(** Text without the first character of the pattern is copied. *)
Lemma all_from_copy x p rep before a s :
  Js.contains (String x EmptyString) a = false ->
  Replace.all_from 0 (String x p) rep before (a +:+ s)
  = a +:+ Replace.all_from 0 (String x p) rep (before +:+ a) s.
Proof.
  revert before. induction a as [|c r IH]; intros before H.
  - change (EmptyString +:+ s) with s.
    replace (before +:+ "") with before; [reflexivity|].
    clear. induction before as [|b bs IH]; [reflexivity|].
    rewrite append_cons, <- IH. reflexivity.
  - apply contains_cons_false in H as [H1 H2].
    rewrite starts_with_char in H1.
    rewrite !append_cons. cbn [Replace.all_from].
    change (Js.starts_with (String x p) (String c (r +:+ s)))
      with (Ascii.eqb x c && Js.starts_with p (r +:+ s)).
    rewrite H1. cbn [andb]. rewrite (IH _ H2).
    rewrite append_assoc. reflexivity.
Qed.

Lemma starts_with_app p s : Js.starts_with p (p +:+ s) = true.
Proof.
  induction p as [|x p IH]; [reflexivity|].
  rewrite append_cons.
  change (Js.starts_with (String x p) (String x (p +:+ s)))
    with (Ascii.eqb x x && Js.starts_with p (p +:+ s)).
  rewrite Ascii.eqb_refl, IH. reflexivity.
Qed.

Lemma drop_app p s : Js.drop (Js.len p) (p +:+ s) = s.
Proof. induction p as [|x p IH]; [destruct s; reflexivity|exact IH]. Qed.

Lemma all_from_skip pat rep before q s :
  Replace.all_from (Js.len q) pat rep before (q +:+ s)
  = Replace.all_from 0 pat rep (before +:+ q) s.
Proof.
  revert before. induction q as [|c r IH]; intros before.
  - change (EmptyString +:+ s) with s.
    replace (before +:+ "") with before; [reflexivity|].
    clear. induction before as [|b bs IH]; [reflexivity|].
    rewrite append_cons, <- IH. reflexivity.
  - rewrite append_cons. cbn [Js.len Replace.all_from].
    rewrite IH, append_assoc. reflexivity.
Qed.

(** An occurrence of the pattern is replaced and the text after it is
    scanned from the end of the occurrence. *)
Lemma all_from_match x p rep before s :
  Replace.all_from 0 (String x p) rep before (String x p +:+ s)
  = Replace.expand rep (String x p) before s
    +:+ Replace.all_from 0 (String x p) rep (before +:+ String x p) s.
Proof.
  pose proof (starts_with_app (String x p) s) as Hsw.
  pose proof (drop_app (String x p) s) as Hdrop.
  rewrite append_cons in *. cbn [Replace.all_from]. rewrite Hsw, Hdrop.
  cbn [Js.len]. rewrite Nat.sub_succ, Nat.sub_0_r.
  rewrite all_from_skip, append_assoc. reflexivity.
Qed.

(** One token between texts that hold no character a token begins with. *)
Lemma all_token x p rep a b :
  Js.contains (String x EmptyString) a = false ->
  Js.contains (String x EmptyString) b = false ->
  Js.contains "$" rep = false ->
  Replace.all (String x p) rep (a +:+ String x p +:+ b) = a +:+ rep +:+ b.
Proof.
  intros Ha Hb Hrep. unfold Replace.all.
  rewrite (all_from_copy x p rep "" a _ Ha), all_from_match, expand_plain by exact Hrep.
  rewrite all_from_absent by (apply contains_longer, Hb). reflexivity.
Qed.

(** X19.  Data in which no [__] and no [<] occurs is written back
    unchanged. *)
Theorem render_without_tokens (appName data : string) :
  Js.contains "__" data = false ->
  Js.contains "<" data = false ->
  render appName data = data.
Proof.
  intros Hu Hlt. unfold render. cbv zeta.
  rewrite (all_absent "__Prefix") by exact (contains_prefix_false "__" "Prefix" data Hu).
  rewrite (all_absent "__PREFIX") by exact (contains_prefix_false "__" "PREFIX" data Hu).
  rewrite (all_absent "__prefix") by exact (contains_prefix_false "__" "prefix" data Hu).
  rewrite (all_absent "<NAME>") by exact (contains_longer "<" "NAME>" data Hlt).
  apply all_absent. exact (contains_longer "<" "GETTEXT_DOMAIN>" data Hlt).
Qed.

Lemma render_without_tokens_witness :
  render "divi-foo-extension" "add_action( 'init', 'run' );" = "add_action( 'init', 'run' );".
Proof.
  exact (render_without_tokens "divi-foo-extension" "add_action( 'init', 'run' );"
           eq_refl eq_refl).
Defined.

Lemma contains_char_app3 x a m b :
  Js.contains (String x EmptyString) a = false ->
  Js.contains (String x EmptyString) m = false ->
  Js.contains (String x EmptyString) b = false ->
  Js.contains (String x EmptyString) (a +:+ m +:+ b) = false.
Proof. intros Ha Hm Hb. apply contains_char_app; [exact Ha|]. apply contains_char_app; assumption. Qed.

(** *** The derived names hold no character the name does not hold *)

Lemma absent_take x n s :
  Js.contains (String x EmptyString) s = false ->
  Js.contains (String x EmptyString) (Js.take n s) = false.
Proof.
  revert n. induction s as [|c r IH]; intros n H; destruct n; try reflexivity.
  apply contains_cons_false in H as [H1 H2].
  cbn [Js.take]. rewrite contains_cons, (IH n H2), orb_false_r.
  rewrite starts_with_char in *. exact H1.
Qed.

Lemma absent_drop x n s :
  Js.contains (String x EmptyString) s = false ->
  Js.contains (String x EmptyString) (Js.drop n s) = false.
Proof.
  revert n. induction s as [|c r IH]; intros n H; destruct n; try assumption.
  apply contains_cons_false in H as [_ H2]. exact (IH n H2).
Qed.

Lemma absent_substring x s a b :
  Js.contains (String x EmptyString) s = false ->
  Js.contains (String x EmptyString) (Js.substring s a b) = false.
Proof. intros H. unfold Js.substring. cbv zeta. apply absent_take, absent_drop, H. Qed.

Lemma absent_map x f s :
  (forall c, f c = x -> c = x) ->
  Js.contains (String x EmptyString) s = false ->
  Js.contains (String x EmptyString) (Js.map_chars f s) = false.
Proof.
  intros Hf. induction s as [|c r IH]; intros H; [reflexivity|].
  apply contains_cons_false in H as [H1 H2].
  cbn [Js.map_chars]. rewrite contains_cons, (IH H2), orb_false_r.
  rewrite starts_with_char in *.
  destruct (Ascii.eqb_spec x (f c)) as [Heq|]; [|reflexivity].
  symmetry in Heq. apply Hf in Heq. subst c. rewrite Ascii.eqb_refl in H1. discriminate.
Qed.

Lemma absent_replace_divi x s :
  Js.contains (String x EmptyString) s = false ->
  forall bol, Js.contains (String x EmptyString) (Template.replace_divi_from bol s) = false.
Proof.
  assert (Hn : forall n s, (Js.len s <= n)%nat ->
            Js.contains (String x EmptyString) s = false ->
            forall bol,
              Js.contains (String x EmptyString) (Template.replace_divi_from bol s) = false).
  { clear s. induction n as [|n IH]; intros s Hlen H bol.
    - destruct s; [reflexivity|simpl in Hlen; lia].
    - destruct s as [|c1 r1]; [reflexivity|].
      simpl in Hlen.
      pose proof H as H0. apply contains_cons_false in H0 as [H1 H2].
      assert (Hkeep : Js.contains (String x EmptyString)
                (String c1 (Template.replace_divi_from (Js.is_line_terminator c1) r1)) = false).
      { rewrite contains_cons, (IH r1 ltac:(lia) H2), orb_false_r.
        rewrite starts_with_char in *. exact H1. }
      cbn [Template.replace_divi_from]. cbv zeta.
      destruct bol; [|exact Hkeep].
      destruct r1 as [|c2 [|c3 [|c4 r]]]; try exact Hkeep.
      destruct (Template.ci_eq "d" c1 && Template.ci_eq "i" c2 && Template.ci_eq "v" c3
                && Template.ci_eq "i" c4); [|exact Hkeep].
      apply IH.
      + simpl in Hlen. lia.
      + apply contains_cons_false in H2 as [_ H2].
        apply contains_cons_false in H2 as [_ H2].
        apply contains_cons_false in H2 as [_ H2]. exact H2. }
  intros H bol. exact (Hn (Js.len s) s (le_n _) H bol).
Qed.

(** A character that is no letter and that no letter is mapped to. *)
Lemma derive_absent x appName :
  (forall c, Js.lower_char c = x -> c = x) ->
  (forall c, Js.upper_char c = x -> c = x) ->
  Js.contains (String x EmptyString) appName = false ->
  let t := Template.derive appName in
  Js.contains (String x EmptyString) (Template.prefix t) = false
  /\ Js.contains (String x EmptyString) (Template.PREFIX t) = false
  /\ Js.contains (String x EmptyString) (Template.Prefix t) = false.
Proof.
  intros Hlow Hup H t. subst t. unfold Template.derive. cbv zeta.
  cbn [Template.prefix Template.PREFIX Template.Prefix].
  assert (H1 : Js.contains (String x EmptyString) (Template.truncated appName) = false).
  { unfold Template.truncated. cbv zeta. unfold Js.toLowerCase.
    apply absent_map; [exact Hlow|]. apply absent_substring.
    apply absent_replace_divi. exact H. }
  set (p1 := Template.truncated appName) in *.
  set (p := if Template.is_separator (Js.index p1 (Z.of_nat (Js.len p1) - 1))
            then Js.substring p1 0 (Z.of_nat (Js.len p1) - 1) else p1).
  assert (Hp : Js.contains (String x EmptyString) p = false).
  { subst p. destruct (Template.is_separator _); [apply absent_substring|]; exact H1. }
  assert (HP : Js.contains (String x EmptyString) (Js.toUpperCase p) = false).
  { unfold Js.toUpperCase. apply absent_map; [exact Hup|exact Hp]. }
  split; [exact Hp|]. split; [exact HP|].
  apply contains_char_app.
  - destruct (Js.toUpperCase p) as [|c r] eqn:E; [reflexivity|].
    apply contains_cons_false in HP as [HP1 _].
    change (Js.charAt (String c r) 0) with (String c EmptyString).
    rewrite contains_cons, orb_false_r. rewrite starts_with_char in *. exact HP1.
  - rewrite slice_1. apply absent_drop, Hp.
Qed.

Lemma underscore_plain :
  (forall c, Js.lower_char c = "_"%char -> c = "_"%char)
  /\ (forall c, Js.upper_char c = "_"%char -> c = "_"%char).
Proof.
  split; intros c; destruct c as [[] [] [] [] [] [] [] []]; vm_compute; intros H;
    first [reflexivity | discriminate H].
Qed.

Lemma angle_plain :
  (forall c, Js.lower_char c = "<"%char -> c = "<"%char)
  /\ (forall c, Js.upper_char c = "<"%char -> c = "<"%char).
Proof.
  split; intros c; destruct c as [[] [] [] [] [] [] [] []]; vm_compute; intros H;
    first [reflexivity | discriminate H].
Qed.

Lemma dollar_plain :
  (forall c, Js.lower_char c = "$"%char -> c = "$"%char)
  /\ (forall c, Js.upper_char c = "$"%char -> c = "$"%char).
Proof.
  split; intros c; destruct c as [[] [] [] [] [] [] [] []]; vm_compute; intros H;
    first [reflexivity | discriminate H].
Qed.

Lemma contains_app_char x p a s :
  Js.contains (String x EmptyString) a = false ->
  Js.contains (String x p) (a +:+ s) = Js.contains (String x p) s.
Proof.
  intros Ha. induction a as [|c r IH]; [reflexivity|].
  apply contains_cons_false in Ha as [H1 H2].
  rewrite append_cons, contains_cons, (IH H2).
  rewrite starts_with_char in H1.
  change (Js.starts_with (String x p) (String c (r +:+ s)))
    with (Ascii.eqb x c && Js.starts_with p (r +:+ s)).
  rewrite H1. reflexivity.
Qed.

(** X20.  One token between texts that hold no [_] and no [<], for a name
    that holds none of [_], [<], [$]: the token is replaced by its value,
    [__Prefix], [__PREFIX], [__prefix] by the three spellings of the prefix
    and [<NAME>], [<GETTEXT_DOMAIN>] by the name, and the texts around it
    are kept. *)
Theorem render_token (appName a b : string) :
  let t := Template.derive appName in
  Js.contains "_" a = false -> Js.contains "<" a = false ->
  Js.contains "_" b = false -> Js.contains "<" b = false ->
  Js.contains "_" appName = false -> Js.contains "<" appName = false ->
  Js.contains "$" appName = false ->
  render appName (a +:+ "__Prefix" +:+ b) = a +:+ Template.Prefix t +:+ b
  /\ render appName (a +:+ "__PREFIX" +:+ b) = a +:+ Template.PREFIX t +:+ b
  /\ render appName (a +:+ "__prefix" +:+ b) = a +:+ Template.prefix t +:+ b
  /\ render appName (a +:+ "<NAME>" +:+ b) = a +:+ appName +:+ b
  /\ render appName (a +:+ "<GETTEXT_DOMAIN>" +:+ b) = a +:+ appName +:+ b.
Proof.
  intros t Hau Hal Hbu Hbl Hnu Hnl Hnd.
  destruct (derive_absent "_" appName (proj1 underscore_plain) (proj2 underscore_plain) Hnu)
    as (Hpu & HPu & HQu).
  destruct (derive_absent "<" appName (proj1 angle_plain) (proj2 angle_plain) Hnl)
    as (Hpl & HPl & HQl).
  destruct (derive_absent "$" appName (proj1 dollar_plain) (proj2 dollar_plain) Hnd)
    as (Hpd & HPd & HQd).
  fold t in Hpu, HPu, HQu, Hpl, HPl, HQl, Hpd, HPd, HQd.
  assert (Hu : forall m q, Js.contains "_" m = false ->
                 Js.contains (String "_" q) (a +:+ m +:+ b) = false).
  { intros m q Hm. apply contains_longer, contains_char_app3; assumption. }
  assert (Hl : forall m q, Js.contains "<" m = false ->
                 Js.contains (String "<" q) (a +:+ m +:+ b) = false).
  { intros m q Hm. apply contains_longer, contains_char_app3; assumption. }
  assert (Hub : forall q, Js.contains (String "_" q) b = false).
  { intros q. apply contains_longer, Hbu. }
  assert (Hlb : forall q, Js.contains (String "<" q) b = false).
  { intros q. apply contains_longer, Hbl. }
  unfold render. fold t. cbv zeta.
  split; [|split; [|split; [|split]]].
  - rewrite (all_token "_" "_Prefix" _ a b Hau Hbu HQd).
    rewrite (all_absent "__PREFIX") by (apply Hu; assumption).
    rewrite (all_absent "__prefix") by (apply Hu; assumption).
    rewrite (all_absent "<NAME>") by (apply Hl; assumption).
    apply all_absent, Hl; assumption.
  - rewrite (all_absent "__Prefix")
      by (rewrite contains_app_char by exact Hau; simpl; exact (Hub _)).
    rewrite (all_token "_" "_PREFIX" _ a b Hau Hbu HPd).
    rewrite (all_absent "__prefix") by (apply Hu; assumption).
    rewrite (all_absent "<NAME>") by (apply Hl; assumption).
    apply all_absent, Hl; assumption.
  - rewrite (all_absent "__Prefix")
      by (rewrite contains_app_char by exact Hau; simpl; exact (Hub _)).
    rewrite (all_absent "__PREFIX")
      by (rewrite contains_app_char by exact Hau; simpl; exact (Hub _)).
    rewrite (all_token "_" "_prefix" _ a b Hau Hbu Hpd).
    rewrite (all_absent "<NAME>") by (apply Hl; assumption).
    apply all_absent, Hl; assumption.
  - rewrite (all_absent "__Prefix") by (apply Hu; reflexivity).
    rewrite (all_absent "__PREFIX") by (apply Hu; reflexivity).
    rewrite (all_absent "__prefix") by (apply Hu; reflexivity).
    rewrite (all_token "<" "NAME>" _ a b Hal Hbl Hnd).
    apply all_absent, Hl; assumption.
  - rewrite (all_absent "__Prefix")
      by (rewrite contains_app_char by exact Hau; simpl; exact (Hub _)).
    rewrite (all_absent "__PREFIX")
      by (rewrite contains_app_char by exact Hau; simpl; exact (Hub _)).
    rewrite (all_absent "__prefix")
      by (rewrite contains_app_char by exact Hau; simpl; exact (Hub _)).
    rewrite (all_absent "<NAME>")
      by (rewrite contains_app_char by exact Hal; simpl; exact (Hlb _)).
    apply (all_token "<" "GETTEXT_DOMAIN>" _ a b Hal Hbl Hnd).
Qed.

Lemma render_token_witness :
  render "divi-foo-extension" "class __Prefix extends Module" = "class Foo extends Module".
Proof.
  exact (proj1 (render_token "divi-foo-extension" "class " " extends Module"
                  eq_refl eq_refl eq_refl eq_refl eq_refl eq_refl eq_refl)).
Defined.

(** ** Where the scaffold files are moved *)

Lemma append_nil_r s : s +:+ "" = s.
Proof. induction s as [|c r IH]; [reflexivity|]. rewrite append_cons, IH. reflexivity. Qed.

Lemma starts_with_len p s : Js.starts_with p s = true -> (Js.len p <= Js.len s)%nat.
Proof.
  revert s. induction p as [|x p IH]; intros s H; [simpl; lia|].
  destruct s as [|c r]; [discriminate|].
  change (Js.starts_with (String x p) (String c r))
    with (Ascii.eqb x c && Js.starts_with p r) in H.
  apply andb_true_iff in H as [_ H]. apply IH in H. simpl. lia.
Qed.

Lemma contains_len p s : Js.contains p s = true -> (Js.len p <= Js.len s)%nat.
Proof.
  induction s as [|c r IH]; intros H.
  - simpl in H. rewrite orb_false_r in H. apply starts_with_len, H.
  - rewrite contains_cons in H. apply orb_true_iff in H as [H|H].
    + apply starts_with_len, H.
    + apply IH in H. simpl. lia.
Qed.

(** A prefix test that fits inside [s] does not look at what follows. *)
Lemma starts_with_within p s t :
  (Js.len p <= Js.len s)%nat -> Js.starts_with p (s +:+ t) = Js.starts_with p s.
Proof.
  revert s. induction p as [|x p IH]; intros s H; [reflexivity|].
  destruct s as [|c r]; [simpl in H; lia|].
  rewrite append_cons.
  change (Js.starts_with (String x p) (String c (r +:+ t)))
    with (Ascii.eqb x c && Js.starts_with p (r +:+ t)).
  change (Js.starts_with (String x p) (String c r))
    with (Ascii.eqb x c && Js.starts_with p r).
  rewrite IH by (simpl in H; lia). reflexivity.
Qed.

Lemma drop_within n s t : (n <= Js.len s)%nat -> Js.drop n (s +:+ t) = Js.drop n s +:+ t.
Proof.
  revert s. induction n as [|n IH]; intros s H.
  - destruct s; destruct t; reflexivity.
  - destruct s as [|c r]; [simpl in H; lia|].
    rewrite append_cons. cbn [Js.drop]. apply IH. simpl in H. lia.
Qed.

(** The first occurrence lies in the part of the input that holds one. *)
Lemma first_from_within pat rep before s t :
  pat <> EmptyString ->
  Js.contains "$" rep = false ->
  Js.contains pat s = true ->
  Replace.first_from pat rep before (s +:+ t) = Replace.first_from pat rep before s +:+ t.
Proof.
  intros Hpat Hrep. revert before. induction s as [|c r IH]; intros before H.
  - simpl in H. rewrite orb_false_r in H. destruct pat; [congruence|discriminate].
  - pose proof (contains_len _ _ H) as Hlen.
    rewrite append_cons. cbn [Replace.first_from]. rewrite <- append_cons.
    rewrite (starts_with_within pat (String c r) t Hlen).
    destruct (Js.starts_with pat (String c r)) eqn:Hsw.
    + rewrite !expand_plain by exact Hrep.
      rewrite drop_within by exact Hlen. rewrite append_assoc. reflexivity.
    + rewrite contains_cons, Hsw in H. cbn [orb] in H.
      rewrite append_cons, (IH _ H). reflexivity.
Qed.

(** A pattern without [/] does not match across a [/]. *)
Lemma starts_with_slash pat s rest :
  Js.contains "/" pat = false ->
  Js.starts_with pat s = false ->
  Js.starts_with pat (s +:+ String "/" rest) = false.
Proof.
  revert s. induction pat as [|x p IH]; intros s Hp H; [discriminate|].
  apply contains_cons_false in Hp as [Hx Hp]. rewrite starts_with_char in Hx.
  destruct s as [|c r].
  - change (Js.starts_with (String x p) (EmptyString +:+ String "/" rest))
      with (Ascii.eqb x "/" && Js.starts_with p rest).
    rewrite Ascii.eqb_sym, Hx. reflexivity.
  - rewrite append_cons.
    change (Js.starts_with (String x p) (String c (r +:+ String "/" rest)))
      with (Ascii.eqb x c && Js.starts_with p (r +:+ String "/" rest)).
    change (Js.starts_with (String x p) (String c r))
      with (Ascii.eqb x c && Js.starts_with p r) in H.
    destruct (Ascii.eqb x c); [|reflexivity]. cbn [andb] in *. apply IH; assumption.
Qed.

Lemma first_from_copy pat rep before s rest :
  Js.contains "/" pat = false ->
  Js.contains pat s = false ->
  Replace.first_from pat rep before (s +:+ String "/" rest)
  = s +:+ Replace.first_from pat rep (before +:+ s) (String "/" rest).
Proof.
  intros Hp. revert before. induction s as [|c r IH]; intros before H.
  - rewrite append_nil_r. reflexivity.
  - apply contains_cons_false in H as [H1 H2].
    rewrite append_cons. cbn [Replace.first_from]. rewrite <- append_cons.
    rewrite (starts_with_slash pat (String c r) rest Hp H1).
    rewrite append_cons, (IH _ H2), append_assoc. reflexivity.
Qed.

(** X21.  The main file, for a directory name without [$]: when the path
    of the target directory does not hold [template], [template.php] is
    moved to [<directory name>.php] in the target directory; when it does,
    it is the first [template] of the path that is replaced, so that the
    file keeps the name [template.php] and is moved under another
    directory. *)
Theorem main_file_target_spec (E : Env) (root : string) :
  let name := path_basename E root in
  Js.contains "$" name = false ->
  (Js.contains "template" root = false ->
   main_file_target E root = root +:+ "/" +:+ name +:+ ".php")
  /\ (Js.contains "template" root = true ->
      main_file_target E root
      = Replace.first "template" name root +:+ "/template.php").
Proof.
  intros name Hname. unfold main_file_target. fold name. split; intros Hroot.
  - unfold Replace.first.
    rewrite (first_from_copy "template" name "" root "template.php" eq_refl Hroot).
    cbn [Replace.first_from Js.starts_with Ascii.eqb Bool.eqb andb Js.len Js.drop].
    rewrite expand_plain by exact Hname. reflexivity.
  - apply first_from_within; [discriminate|assumption|assumption].
Qed.

Lemma main_file_target_spec_witness :
  main_file_target Sample.default "/work/divi-sample" = "/work/divi-sample/divi-sample.php"
  /\ main_file_target Sample.default "/srv/templates/divi-sample"
     = "/srv/divi-samples/divi-sample/template.php".
Proof.
  destruct (main_file_target_spec Sample.default "/work/divi-sample" eq_refl) as [H1 _].
  destruct (main_file_target_spec Sample.default "/srv/templates/divi-sample" eq_refl)
    as [_ H2].
  split; [exact (H1 eq_refl)|]. rewrite (H2 eq_refl). reflexivity.
Defined.

(** X22.  The module file: when the path of the target directory does not
    hold [__Prefix] and the name holds no [$], [module/__Prefix_Custom.php]
    is moved to [module/<Prefix>_Custom.php]. *)
Theorem module_file_target_spec (root appName : string) :
  let Prefix := Template.Prefix (Template.derive appName) in
  Js.contains "$" appName = false ->
  Js.contains "__Prefix" root = false ->
  module_file_target root appName = root +:+ "/module/" +:+ Prefix +:+ "_Custom.php".
Proof.
  intros Prefix Hname Hroot.
  destruct (derive_absent "$" appName (proj1 dollar_plain) (proj2 dollar_plain) Hname)
    as (_ & _ & Hd).
  fold Prefix in Hd.
  unfold module_file_target, Replace.first. fold Prefix.
  rewrite (first_from_copy "__Prefix" Prefix "" root "module/__Prefix_Custom.php"
             eq_refl Hroot).
  cbn [Replace.first_from Js.starts_with Ascii.eqb Bool.eqb andb Js.len Js.drop].
  rewrite expand_plain by exact Hd. reflexivity.
Qed.

Lemma module_file_target_spec_witness :
  module_file_target "/work/divi-foo-extension" "divi-foo-extension"
  = "/work/divi-foo-extension/module/Foo_Custom.php".
Proof.
  exact (module_file_target_spec "/work/divi-foo-extension" "divi-foo-extension"
           eq_refl eq_refl).
Defined.

(** ** What [checkAppName] reports *)

Lemma forEach_log_lines (f : string -> string) l w :
  Proc.forEach l (fun x => Proc.log (f x)) w
  = ({| fs := fs w; cwd := cwd w; console := console w ++ map f l; events := events w |},
     Returned tt).
Proof.
  revert w. induction l as [|x l IH]; intros w.
  - destruct w. cbn. rewrite app_nil_r. reflexivity.
  - cbn [Proc.forEach]. unfold Proc.bind at 1. cbn [Proc.log]. rewrite IH.
    cbn [fs cwd console events map]. rewrite <- app_assoc. reflexivity.
Qed.

Lemma printValidationResults_lines results w :
  printValidationResults results w
  = ({| fs := fs w; cwd := cwd w;
        console := console w ++ map (fun error => "  *  " +:+ error) (default [] results);
        events := events w |}, Returned tt).
Proof.
  destruct results as [l|]; [apply forEach_log_lines|].
  destruct w. cbn. rewrite app_nil_r. reflexivity.
Qed.

(** X23.  For a name that validate-npm-package-name refuses,
    [checkAppName] prints the headline, then every error, then every
    warning, each as a bullet and in the order given, and ends the process
    with status 1; a list that is missing prints nothing. *)
Theorem checkAppName_reports_every_finding (E : Env) (appName : string) (w : World) :
  validForNewPackages (validateProjectName E appName) = false ->
  checkAppName E appName w
  = ({| fs := fs w; cwd := cwd w;
        console := console w ++ validation_report appName (validateProjectName E appName);
        events := events w |}, Exited 1).
Proof.
  intros H. unfold checkAppName, validation_report. rewrite H. cbn [negb].
  apply bind_exited. rewrite bind_log.
  rewrite (bind_returned _ _ _ _ _ (printValidationResults_lines _ _)).
  rewrite (bind_returned _ _ _ _ _ (printValidationResults_lines _ _)).
  cbn [fs cwd console events]. unfold Proc.exit.
  rewrite <- !app_assoc. reflexivity.
Qed.

Lemma checkAppName_reports_every_finding_witness :
  checkAppName Scenario.npm_rules "Divi Sample" Sample.fresh
  = ({| fs := fs Sample.fresh; cwd := AtOriginal;
        console := ["Could not create a project called " +:+ dquote +:+ "Divi Sample"
                    +:+ dquote +:+ " because of npm naming restrictions:";
                    "  *  name can only contain URL-friendly characters";
                    "  *  name can no longer contain capital letters"];
        events := [] |}, Exited 1).
Proof.
  exact (checkAppName_reports_every_finding Scenario.npm_rules "Divi Sample" Sample.fresh
           eq_refl).
Defined.

(** ** A failed install, end to end *)

(** When the name is resolved and the child process does not end with
    code 0, [run] goes on in the handler, on the directory as the child
    process left it. *)
Lemma run_rejected_install (E : Env) (root appName : string) (version : option string)
    (verbose useYarn : bool) (w : World) (packageName : string) :
  let packageToInstall := getInstallPackage E version in
  let command := install_command useYarn in
  let args := install_args useYarn ["react"; "react-dom"; packageToInstall] verbose
                (online E useYarn) in
  let child := child_process E command args (fs w) in
  (getPackageName E packageToInstall w).2 = Returned packageName ->
  child.2 <> Some 0 ->
  exists w3,
    run E root appName version verbose useYarn w
    = Proc.in_callback
        (rollback E root appName
           (InstallFailure (command +:+ " " +:+ String.concat " " args))) w3
    /\ fs w3 = child.1 /\ cwd w3 = cwd w.
Proof.
  intros pkg command args child Hname Hcode.
  unfold run. fold pkg. cbv zeta. rewrite bind_log.
  destruct (getPackageName_frame E pkg) as (lines & o & Hg).
  rewrite (Hg w) in Hname. cbn [snd] in Hname. subst o.
  assert (Honline : forall w1,
    exists w2, Proc.in_callback
      (Proc.then_ (checkIfOnline E useYarn) (fun isOnline => mret (isOnline, packageName))) w1
      = (w2, Returned (online E useYarn, packageName))
      /\ fs w2 = fs w1 /\ cwd w2 = cwd w1).
  { intros w1. unfold online, checkIfOnline. destruct useYarn; cbn [negb orb].
    - eexists. split; [reflexivity|]. split; reflexivity.
    - exists w1. split; [reflexivity|]. split; reflexivity. }
  match goal with |- context [Proc.catch_ _ _ ?W0] =>
    destruct (Honline (getPackageName E pkg W0).1) as (w2 & Hrun2 & Hfs2 & Hcwd2);
    rewrite (Hg W0) in Hrun2, Hfs2, Hcwd2
  end.
  cbn [fst fs cwd console events] in Hrun2, Hfs2, Hcwd2.
  destruct (install_closed E useYarn ["react"; "react-dom"; pkg] verbose (online E useYarn)
              {| fs := fs w2; cwd := cwd w2;
                 console := (console w2 ++ ["Installing react, react-dom, and "
                                            +:+ packageName +:+ "..."]) ++ [""];
                 events := events w2 |})
    as (lines' & Hinstall).
  cbn [fs cwd console events] in Hinstall.
  assert (Hc : child_process E (install_command useYarn)
                 (install_args useYarn ["react"; "react-dom"; pkg] verbose (online E useYarn))
                 (fs w2) = child).
  { rewrite Hfs2. reflexivity. }
  rewrite Hc in Hinstall.
  destruct (decide (child.2 = Some 0)) as [Heq|_]; [contradiction|].
  eexists. split.
  - apply catch_rejected. apply then_rejected.
    unfold Proc.then_ at 1 2. rewrite Hg. cbn [fs cwd console events]. rewrite Hrun2.
    unfold Proc.in_callback at 1. rewrite !bind_log.
    cbn [fst snd].
    rewrite (then_rejected _ _ _ _ _ Hinstall). reflexivity.
  - cbn [fs cwd]. split; [reflexivity|]. exact Hcwd2.
Qed.

(** X24 (end-to-end scenario B, from [createApp]).  On a target directory
    that did not exist, when the display name is resolved and the package
    manager fails leaving only allow-listed entries behind, nothing is
    left: [createApp] ends with status 1, the target directory is removed
    and the working directory is its parent. *)
Theorem failed_install_leaves_no_trace (E : Env) (name : string) (verbose : bool)
    (version : option string) (w : World) (packageName : string) :
  let root := path_resolve E name in
  let appName := path_basename E root in
  let scaffold :=
    {| root_exists := true; entries := ["package.json"];
       manifest := Some {| pkg_name := appName; pkg_version := "0.1.0";
                           dependencies := None; devDependencies := None |} |} in
  name_accepted E appName = true ->
  root_exists (fs w) = false ->
  (getPackageName E (getInstallPackage E (effective_version E version)) w).2
  = Returned packageName ->
  (forall command args,
     let child := child_process E command args scaffold in
     child.2 <> Some 0
     /\ root_exists child.1 = true
     /\ forall file, file ∈ entries child.1 -> allow_listed file = true) ->
  let r := createApp E name verbose version w in
  r.2 = Exited 1 /\ fs r.1 = removed /\ cwd r.1 = AtParent.
Proof.
  intros root appName scaffold Hname Hfresh Hpkg Hchild r.
  destruct (createApp_run E name verbose version w Hname
              ltac:(intros H; congruence)) as (w1 & Hrun & Hfs1 & Hcwd1 & _).
  fold root appName in Hrun, Hfs1.
  rewrite Hfresh in Hfs1. cbn [app] in Hfs1. fold scaffold in Hfs1.
  destruct (getPackageName_frame E (getInstallPackage E (effective_version E version)))
    as (lines & o & Hg).
  assert (Hpkg1 : (getPackageName E (getInstallPackage E (effective_version E version)) w1).2
                  = Returned packageName).
  { rewrite (Hg w) in Hpkg. rewrite (Hg w1). exact Hpkg. }
  match type of Hrun with _ = run _ _ _ _ _ ?y _ =>
    destruct (Hchild (install_command y)
                (install_args y ["react"; "react-dom";
                                 getInstallPackage E (effective_version E version)]
                   verbose (online E y))) as (Hcode & Hroot & Hall);
    destruct (run_rejected_install E root appName (effective_version E version) verbose y
                w1 packageName Hpkg1) as (w3 & Hrun3 & Hfs3 & Hcwd3);
    [rewrite Hfs1; exact Hcode|]
  end.
  rewrite Hfs1 in Hfs3.
  assert (Hroot3 : root_exists (fs w3) = true) by (rewrite Hfs3; exact Hroot).
  match type of Hrun3 with _ = Proc.in_callback (rollback _ _ _ ?reason) _ =>
    destruct (rollback_world E root appName reason w3 Hroot3) as (Hexit & Hrest)
  end.
  subst r. rewrite Hrun, Hrun3. unfold Proc.in_callback.
  match goal with |- context [rollback E root appName ?reason w3] =>
    destruct (rollback E root appName reason w3) as [w4 o4]
  end.
  cbn [fst snd] in *. subst o4. cbn [fst snd].
  destruct Hrest as [(_ & Hcwd & Hfs)|(Hne & _)].
  - auto.
  - exfalso. apply Hne. rewrite Hfs3.
    clear -Hall. induction (entries _) as [|e l IH]; [reflexivity|].
    rewrite filter_cons. destruct (decide (allow_listed e = false)) as [He|He].
    + rewrite (Hall e ltac:(left)) in He. discriminate.
    + apply IH. intros file Hin. apply Hall. right. exact Hin.
Qed.

Lemma failed_install_leaves_no_trace_witness :
  let r := createApp Sample.failing_install "divi-sample" false None Sample.fresh in
  r.2 = Exited 1 /\ fs r.1 = removed /\ cwd r.1 = AtParent.
Proof.
  apply (failed_install_leaves_no_trace Sample.failing_install "divi-sample" false None
           Sample.fresh "react-scripts" eq_refl eq_refl eq_refl).
  intros command args. split; [discriminate|]. split; [reflexivity|].
  intros file Hin. cbn in Hin.
  apply elem_of_cons in Hin as [->|Hin]; [reflexivity|].
  apply elem_of_cons in Hin as [->|Hin]; [reflexivity|].
  inversion Hin.
Defined.

(** ** A git specifier the pattern does not match *)

Lemma git_name_none s : Js.contains ".git" s = false -> Pattern.git_name s = None.
Proof.
  induction s as [|c r IH]; intros H.
  - reflexivity.
  - cbn [Pattern.git_name]. rewrite (git_group_none _ H).
    apply contains_cons_false in H as [_ H]. exact (IH H).
Qed.

(** X25.  A specifier that begins with [git+] and holds neither [.tgz]
    nor [.git] makes [run] throw at once: the [null] match is read outside
    the promise chain, so the handler is not entered and the directory,
    with the manifest [createApp] wrote, stays. *)
Theorem unmatched_git_specifier_throws (E : Env) (root appName : string)
    (version : option string) (verbose useYarn : bool) (w : World) :
  let packageToInstall := getInstallPackage E version in
  Js.starts_with "git+" packageToInstall = true ->
  Js.contains ".tgz" packageToInstall = false ->
  Js.contains ".git" packageToInstall = false ->
  let r := run E root appName version verbose useYarn w in
  r.2 = Thrown (TypeError "Cannot read property '1' of null")
  /\ fs r.1 = fs w /\ cwd r.1 = cwd w /\ events r.1 = events w.
Proof.
  intros pkg Hgit Htgz Hnone r. subst r. unfold run. fold pkg. cbv zeta.
  rewrite bind_log.
  unfold Proc.catch_, Proc.then_ at 1 2 3, getPackageName.
  rewrite Htgz, indexOf_0, Hgit, (git_name_none pkg Hnone).
  repeat split.
Qed.

Lemma unmatched_git_specifier_throws_witness :
  let r := run Sample.default "/work/divi-sample" "divi-sample"
             (Some "git+https://example.com/x/scripts") false false
             (Sample.world ["package.json"] None) in
  r.2 = Thrown (TypeError "Cannot read property '1' of null")
  /\ entries (fs r.1) = ["package.json"].
Proof.
  destruct (unmatched_git_specifier_throws Sample.default "/work/divi-sample" "divi-sample"
              (Some "git+https://example.com/x/scripts") false false
              (Sample.world ["package.json"] None) eq_refl eq_refl eq_refl)
    as (H1 & H2 & _).
  split; [exact H1|]. rewrite H2. reflexivity.
Defined.

(** * The orchestrator on sample runs *)

Example derive_foo :
  Template.derive "divi-foo-extension"
  = {| Template.prefix := "foo"; Template.PREFIX := "FOO"; Template.Prefix := "Foo" |}.
Proof. reflexivity. Qed.

Example derive_abcdef : Template.prefix (Template.derive "divi-abcdef") = "abc".
Proof. reflexivity. Qed.

Example derive_divi :
  Template.derive "divi"
  = {| Template.prefix := ""; Template.PREFIX := ""; Template.Prefix := "" |}.
Proof. reflexivity. Qed.

Example semver_samples :
  Semver.valid "1.2.3" = Some "1.2.3" /\ Semver.valid " v1.2.3 " = Some "1.2.3"
  /\ Semver.valid "1.2.3+build.5" = Some "1.2.3" /\ Semver.valid "1.0.0-a.tgz" = Some "1.0.0-a.tgz"
  /\ Semver.valid "01.2.3" = None /\ Semver.valid "1.2" = None /\ Semver.valid "1.2.3-" = None
  /\ Semver.valid "1.2.3-01" = None /\ Semver.valid "1.2.3-0a.-" = Some "1.2.3-0a.-"
  /\ Semver.valid "git+https://x/y.git" = None /\ Semver.valid "0.9.x" = None
  /\ Semver.validRange "^16.2.0" = true /\ Semver.validRange "^^16.2.0" = false
  /\ Semver.gte "5.6.0" "3.0.0" = Some true /\ Semver.gte "2.15.1" "3.0.0" = Some false.
Proof. vm_compute. repeat split. Qed.

Example sample_run_ok :
  let r := createApp Sample.default "divi-sample" false None Sample.fresh in
  r.2 = Returned tt
  /\ entries (fs r.1) = ["package.json"; "node_modules"]
  /\ (manifest (fs r.1) ≫= dependencies) = Some ∅
  /\ (d ← manifest (fs r.1) ≫= devDependencies;
      Some (prop d "react", prop d "react-dom", prop d "react-scripts"))
     = Some (JStr "^16.2.0", JStr "^16.2.0", JStr "1.0.17")
  /\ events r.1 = [Spawn "yarnpkg" ["--version"]; Spawn "npm" ["--version"];
                   Spawn "npm" ["install"; "--save"; "--save-exact";
                                "react"; "react-dom"; "react-scripts"]].
Proof. vm_compute. repeat split. Qed.

Example sample_install_failure :
  (createApp Sample.failing_install "divi-sample" false None Sample.fresh).2 = Exited 1
  /\ fs (createApp Sample.failing_install "divi-sample" false None Sample.fresh).1
     = {| root_exists := false; entries := []; manifest := None |}
  /\ cwd (createApp Sample.failing_install "divi-sample" false None Sample.fresh).1 = AtParent.
Proof. vm_compute. repeat split. Qed.

Example sample_install_failure_keeps_user_files :
  (createApp Sample.failing_install "divi-sample" false None (Sample.world ["README.md"; ".git"] None)).2
  = Exited 1
  /\ entries (fs (createApp Sample.failing_install "divi-sample" false None
                    (Sample.world ["README.md"; ".git"] None)).1)
     = ["README.md"; ".git"].
Proof. vm_compute. repeat split. Qed.

Example sample_archive_names :
  Pattern.tgz_name "https://mysite.com/my-react-scripts-0.8.2.tgz" = Some "my-react-scripts"
  /\ Pattern.tgz_name "./react-scripts-0.2.0-alpha.1.tgz" = Some "react-scripts"
  /\ Pattern.tgz_name "/tmp/foo-1.tgz" = Some "foo-1"
  /\ Pattern.tgz_name "react-scripts-0.2.0-alpha.1.tgz" = None
  /\ Pattern.tgz_name "https://mysite.com/a.tgz?x=1" = None.
Proof. repeat split. Qed.

Example sample_git_names :
  Pattern.git_name "git+https://github.com/mycompany/react-scripts.git" = Some "react-scripts"
  /\ Pattern.git_name "git+ssh://github.com/mycompany/react-scripts.git#v1.2.3"
     = Some "react-scripts"
  /\ Pattern.git_name "git+https://github.com/mycompany/react-scripts" = None.
Proof. repeat split. Qed.

Example sample_plain_names :
  getPackageName Sample.default "my-react-scripts@next" Sample.fresh
  = (Sample.fresh, Returned "my-react-scripts")
  /\ getPackageName Sample.default "my-react-scripts" Sample.fresh
     = (Sample.fresh, Returned "my-react-scripts")
  /\ getPackageName Sample.default "@scope/my-scripts" Sample.fresh
     = (Sample.fresh, Returned "@scope/my-scripts").
Proof. repeat split. Qed.

(** An archive the unpacker rejects, given without a directory: the
    fallback throws in its turn, the run is rolled back and ends with
    status 1. *)
Example sample_archive_fallback_fatal :
  (createApp Sample.default "divi-sample" false (Some "react-scripts-0.2.0-alpha.1.tgz")
     Sample.fresh).2 = Exited 1
  /\ root_exists (fs (createApp Sample.default "divi-sample" false
                         (Some "react-scripts-0.2.0-alpha.1.tgz") Sample.fresh).1) = false.
Proof. vm_compute. split; reflexivity. Qed.

(** A package name that every object inherits is not missed: the manifest
    has no entry for [constructor], the read finds the built-in function,
    and [fixDependencies] goes on to the end. *)
Example sample_inherited_name_not_missed :
  lacks_required Sample.installed_ok "constructor"
  /\ (fixDependencies Sample.default "constructor"
        (Sample.world ["package.json"; "node_modules"] (Some Sample.installed_ok))).2
     = Returned tt.
Proof. split; [left; reflexivity | vm_compute; reflexivity]. Qed.

(** A git specifier without [.git] throws before the promise chain exists:
    nothing catches it and the manifest written by [createApp] stays. *)
Example sample_git_without_suffix :
  (createApp Sample.default "divi-sample" false
     (Some "git+https://github.com/mycompany/react-scripts") Sample.fresh).2
  = Thrown (TypeError "Cannot read property '1' of null")
  /\ entries (fs (createApp Sample.default "divi-sample" false
                     (Some "git+https://github.com/mycompany/react-scripts")
                     Sample.fresh).1) = ["package.json"].
Proof. vm_compute. split; reflexivity. Qed.

